(** * Expense tracker: the query and report layer

    A shallow embedding of the analytical core of the expense tracker
    (src/database/sqlite-adapter.js, src/database/sqlite-methods.js and
    src/utils/helpers.js) together with the properties its specification
    states about it.

    Conventions of the embedding.
    - A JavaScript number and an SQLite REAL are rationals ([Q]); sums,
      differences and quotients are exact.  Counts, pages and limits are
      integers ([Z]).
    - A table is the list of its rows in scan order; a parameterised SQL
      statement is the list comprehension it denotes.
    - An exception is the [Err] case of [result]; [try]/[catch] is a match.
    - The clock ([new Date()]) and the id generator are arguments. *)

From Stdlib Require Import ZArith QArith Qround Qabs Lqa Lia List String Ascii Bool.
From Stdlib Require Import Sorted Permutation DecimalString OrdersEx.
From stdpp Require Import gmap strings list fin_maps.
Import ListNotations.

Set Warnings "-register-all".

Local Open Scope string_scope.
Local Open Scope list_scope.

(** ** Exceptions *)

Inductive result (A : Type) : Type :=
| Ok (a : A)
| Err (message : string).
Arguments Ok {A} a.
Arguments Err {A} message.

(** Sequencing: [x ← r; k] runs [k] unless [r] threw. *)
#[global] Instance result_bind : MBind result := fun A B k r =>
  match r with
  | Ok a => k a
  | Err m => Err m
  end.

(** ** JavaScript values that reach the formatter and the response *)

Inductive value : Type :=
| VUndefined
| VNull
| VBool (b : bool)
| VNum (q : Q)
| VStr (s : string).

Definition Qlt_bool (x y : Q) : bool := negb (Qle_bool y x).

(** [!!v] of JavaScript: the falsy values are [undefined], [null], [false],
    [0] and the empty string. *)
Definition truthy (v : value) : bool :=
  match v with
  | VUndefined | VNull => false
  | VBool b => b
  | VNum q => negb (Qeq_bool q 0)
  | VStr s => negb (String.eqb s "")
  end.

(** An optional string property: absent, or present with its text. *)
Definition truthy_str (o : option string) : bool :=
  match o with
  | Some s => negb (String.eqb s "")
  | None => false
  end.

(** [o || d] on an optional string. *)
Definition or_default (o : option string) (d : string) : string :=
  match o with
  | Some s => if String.eqb s "" then d else s
  | None => d
  end.

(** ** Decimal rendering *)

Definition digits (n : Z) : string := NilZero.string_of_uint (N.to_uint (Z.to_N n)).

Definition digit (n : Z) : ascii := ascii_of_N (48 + Z.to_N (n mod 10)).

Definition pad2 (n : Z) : string :=
  String (digit (n / 10)) (String (digit n) "").

Definition pad4 (n : Z) : string :=
  String (digit (n / 1000)) (String (digit (n / 100)) (pad2 n)).

(** [x.toFixed(2)].  The sign is split off, [n] is the integer for which
    [n / 100] is closest to [|x|] (the larger one on a tie), and the digits
    of [n] are printed with the point before the last two.  (For
    [|x| >= 10^21] JavaScript prints an exponent form instead; amounts of
    that size are outside the embedding.) *)
Definition hundredths (x : Q) : Z := Qfloor (Qabs x * 100 + (1 # 2)).

Definition round2 (x : Q) : Z :=
  if Qlt_bool x 0 then (- hundredths x)%Z else hundredths x.

Definition toFixed2 (x : Q) : string :=
  let s := if Qlt_bool x 0 then "-" else "" in
  let n := hundredths x in
  s ++ digits (n / 100) ++ "." ++ pad2 (n mod 100).

(** [SUM] of SQL and [reduce((s, x) => s + x, 0)] of JavaScript. *)
Definition Qsum (l : list Q) : Q := fold_left Qplus l 0%Q.

(** ** Text comparison (SQLite's BINARY collation, JavaScript's [<] on strings) *)

Definition str_le (a b : string) : bool := String.leb a b.
Definition str_lt (a b : string) : bool := String.ltb a b.

(** ** The schema (createTables) *)

(** A stored calendar day.  The [date] column is only ever written through
    [formatDate] or the seed rows, both of which produce the ten characters
    [YYYY-MM-DD] of a real day of the years 0000 to 9999. *)
Record Date : Type := mkDate { year : Z; month : Z; day : Z }.

Definition date_text (d : Date) : string :=
  pad4 (year d) ++ "-" ++ pad2 (month d) ++ "-" ++ pad2 (day d).

Record Category : Type := mkCategory {
  c_id : string;
  c_name : string;
  c_type : string;
  c_parent_id : option string;
  c_description : option string;
  c_active : bool
}.

Record Ledger : Type := mkLedger {
  l_id : string;
  l_name : string;
  l_type : string;
  l_balance : Q;
  l_currency : string;
  l_active : bool
}.

Record Budget : Type := mkBudget {
  b_id : string;
  b_category_id : string;
  b_amount : Q;
  b_period : string;
  b_start_date : string;
  b_end_date : option string;
  b_active : bool
}.

Record Transaction : Type := mkTransaction {
  t_id : string;
  t_type : string;
  t_amount : Q;
  t_category_id : string;
  t_ledger_id : string;
  t_description : string;
  t_date : Date;
  t_tags : string
}.

Record Store : Type := mkStore {
  categories : list Category;
  ledgers : list Ledger;
  budgets : list Budget;
  transactions : list Transaction
}.

(** [SELECT * FROM categories WHERE id = ?] through [dbGet]: the first row. *)
Definition get_category (st : Store) (id : string) : option Category :=
  List.find (fun c => String.eqb (c_id c) id) (categories st).

Definition get_ledger (st : Store) (id : string) : option Ledger :=
  List.find (fun l => String.eqb (l_id l) id) (ledgers st).

(** ** The SQL engine: the relational operators the statements use *)

(** [ORDER BY]: an insertion sort by [le]; rows that compare equal keep
    their scan order (the engine leaves their order open). *)
Section OrderBy.
Context {A : Type} (le : A -> A -> bool).

Fixpoint insert_sorted (x : A) (l : list A) : list A :=
  match l with
  | [] => [x]
  | y :: l' => if le x y then x :: l else y :: insert_sorted x l'
  end.

Definition order_by (l : list A) : list A := fold_right insert_sorted [] l.
End OrderBy.

(** [GROUP BY key ... ORDER BY key]: one group per distinct key, keys
    ascending, each group holding its rows in scan order. *)
Section GroupBy.
Context {A : Type} (key : A -> string).

Fixpoint insert_key (k : string) (ks : list string) : list string :=
  match ks with
  | [] => [k]
  | k' :: ks' =>
      match String.compare k k' with
      | Lt => k :: ks
      | Eq => ks
      | Gt => k' :: insert_key k ks'
      end
  end.

Definition group_keys (rows : list A) : list string :=
  fold_right insert_key [] (map key rows).

Definition group_by (rows : list A) : list (string * list A) :=
  map (fun k => (k, List.filter (fun r => String.eqb (key r) k) rows))
      (group_keys rows).
End GroupBy.

(** [LIMIT ? OFFSET ?]: a negative limit means no limit, a negative offset
    means none. *)
Definition limit_offset {A : Type} (limit offset : Z) (rows : list A) : list A :=
  let rest := skipn (Z.to_nat offset) rows in
  if (limit <? 0)%Z then rest else firstn (Z.to_nat limit) rest.

(** [x LIKE pattern]: [%] matches any run of characters, [_] any single
    one, and letters match without regard to ASCII case. *)
Definition lower (c : ascii) : ascii :=
  let n := nat_of_ascii c in
  if (65 <=? n)%nat && (n <=? 90)%nat then ascii_of_nat (n + 32) else c.

Fixpoint like (pattern x : string) : bool :=
  match pattern with
  | "" => match x with "" => true | _ => false end
  | String p pattern' =>
      if Ascii.eqb p "%" then
        (fix any (x : string) : bool :=
           like pattern' x ||
           match x with
           | "" => false
           | String _ x' => any x'
           end) x
      else
        match x with
        | "" => false
        | String c x' =>
            (Ascii.eqb p "_" || Ascii.eqb (lower p) (lower c)) && like pattern' x'
        end
  end.

Definition in_list (x : string) (l : list string) : bool :=
  existsb (String.eqb x) l.

(** ** sqlite-adapter.js: queryTransactions *)

Record QueryFilters : Type := mkQueryFilters {
  date_start : option string;
  date_end : option string;
  f_categories : option (list string);
  f_ledgers : option (list string);
  search_text : option string;
  min_amount : option Q;
  max_amount : option Q
}.

Record Pagination : Type := mkPagination {
  p_page : option Z;
  p_limit : option Z
}.

Inductive SortOrder : Type := asc | desc.

Record Sort : Type := mkSort {
  s_field : option string;
  s_order : option SortOrder
}.

Record QueryOptions : Type := mkQueryOptions {
  q_type : option string;
  q_filters : QueryFilters;
  q_pagination : Pagination;
  q_sort : Sort
}.

(** A transaction joined with its category and its ledger. *)
Record TransactionRow : Type := mkTransactionRow {
  r_txn : Transaction;
  r_category_name : string;
  r_category_type : string;
  r_ledger_name : string
}.

(** [FROM transactions t JOIN categories c ON t.category_id = c.id
     JOIN ledgers l ON t.ledger_id = l.id] *)
Definition joined (st : Store) : list TransactionRow :=
  flat_map (fun t =>
    match get_category st (t_category_id t), get_ledger st (t_ledger_id t) with
    | Some c, Some l => [mkTransactionRow t (c_name c) (c_type c) (l_name l)]
    | _, _ => []
    end) (transactions st).

Definition nonempty (o : option (list string)) : option (list string) :=
  match o with
  | Some (x :: l) => Some (x :: l)
  | _ => None
  end.

(** The conditions pushed by queryTransactions, joined with AND. *)
Definition query_where (type : string) (f : QueryFilters) (r : TransactionRow) : bool :=
  let t := r_txn r in
  (if String.eqb type "all" then true else String.eqb (t_type t) type)
  && (if truthy_str (date_start f)
      then str_le (or_default (date_start f) "") (date_text (t_date t)) else true)
  && (if truthy_str (date_end f)
      then str_le (date_text (t_date t)) (or_default (date_end f) "") else true)
  && match nonempty (f_categories f) with
     | Some cs => in_list (t_category_id t) cs
     | None => true
     end
  && match nonempty (f_ledgers f) with
     | Some ls => in_list (t_ledger_id t) ls
     | None => true
     end
  && (if truthy_str (search_text f)
      then like ("%" ++ or_default (search_text f) "" ++ "%") (t_description t) else true)
  && match min_amount f with
     | Some m => Qle_bool m (t_amount t)
     | None => true
     end
  && match max_amount f with
     | Some m => Qle_bool (t_amount t) m
     | None => true
     end.

(** The ORDER BY clause: [c.name], [t.date] or, for any other field,
    [t.amount]; descending unless the order is [asc]; [t.date DESC] when no
    field is given. *)
Definition query_le (s : Sort) (x y : TransactionRow) : bool :=
  let up (x y : TransactionRow) : bool :=
    if truthy_str (s_field s) then
      if String.eqb (or_default (s_field s) "") "category"
      then str_le (r_category_name x) (r_category_name y)
      else if String.eqb (or_default (s_field s) "") "date"
      then str_le (date_text (t_date (r_txn x))) (date_text (t_date (r_txn y)))
      else Qle_bool (t_amount (r_txn x)) (t_amount (r_txn y))
    else str_le (date_text (t_date (r_txn x))) (date_text (t_date (r_txn y))) in
  if truthy_str (s_field s) then
    match s_order s with
    | Some asc => up x y
    | _ => up y x
    end
  else up y x.

Record PageInfo : Type := mkPageInfo {
  page : Z;
  limit : Z;
  total : Z;
  has_next : bool
}.

Record QueryResult : Type := mkQueryResult {
  qr_transactions : list TransactionRow;
  qr_pagination : PageInfo
}.

Definition queryTransactions (st : Store) (options : QueryOptions) : QueryResult :=
  let type := default "all" (q_type options) in
  let filters := q_filters options in
  let matching := List.filter (query_where type filters) (joined st) in
  let sorted := order_by (query_le (q_sort options)) matching in
  let page := default 1%Z (p_page (q_pagination options)) in
  let limit := default 50%Z (p_limit (q_pagination options)) in
  let actualLimit := Z.min limit 100 in
  let offset := ((page - 1) * actualLimit)%Z in
  let totalCount := Z.of_nat (length matching) in
  let transactions := limit_offset actualLimit offset sorted in
  {| qr_transactions := transactions;
     qr_pagination := {| page := page;
                         limit := actualLimit;
                         total := totalCount;
                         has_next := (page * actualLimit <? totalCount)%Z |} |}.

(** ** utils/helpers.js: generateId, formatDate, validateTransaction *)

(** [generateId(prefix)]: the prefix, the clock in milliseconds and nine
    random characters; [entropy] stands for the two that vary. *)
Definition generateId (entropy : string) (prefix : string) : string :=
  prefix ++ "_" ++ entropy.

(** The [date] property of a request, by what [new Date(date)] makes of it. *)
Inductive DateArg : Type :=
| DateAbsent
| DateOf (d : Date)
| DateInvalid (text : string).

(** [formatDate]: today when the date is absent, else the UTC day of the
    parsed date; [toISOString] throws a RangeError on an invalid date. *)
Definition formatDate (today : Date) (date : DateArg) : result Date :=
  match date with
  | DateAbsent => Ok today
  | DateOf d => Ok d
  | DateInvalid _ => Err "Invalid time value"
  end.

Record TransactionInput : Type := mkTransactionInput {
  type : option string;
  amount : option Q;
  category : option string;
  description : option string;
  date : DateArg;
  ledger_id : option string;
  tags : option (list string)
}.

Definition validateTransaction (transaction : TransactionInput) : list string :=
  let errors := [] in
  let errors :=
    if negb (truthy_str (type transaction))
       || negb (in_list (or_default (type transaction) "") ["income"; "expense"])
    then errors ++ ["Invalid transaction type"] else errors in
  let errors :=
    if match amount transaction with
       | Some a => negb (truthy (VNum a)) || Qle_bool a 0
       | None => true
       end
    then errors ++ ["Invalid amount"] else errors in
  let errors :=
    if negb (truthy_str (category transaction))
    then errors ++ ["Category is required"] else errors in
  errors.

(** ** sqlite-adapter.js: batchCreateTransactions *)

(** [INSERT INTO transactions ...]: rejected by the primary key when the id
    is taken and by the CHECK on [type]. *)
Definition insert_transaction (st : Store) (row : Transaction) : result Store :=
  if existsb (fun t => String.eqb (t_id t) (t_id row)) (transactions st)
  then Err "SQLITE_CONSTRAINT: UNIQUE constraint failed: transactions.id"
  else if negb (in_list (t_type row) ["income"; "expense"])
  then Err "SQLITE_CONSTRAINT: CHECK constraint failed: transactions"
  else Ok {| categories := categories st;
             ledgers := ledgers st;
             budgets := budgets st;
             transactions := transactions st ++ [row] |}.

Record BatchEntry : Type := mkBatchEntry {
  index : nat;
  status : string;
  transaction_id : option string;
  transaction : TransactionInput
}.

Record BatchError : Type := mkBatchError {
  e_index : nat;
  error : string;
  e_transaction : TransactionInput
}.

Record BatchSummary : Type := mkBatchSummary {
  sm_total : nat;
  successful : nat;
  failed : nat;
  validate_only : bool
}.

Record BatchResult : Type := mkBatchResult {
  results : list BatchEntry;
  errors : list BatchError;
  summary : BatchSummary
}.

Section Batch.
Context (today : Date) (entropy : nat -> string) (validateOnly : bool).

(** The body of the [try] block for the item at index [i]. *)
Definition batch_item (st : Store) (i : nat) (txn : TransactionInput)
  : result (Store * BatchEntry) :=
  let validationErrors := validateTransaction txn in
  if (0 <? length validationErrors)%nat
  then Err (String.concat ", " validationErrors)
  else
    match get_category st (or_default (category txn) "") with
    | None => Err ("Category not found: " ++ or_default (category txn) "")
    | Some _ =>
        let ledger_id := or_default (ledger_id txn) "checking" in
        match get_ledger st ledger_id with
        | None => Err ("Ledger not found: " ++ ledger_id)
        | Some _ =>
            if validateOnly
            then Ok (st, mkBatchEntry i "valid" None txn)
            else
              let transaction_id := generateId (entropy i) "txn" in
              let tags :=
                match tags txn with
                | Some ts => String.concat "," ts
                | None => ""
                end in
              d ← formatDate today (date txn);
              st' ← insert_transaction st
                     (mkTransaction transaction_id
                        (or_default (type txn) "")
                        (default 0%Q (amount txn))
                        (or_default (category txn) "")
                        ledger_id
                        (or_default (description txn) "")
                        d
                        tags);
              Ok (st', mkBatchEntry i "created" (Some transaction_id) txn)
        end
    end.

(** The [for] loop from index [i] on, with its [catch]. *)
Fixpoint batch_loop (i : nat) (txns : list TransactionInput) (st : Store)
    (results : list BatchEntry) (errors : list BatchError)
  : Store * list BatchEntry * list BatchError :=
  match txns with
  | [] => (st, results, errors)
  | txn :: rest =>
      match batch_item st i txn with
      | Ok (st', entry) => batch_loop (S i) rest st' (results ++ [entry]) errors
      | Err message =>
          batch_loop (S i) rest st results (errors ++ [mkBatchError i message txn])
      end
  end.

Definition batchCreateTransactions (st : Store) (transactions : list TransactionInput)
  : Store * BatchResult :=
  let '(st', results, errors) := batch_loop 0 transactions st [] [] in
  (st', {| results := results;
           errors := errors;
           summary := {| sm_total := length transactions;
                         successful := length results;
                         failed := length errors;
                         validate_only := validateOnly |} |}).
End Batch.

(** ** The calendar behind [strftime] *)

(** Days since 1970-01-01 of a day of the proleptic Gregorian calendar. *)
Definition days_from_civil (y m d : Z) : Z :=
  let y := if (m <=? 2)%Z then (y - 1)%Z else y in
  let era := (y / 400)%Z in
  let yoe := (y mod 400)%Z in
  let mp := if (m >? 2)%Z then (m - 3)%Z else (m + 9)%Z in
  let doy := ((153 * mp + 2) / 5 + d - 1)%Z in
  let doe := (yoe * 365 + yoe / 4 - yoe / 100 + doy)%Z in
  (era * 146097 + doe - 719468)%Z.

Definition day_number (d : Date) : Z := days_from_civil (year d) (month d) (day d).

(** Day of the week, 0 for Monday up to 6 for Sunday. *)
Definition weekday (d : Date) : Z := ((day_number d + 3) mod 7)%Z.

(** Days since the first of January of the same year. *)
Definition day_of_year (d : Date) : Z :=
  (day_number d - days_from_civil (year d) 1 1)%Z.

(** The [%W] conversion: [(nDay + 7 - wd) / 7], the week of the year in
    which week 01 starts on the first Monday. *)
Definition week_W (d : Date) : Z := ((day_of_year d + 7 - weekday d) / 7)%Z.

(** [strftime(format, date)] for the conversions the adapter uses: [%Y],
    [%m], [%d] and [%W]; other characters are copied. *)
Fixpoint strftime (format : string) (d : Date) : string :=
  match format with
  | String "%" (String c rest) =>
      (if Ascii.eqb c "Y" then pad4 (year d)
       else if Ascii.eqb c "m" then pad2 (month d)
       else if Ascii.eqb c "d" then pad2 (day d)
       else if Ascii.eqb c "W" then pad2 (week_W d)
       else "") ++ strftime rest d
  | String c rest => String c (strftime rest d)
  | "" => ""
  end.

(** ** sqlite-adapter.js: analyzeSpending *)

Record Period : Type := mkPeriod {
  p_start : string;
  p_end : string;
  grouping : option string
}.

Record AnalysisFilters : Type := mkAnalysisFilters {
  transaction_type : option string;
  a_categories : option (list string)
}.

(** [t.date >= ? AND t.date <= ?] with the bounds of the period. *)
Definition in_window (period : Period) (t : Transaction) : bool :=
  str_le (p_start period) (date_text (t_date t))
  && str_le (date_text (t_date t)) (p_end period).

Definition type_filter (filters : AnalysisFilters) (t : Transaction) : bool :=
  if truthy_str (transaction_type filters)
  then String.eqb (t_type t) (or_default (transaction_type filters) "")
  else true.

(** *** category_breakdown *)

Record BreakdownGroup : Type := mkBreakdownGroup {
  g_category : string;
  g_category_id : string;
  g_type : string;
  total_amount : Q;
  transaction_count : Z;
  avg_amount : Q
}.

Record BreakdownItem : Type := mkBreakdownItem {
  item : BreakdownGroup;
  percentage : value
}.

(** The conditions of the breakdown statement on one joined row: the
    window, then the transaction type and the category set when the filters
    give them. *)
Definition breakdown_where (period : Period) (filters : AnalysisFilters)
    (r : Transaction * Category) : bool :=
  in_window period (fst r)
  && type_filter filters (fst r)
  && match nonempty (a_categories filters) with
     | Some cs => in_list (t_category_id (fst r)) cs
     | None => true
     end.

(** The rows of the breakdown statement before grouping. *)
Definition breakdown_rows (st : Store) (period : Period) (filters : AnalysisFilters)
  : list (Transaction * Category) :=
  List.filter (breakdown_where period filters)
    (flat_map (fun t =>
       match get_category st (t_category_id t) with
       | Some c => [(t, c)]
       | None => []
       end) (transactions st)).

Definition breakdown_group (g : string * list (Transaction * Category))
  : list BreakdownGroup :=
  match snd g with
  | [] => []
  | (_, c) :: _ =>
      let amounts := map (fun r => t_amount (fst r)) (snd g) in
      [ {| g_category := c_name c;
           g_category_id := c_id c;
           g_type := c_type c;
           total_amount := Qsum amounts;
           transaction_count := Z.of_nat (length amounts);
           avg_amount := Qsum amounts / inject_Z (Z.of_nat (length amounts)) |} ]
  end.

(** [... GROUP BY c.id, c.name, c.type ORDER BY total_amount DESC] *)
Definition breakdown_query (st : Store) (period : Period) (filters : AnalysisFilters)
  : list BreakdownGroup :=
  order_by (fun x y => Qle_bool (total_amount y) (total_amount x))
    (flat_map breakdown_group
       (group_by (fun r => c_id (snd r)) (breakdown_rows st period filters))).

Definition category_breakdown (st : Store) (period : Period) (filters : AnalysisFilters)
  : list BreakdownItem * Q :=
  let breakdown := breakdown_query st period filters in
  let total := fold_left (fun sum item => (sum + total_amount item)%Q) breakdown 0%Q in
  let result :=
    map (fun item =>
           {| item := item;
              percentage := if Qlt_bool 0 total
                            then VStr (toFixed2 (total_amount item / total * 100))
                            else VNum 0 |}) breakdown in
  (result, total).

(** *** time_trend *)

Record TrendRow : Type := mkTrendRow {
  tr_period : string;
  expenses : Q;
  income : Q;
  tr_transaction_count : Z
}.

Definition dateFormat (grouping : string) : string :=
  if String.eqb grouping "day" then "%Y-%m-%d"
  else if String.eqb grouping "week" then "%Y-%W"
  else if String.eqb grouping "month" then "%Y-%m"
  else "%Y-%m".

Definition trend_rows (st : Store) (period : Period) (filters : AnalysisFilters)
  : list Transaction :=
  List.filter (fun t => in_window period t && type_filter filters t) (transactions st).

Definition trend_row (g : string * list Transaction) : TrendRow :=
  {| tr_period := fst g;
     expenses := Qsum (map (fun t => if String.eqb (t_type t) "expense"
                                     then t_amount t else 0%Q) (snd g));
     income := Qsum (map (fun t => if String.eqb (t_type t) "income"
                                   then t_amount t else 0%Q) (snd g));
     tr_transaction_count := Z.of_nat (length (snd g)) |}.

Definition time_trend (st : Store) (period : Period) (filters : AnalysisFilters)
  : list TrendRow * string :=
  let grouping := default "month" (grouping period) in
  let dateFormat := dateFormat grouping in
  let trends :=
    map trend_row
      (group_by (fun t => strftime dateFormat (t_date t)) (trend_rows st period filters)) in
  (trends, grouping).

(** *** budget_variance *)

Record VarianceRow : Type := mkVarianceRow {
  budget_id : string;
  budgeted_amount : Q;
  v_period : string;
  category_name : string;
  category_id : string;
  actual_amount : Q
}.

Record VarianceItem : Type := mkVarianceItem {
  v_row : VarianceRow;
  variance : Q;
  variance_percentage : value;
  v_status : string
}.

(** [budgets b JOIN categories c LEFT JOIN transactions t ... WHERE
    b.active = 1]: a budget without a matching transaction keeps one row
    with a NULL transaction. *)
Definition budget_expenses (st : Store) (period : Period) (c : Category)
  : list Transaction :=
  List.filter (fun t =>
      String.eqb (t_category_id t) (c_id c)
      && in_window period t
      && String.eqb (t_type t) "expense") (transactions st).

Definition variance_rows_of (st : Store) (period : Period) (b : Budget)
  : list (Budget * Category * option Transaction) :=
  if b_active b then
    match get_category st (b_category_id b) with
    | Some c =>
        match budget_expenses st period c with
        | [] => [(b, c, None)]
        | ts => map (fun t => (b, c, Some t)) ts
        end
    | None => []
    end
  else [].

Definition variance_rows (st : Store) (period : Period)
  : list (Budget * Category * option Transaction) :=
  flat_map (variance_rows_of st period) (budgets st).

(** One group per budget ([b.id] is the primary key, so the other grouping
    columns depend on it); [COALESCE(SUM(t.amount), 0)] skips the NULL row. *)
Definition variance_group (g : string * list (Budget * Category * option Transaction))
  : list VarianceRow :=
  match snd g with
  | [] => []
  | (b, c, _) :: _ =>
      [ {| budget_id := b_id b;
           budgeted_amount := b_amount b;
           v_period := b_period b;
           category_name := c_name c;
           category_id := c_id c;
           actual_amount :=
             Qsum (flat_map (fun r => match snd r with
                                      | Some t => [t_amount t]
                                      | None => []
                                      end) (snd g)) |} ]
  end.

Definition variance_query (st : Store) (period : Period) : list VarianceRow :=
  flat_map variance_group
    (group_by (fun r => b_id (fst (fst r))) (variance_rows st period)).

Definition variance_item (item : VarianceRow) : VarianceItem :=
  {| v_row := item;
     variance := actual_amount item - budgeted_amount item;
     variance_percentage :=
       if Qlt_bool 0 (budgeted_amount item)
       then VStr (toFixed2 ((actual_amount item - budgeted_amount item)
                            / budgeted_amount item * 100))
       else VNum 0;
     v_status := if Qlt_bool (budgeted_amount item) (actual_amount item)
                 then "over" else "under" |}.

Definition budget_variance (st : Store) (period : Period) : list VarianceItem * Period :=
  (map variance_item (variance_query st period), period).

Inductive Analysis : Type :=
| CategoryBreakdown (breakdown : list BreakdownItem) (total_amount : Q)
| TimeTrend (trends : list TrendRow) (grouping : string)
| BudgetVariance (variances : list VarianceItem) (period : Period).

Definition analyzeSpending (st : Store) (analysisType : string) (period : Period)
    (filters : AnalysisFilters) : result Analysis :=
  if String.eqb analysisType "category_breakdown" then
    let '(breakdown, total) := category_breakdown st period filters in
    Ok (CategoryBreakdown breakdown total)
  else if String.eqb analysisType "time_trend" then
    let '(trends, grouping) := time_trend st period filters in
    Ok (TimeTrend trends grouping)
  else if String.eqb analysisType "budget_variance" then
    let '(variances, period) := budget_variance st period in
    Ok (BudgetVariance variances period)
  else Err ("Unknown analysis_type: " ++ analysisType).

(** ** sqlite-methods.js: getRecordDetails *)

Record TransactionDetail : Type := mkTransactionDetail {
  d_txn : Transaction;
  d_category_name : string;
  d_category_type : string;
  d_ledger_name : string;
  d_ledger_type : string
}.

Record BudgetDetail : Type := mkBudgetDetail {
  d_budget : Budget;
  bd_category_name : string;
  bd_category_type : string
}.

Record RelatedTransaction : Type := mkRelatedTransaction {
  rt_txn : Transaction;
  rt_category_name : string
}.

Record DailyTotal : Type := mkDailyTotal {
  dt_date : string;
  daily_total : Q
}.

Inductive RecordDetails : Type :=
| TransactionRecord (transaction : TransactionDetail)
    (related_transactions : option (list RelatedTransaction))
| LedgerRecord (ledger : Ledger)
    (recent_transactions : option (list RelatedTransaction))
| BudgetRecord (budget : BudgetDetail)
    (monthly_spending : option (list DailyTotal)).

(** [transactions t JOIN categories c ... JOIN ledgers l ... WHERE t.id = ?] *)
Definition transaction_detail (st : Store) (recordId : string) : option TransactionDetail :=
  List.find (fun r => String.eqb (t_id (d_txn r)) recordId)
    (flat_map (fun t =>
       match get_category st (t_category_id t), get_ledger st (t_ledger_id t) with
       | Some c, Some l =>
           [mkTransactionDetail t (c_name c) (c_type c) (l_name l) (l_type l)]
       | _, _ => []
       end) (transactions st)).

(** [budgets b JOIN categories c ON b.category_id = c.id WHERE b.id = ?] *)
Definition budget_detail (st : Store) (recordId : string) : option BudgetDetail :=
  List.find (fun r => String.eqb (b_id (d_budget r)) recordId)
    (flat_map (fun b =>
       match get_category st (b_category_id b) with
       | Some c => [mkBudgetDetail b (c_name c) (c_type c)]
       | None => []
       end) (budgets st)).

(** [SELECT t.*, c.name as category_name FROM transactions t JOIN categories c
     ... WHERE keep ORDER BY t.date DESC LIMIT n] *)
Definition recent_with_category (st : Store) (keep : Transaction -> bool) (n : nat)
  : list RelatedTransaction :=
  firstn n
    (order_by (fun x y => str_le (date_text (t_date (rt_txn y)))
                                 (date_text (t_date (rt_txn x))))
       (flat_map (fun t =>
          if keep t then
            match get_category st (t_category_id t) with
            | Some c => [mkRelatedTransaction t (c_name c)]
            | None => []
            end
          else []) (transactions st))).

(** The daily expense totals of a category within the current month, latest
    day first. *)
Definition monthly_spending_of (st : Store) (today : Date) (category_id : string)
  : list DailyTotal :=
  let currentMonth := (pad4 (year today) ++ "-" ++ pad2 (month today))%string in
  rev (map (fun g => mkDailyTotal (fst g) (Qsum (map t_amount (snd g))))
         (group_by (fun t => date_text (t_date t))
            (List.filter (fun t =>
                 String.eqb (t_category_id t) category_id
                 && String.eqb (t_type t) "expense"
                 && str_le (currentMonth ++ "-01") (date_text (t_date t))
                 && str_le (date_text (t_date t)) (currentMonth ++ "-31"))
               (transactions st)))).

Definition getRecordDetails (st : Store) (today : Date) (recordType recordId : string)
    (includeRelated : bool) : result RecordDetails :=
  if String.eqb recordType "transaction" then
    match transaction_detail st recordId with
    | None => Err ("Transaction not found: " ++ recordId)
    | Some transaction =>
        Ok (TransactionRecord transaction
              (if includeRelated
               then Some (recent_with_category st
                            (fun t => String.eqb (t_category_id t)
                                        (t_category_id (d_txn transaction))
                                      && negb (String.eqb (t_id t) recordId)) 5)
               else None))
    end
  else if String.eqb recordType "ledger_record" then
    match get_ledger st recordId with
    | None => Err ("Ledger not found: " ++ recordId)
    | Some ledger =>
        Ok (LedgerRecord ledger
              (if includeRelated
               then Some (recent_with_category st
                            (fun t => String.eqb (t_ledger_id t) recordId) 10)
               else None))
    end
  else if String.eqb recordType "budget_snapshot" then
    match budget_detail st recordId with
    | None => Err ("Budget not found: " ++ recordId)
    | Some budget =>
        Ok (BudgetRecord budget
              (if includeRelated
               then Some (monthly_spending_of st today (b_category_id (d_budget budget)))
               else None))
    end
  else Err ("Unknown record_type: " ++ recordType).

(** ** utils/helpers.js: buildCategoryTree, categoryTreeToMarkdown *)

(** A node object of [tree]: the category's own fields and its [children]
    array.  The array holds references to other node objects of [tree];
    a reference is written as the key under which [tree] holds the object. *)
Record TreeNode : Type := mkTreeNode {
  node : Category;
  children : list string
}.

Definition push_child (child : string) (n : TreeNode) : TreeNode :=
  mkTreeNode (node n) (children n ++ [child]).

(** The first loop: [tree[cat.id] = { ...cat, children: [] }].  The object
    [tree] is read as the map of the properties the loop gives it: ids are
    keys of the [categories] table and are taken not to be among the names a
    plain object inherits ([constructor], [toString], ...). *)
Definition tree_nodes (categories : list Category) : gmap string TreeNode :=
  fold_left (fun (tree : gmap string TreeNode) cat =>
               <[c_id cat := mkTreeNode cat []]> tree) categories ∅.

(** [cat.parent_id && tree[cat.parent_id]]: the key of the parent node, when
    there is one. *)
Definition parent_node (tree : gmap string TreeNode) (cat : Category) : option string :=
  match c_parent_id cat with
  | Some p =>
      if String.eqb p "" then None
      else match tree !! p with
           | Some _ => Some p
           | None => None
           end
  | None => None
  end.

(** The second loop: push the node to its parent's children or to the roots. *)
Definition link (acc : gmap string TreeNode * list string) (cat : Category)
  : gmap string TreeNode * list string :=
  match parent_node (fst acc) cat with
  | Some p => (alter (push_child (c_id cat)) p (fst acc), snd acc)
  | None => (fst acc, snd acc ++ [c_id cat])
  end.

(** The node objects after both loops, and the returned array [roots]. *)
Definition buildCategoryTree (categories : list Category)
  : gmap string TreeNode * list string :=
  fold_left link categories (tree_nodes categories, []).

(** The returned value read as a nested tree, the way a traversal such as
    [categoryTreeToMarkdown] walks it.  [None] when the walk is still going
    after [fuel] levels. *)
Inductive CategoryTree : Type :=
| Branch (cat : Category) (subtrees : list CategoryTree).

Fixpoint all_some {A : Type} (l : list (option A)) : option (list A) :=
  match l with
  | [] => Some []
  | Some x :: l' => match all_some l' with
                    | Some xs => Some (x :: xs)
                    | None => None
                    end
  | None :: _ => None
  end.

Fixpoint subtree (fuel : nat) (tree : gmap string TreeNode) (k : string)
  : option CategoryTree :=
  match fuel with
  | O => None
  | S fuel' =>
      match tree !! k with
      | Some n =>
          match all_some (map (subtree fuel' tree) (children n)) with
          | Some ts => Some (Branch (node n) ts)
          | None => None
          end
      | None => None
      end
  end.

Definition category_tree (categories : list Category) : option (list CategoryTree) :=
  all_some (map (subtree (length categories) (fst (buildCategoryTree categories)))
              (snd (buildCategoryTree categories))).

(** The categories of a tree, parents before children. *)
Fixpoint tree_categories (t : CategoryTree) : list Category :=
  match t with
  | Branch cat ts => cat :: flat_map tree_categories ts
  end.

Definition root_category (t : CategoryTree) : Category :=
  match t with
  | Branch cat _ => cat
  end.

Fixpoint repeat_string (n : nat) (s : string) : string :=
  match n with
  | O => ""
  | S n' => s ++ repeat_string n' s
  end.

Fixpoint categoryTreeToMarkdown (level : nat) (t : CategoryTree) : string :=
  match t with
  | Branch cat ts =>
      repeat_string level "  " ++ "- " ++ c_name cat ++ " (" ++ c_id cat ++ ")"
      ++ String (ascii_of_nat 10) ""
      ++ String.concat "" (map (categoryTreeToMarkdown (S level)) ts)
  end.

(** Following [parent_id] upwards through the input list: the parent a
    category is attached to (its [parent_id] when that is the non-empty id
    of a category of the list), the parent of the category with id [k], and
    its [j]-th ancestor. *)
Definition attached_to (categories : list Category) (cat : Category) : option string :=
  match c_parent_id cat with
  | Some p =>
      if String.eqb p "" then None
      else if in_list p (map c_id categories) then Some p else None
  | None => None
  end.

Definition parent_in (categories : list Category) (k : string) : option string :=
  match List.find (fun c => String.eqb (c_id c) k) categories with
  | Some c => attached_to categories c
  | None => None
  end.

Fixpoint ancestor (categories : list Category) (j : nat) (k : string) : option string :=
  match j with
  | O => Some k
  | S j' => match parent_in categories k with
            | Some p => ancestor categories j' p
            | None => None
            end
  end.

Definition is_root (categories : list Category) (cat : Category) : bool :=
  match attached_to categories cat with
  | None => true
  | Some _ => false
  end.

Definition child_of (categories : list Category) (k : string) (cat : Category) : bool :=
  match attached_to categories cat with
  | Some p => String.eqb p k
  | None => false
  end.

(** No category is its own ancestor: every chain of parents leaves the list
    or reaches a parentless category within [length categories] steps. *)
Definition acyclic (categories : list Category) : bool :=
  forallb (fun c => match ancestor categories (length categories) (c_id c) with
                    | None => true
                    | Some _ => false
                    end) categories.

(** *** Walking and counting, for the proofs about the tree *)

(** A node with further children. *)
Definition with_children (extra : list string) (n : TreeNode) : TreeNode :=
  mkTreeNode (node n) (children n ++ extra).

(** The keys met when walking down from [k], parents before children, at
    most [fuel] levels deep. *)
Fixpoint walk (fuel : nat) (tree : gmap string TreeNode) (k : string) : list string :=
  match fuel with
  | O => []
  | S fuel' =>
      match tree !! k with
      | Some n => k :: flat_map (walk fuel' tree) (children n)
      | None => []
      end
  end.

(** [a 0 + ... + a (n - 1)] *)
Fixpoint sum_below (a : nat -> nat) (n : nat) : nat :=
  match n with
  | O => 0
  | S n' => a n' + sum_below a n'
  end.

Definition ind (b : bool) : nat := if b then 1 else 0.

Definition is_key (o : option string) (k : string) : bool :=
  match o with
  | Some z => String.eqb z k
  | None => false
  end.

Definition hit (l : list string) (o : option string) : nat :=
  match o with
  | Some z => count_occ string_dec l z
  | None => 0
  end.

(** The keys a node ends up with as children, and the keys returned as
    roots. *)
Definition kids (categories : list Category) (k : string) : list string :=
  map c_id (List.filter (child_of categories k) categories).

Definition roots (categories : list Category) : list string :=
  map c_id (List.filter (is_root categories) categories).

(** Whether the chain of parents of [x] still goes on after [j] steps. *)
Definition alive (categories : list Category) (j : nat) (x : string) : bool :=
  match ancestor categories j x with
  | Some _ => true
  | None => false
  end.

(** ** utils/helpers.js: formatExportData *)

(** A flat JavaScript object: its own properties in insertion order.  The
    rows exportData passes on are rows of a query, their keys column names. *)
Definition record : Type := list (string * value).

Definition keys (r : record) : list string := map fst r.

(** [row[header]] *)
Definition get (row : record) (header : string) : value :=
  match List.find (fun kv => String.eqb (fst kv) header) row with
  | Some kv => snd kv
  | None => VUndefined
  end.

Definition dquote : ascii := ascii_of_nat 34.

(** [s.replace(/\dQ/g, dQ dQ)], with [dQ] the double quote. *)
Fixpoint double_quotes (s : string) : string :=
  match s with
  | "" => ""
  | String c s' =>
      if Ascii.eqb c dquote
      then String dquote (String dquote (double_quotes s'))
      else String c (double_quotes s')
  end.

Record BreakdownLine : Type := mkBreakdownLine {
  bl_category : string;
  bl_type : string;
  bl_amount : value;
  bl_transaction_count : Z
}.

(** What exportData hands to the formatter: the rows of a transaction
    export, a summary report, or the tables of a backup. *)
Inductive ExportData : Type :=
| Rows (rows : list record)
| Report (period_start period_end : string)
    (total_income total_expenses net_amount : value)
    (breakdown : list BreakdownLine)
| Backup (tables : list (string * list record)) (exported_at version : string).

Section Format.
(** [Number.prototype.toString], [JSON.stringify(data, null, 2)] and
    [Intl.NumberFormat] belong to the platform. *)
Context (Number_toString : Q -> string)
        (JSON_stringify : ExportData -> string)
        (formatCurrency : value -> string).

Definition toString (v : value) : string :=
  match v with
  | VStr s => s
  | VNum q => Number_toString q
  | VBool true => "true"
  | VBool false => "false"
  | VNull => "null"
  | VUndefined => "undefined"
  end.

(** One cell: [row[header] || ''], as text, quotes doubled, in quotes. *)
Definition csv_cell (row : record) (header : string) : string :=
  let value := if truthy (get row header) then get row header else VStr "" in
  String dquote (double_quotes (toString value) ++ String dquote "").

Definition newline : string := String (ascii_of_nat 10) "".

Definition markdown_line (cat : BreakdownLine) : string :=
  "- **" ++ bl_category cat ++ ":** " ++ formatCurrency (bl_amount cat)
  ++ " (" ++ digits (bl_transaction_count cat) ++ " transactions)" ++ newline.

Definition formatExportData (data : ExportData) (format : string) : result string :=
  if String.eqb format "json" then Ok (JSON_stringify data)
  else if String.eqb format "csv" then
    match data with
    | Rows rows =>
        match rows with
        | [] => Ok ""
        | first :: _ =>
            let headers := keys first in
            let csvHeaders := String.concat "," headers in
            let csvRows :=
              map (fun row => String.concat "," (map (csv_cell row) headers)) rows in
            Ok (String.concat newline (csvHeaders :: csvRows))
        end
    | _ => Err "CSV format requires array data"
    end
  else if String.eqb format "markdown" then
    match data with
    | Report period_start period_end total_income total_expenses net_amount breakdown =>
        let incomeCategories :=
          List.filter (fun b => String.eqb (bl_type b) "income") breakdown in
        let expenseCategories :=
          List.filter (fun b => String.eqb (bl_type b) "expense") breakdown in
        Ok ("# Financial Summary Report" ++ newline ++ newline
            ++ "**Period:** " ++ period_start ++ " to " ++ period_end ++ newline ++ newline
            ++ "## Totals" ++ newline ++ newline
            ++ "- **Total Income:** " ++ formatCurrency total_income ++ newline
            ++ "- **Total Expenses:** " ++ formatCurrency total_expenses ++ newline
            ++ "- **Net Amount:** " ++ formatCurrency net_amount ++ newline ++ newline
            ++ "## Breakdown by Category" ++ newline ++ newline
            ++ (match incomeCategories with
                | [] => ""
                | _ => "### Income" ++ newline ++ newline
                       ++ String.concat "" (map markdown_line incomeCategories)
                       ++ newline
                end)
            ++ (match expenseCategories with
                | [] => ""
                | _ => "### Expenses" ++ newline ++ newline
                       ++ String.concat "" (map markdown_line expenseCategories)
                end))%string
    | _ => Ok (JSON_stringify data)
    end
  else Err ("Unknown format: " ++ format).
End Format.

(** ** sqlite-adapter.js: seedData *)

(** The rows inserted at first boot; [today] supplies the current month of
    the sample transactions. *)
Definition seed_categories : list Category :=
  [ mkCategory "food" "Food & Dining" "expense" None None true;
    mkCategory "groceries" "Groceries" "expense" (Some "food") None true;
    mkCategory "restaurants" "Restaurants" "expense" (Some "food") None true;
    mkCategory "transport" "Transportation" "expense" None None true;
    mkCategory "gas" "Gas & Fuel" "expense" (Some "transport") None true;
    mkCategory "public_transport" "Public Transport" "expense" (Some "transport") None true;
    mkCategory "entertainment" "Entertainment" "expense" None None true;
    mkCategory "movies" "Movies & Shows" "expense" (Some "entertainment") None true;
    mkCategory "utilities" "Utilities" "expense" None None true;
    mkCategory "electricity" "Electricity" "expense" (Some "utilities") None true;
    mkCategory "internet" "Internet" "expense" (Some "utilities") None true;
    mkCategory "salary" "Salary" "income" None None true;
    mkCategory "freelance" "Freelance" "income" None None true;
    mkCategory "investment" "Investment Returns" "income" None None true ].

Definition seed_ledgers : list Ledger :=
  [ mkLedger "checking" "Primary Checking" "checking" 2500 "USD" true;
    mkLedger "savings" "Savings Account" "savings" 15000 "USD" true;
    mkLedger "credit" "Credit Card" "credit" (-850) "USD" true;
    mkLedger "cash" "Cash Wallet" "cash" 125 "USD" true ].

Definition seed_budgets : list Budget :=
  [ mkBudget "budget_food" "food" 800 "monthly" "2024-01-01" None true;
    mkBudget "budget_transport" "transport" 300 "monthly" "2024-01-01" None true;
    mkBudget "budget_entertainment" "entertainment" 200 "monthly" "2024-01-01" None true;
    mkBudget "budget_utilities" "utilities" 400 "monthly" "2024-01-01" None true ].

Definition seed_transactions (today : Date) : list Transaction :=
  let on (d : Z) := mkDate (year today) (month today) d in
  [ mkTransaction "txn_001" "expense" (4599 # 100) "groceries" "checking"
      "Weekly grocery shopping" (on 5%Z) "weekly,essential";
    mkTransaction "txn_002" "expense" (2550 # 100) "gas" "credit"
      "Gas station fill-up" (on 6%Z) "fuel";
    mkTransaction "txn_003" "income" 3500 "salary" "checking"
      "Monthly salary deposit" (on 1%Z) "monthly,salary";
    mkTransaction "txn_004" "expense" (8999 # 100) "electricity" "checking"
      "Monthly electricity bill" (on 3%Z) "monthly,utility";
    mkTransaction "txn_005" "expense" (1250 # 100) "movies" "cash"
      "Movie theater tickets" (on 8%Z) "entertainment";
    mkTransaction "txn_006" "expense" (6734 # 100) "restaurants" "credit"
      "Dinner at Italian restaurant" (on 10%Z) "dining,date";
    mkTransaction "txn_007" "income" 750 "freelance" "checking"
      "Website design project" (on 12%Z) "freelance,project";
    mkTransaction "txn_008" "expense" (1999 # 100) "public_transport" "checking"
      "Monthly transit pass" (on 2%Z) "monthly,transport" ].

Definition seedData (today : Date) : Store :=
  {| categories := seed_categories;
     ledgers := seed_ledgers;
     budgets := seed_budgets;
     transactions := seed_transactions today |}.

(** ** Sample inputs used in the examples *)

Definition march_2024 : Period := mkPeriod "2024-03-01" "2024-03-31" None.

Definition no_filters : AnalysisFilters := mkAnalysisFilters None None.

(** Three expenses of 10, 20 and 30 on food, against a food budget of 100. *)
Definition food_store : Store :=
  {| categories := [ mkCategory "food" "Food" "expense" None None true ];
     ledgers := [ mkLedger "checking" "Primary Checking" "checking" 0 "USD" true ];
     budgets := [ mkBudget "budget_food" "food" 100 "monthly" "2024-01-01" None true ];
     transactions :=
       [ mkTransaction "t1" "expense" 10 "food" "checking" "bread" (mkDate 2024 3 1) "";
         mkTransaction "t2" "expense" 20 "food" "checking" "cheese" (mkDate 2024 3 2) "";
         mkTransaction "t3" "expense" 30 "food" "checking" "wine" (mkDate 2024 3 3) "" ] |}.

(** A store whose only budget has a negative amount. *)
Definition negative_budget_store : Store :=
  {| categories := [ mkCategory "food" "Food" "expense" None None true ];
     ledgers := [];
     budgets := [ mkBudget "budget_food" "food" (-100) "monthly" "2024-01-01" None true ];
     transactions := [] |}.

(** ** What makes an item of a batch fail *)

(** The message thrown by the checks that precede the branch on
    [validateOnly]: an invalid shape, an unknown category or an unknown
    ledger. *)
Definition rejection (st : Store) (txn : TransactionInput) : option string :=
  if (0 <? length (validateTransaction txn))%nat
  then Some (String.concat ", " (validateTransaction txn))
  else
    match get_category st (or_default (category txn) "") with
    | None => Some ("Category not found: " ++ or_default (category txn) "")%string
    | Some _ =>
        match get_ledger st (or_default (ledger_id txn) "checking") with
        | None => Some ("Ledger not found: " ++ or_default (ledger_id txn) "checking")%string
        | Some _ => None
        end
    end.

(** A request for a ten-dollar food expense dated [not-a-date]. *)
Definition misdated_lunch : TransactionInput :=
  mkTransactionInput (Some "expense") (Some 10%Q) (Some "food") (Some "lunch")
    (DateInvalid "not-a-date") None None.

Definition lunch : TransactionInput :=
  mkTransactionInput (Some "expense") (Some 10%Q) (Some "food") (Some "lunch")
    (DateOf (mkDate 2024 3 7)) None (Some ["meal"; "work"]).

Definition refund : TransactionInput :=
  mkTransactionInput (Some "expense") (Some (-5)%Q) (Some "food") None
    DateAbsent None None.

Definition unknown_category : TransactionInput :=
  mkTransactionInput (Some "income") (Some 20%Q) (Some "lottery") None
    DateAbsent None None.

(** ** The references declared by the schema *)

(** [FOREIGN KEY (category_id) REFERENCES categories(id)] and
    [FOREIGN KEY (ledger_id) REFERENCES ledgers(id)] on transactions, and
    [FOREIGN KEY (category_id) REFERENCES categories(id)] on budgets. *)
Definition references_ok (st : Store) : bool :=
  forallb (fun t =>
      match get_category st (t_category_id t), get_ledger st (t_ledger_id t) with
      | Some _, Some _ => true
      | _, _ => false
      end) (transactions st)
  && forallb (fun b =>
      match get_category st (b_category_id b) with
      | Some _ => true
      | None => false
      end) (budgets st).

(** ** The invariant of the data model: amounts are positive *)

(** validateTransaction refuses an amount that is not positive, and every
    seeded amount is positive. *)
Definition amounts_positive (st : Store) : bool :=
  forallb (fun t => Qlt_bool 0 (t_amount t)) (transactions st).

Definition Zsum (l : list Z) : Z := fold_right Z.add 0%Z l.

(** The rows of the breakdown that belong to the category of a group. *)
Definition rows_of_group (st : Store) (period : Period) (filters : AnalysisFilters)
    (g : BreakdownGroup) : list (Transaction * Category) :=
  List.filter (fun r => String.eqb (c_id (snd r)) (g_category_id g))
    (breakdown_rows st period filters).

(** ** Weeks of the year *)

(** The first Monday of a year, as a day number. *)
Definition first_monday (y : Z) : Z :=
  let january_1 := days_from_civil y 1 1 in
  (january_1 + (4 - january_1) mod 7)%Z.

(** The week of ISO 8601, which the specification names: weeks run from
    Monday to Sunday and belong to the year that holds their Thursday; week
    01 is the week of the year's first Thursday.  The result is the ISO
    year and the week number. *)
Definition iso_week_of_year (d : Date) : Z * Z :=
  let thursday := (day_number d - weekday d + 3)%Z in
  let y := year d in
  let iso_year :=
    if (thursday <? days_from_civil y 1 1)%Z then (y - 1)%Z
    else if (days_from_civil (y + 1) 1 1 <=? thursday)%Z then (y + 1)%Z
    else y in
  (iso_year, ((thursday - days_from_civil iso_year 1 1) / 7 + 1)%Z).

Definition iso_week_label (d : Date) : string :=
  pad4 (fst (iso_week_of_year d)) ++ "-" ++ pad2 (snd (iso_week_of_year d)).

(** The rows of a trend bucket: the rows of the statement whose date
    formats to the bucket's label. *)
Definition rows_of_bucket (st : Store) (period : Period) (filters : AnalysisFilters)
    (row : TrendRow) : list Transaction :=
  List.filter (fun t =>
      String.eqb (strftime (dateFormat (default "month" (grouping period))) (t_date t))
                 (tr_period row))
    (trend_rows st period filters).

(** Two expenses either side of new year 2021, a Thursday and a Friday. *)
Definition new_year_store : Store :=
  {| categories := [ mkCategory "food" "Food" "expense" None None true ];
     ledgers := [ mkLedger "checking" "Primary Checking" "checking" 0 "USD" true ];
     budgets := [];
     transactions :=
       [ mkTransaction "t1" "expense" 10 "food" "checking" "supper" (mkDate 2020 12 31) "";
         mkTransaction "t2" "expense" 20 "food" "checking" "brunch" (mkDate 2021 1 1) "" ] |}.

Definition new_year_weeks : Period := mkPeriod "2020-12-01" "2021-01-31" (Some "week").

(** ** The statements of the specification, one item at a time *)

(** budget_variance as specified: the percentage is 0 when the budgeted
    amount is 0 and the rounded quotient otherwise. *)
Definition variance_as_specified (v : VarianceItem) : Prop :=
  let a := actual_amount (v_row v) in
  let b := budgeted_amount (v_row v) in
  (v_status v = "over" <-> (b < a)%Q)
  /\ (v_status v = "under" <-> ~ (b < a)%Q)
  /\ variance v = (a - b)%Q
  /\ ((b == 0)%Q -> variance_percentage v = VNum 0)
  /\ (~ (b == 0)%Q ->
      variance_percentage v = VStr (toFixed2 ((a - b) / b * 100))).

(** budget_variance as built: the percentage is 0 when the budgeted amount
    is not positive and the rounded quotient when it is. *)
Definition variance_as_built (v : VarianceItem) : Prop :=
  let a := actual_amount (v_row v) in
  let b := budgeted_amount (v_row v) in
  (v_status v = "over" <-> (b < a)%Q)
  /\ (v_status v = "under" <-> ~ (b < a)%Q)
  /\ variance v = (a - b)%Q
  /\ ((b <= 0)%Q -> variance_percentage v = VNum 0)
  /\ ((0 < b)%Q ->
      variance_percentage v = VStr (toFixed2 ((a - b) / b * 100))).

(** The item stems from an active budget of the store and its category. *)
Definition variance_of_active_budget (st : Store) (v : VarianceItem) : Prop :=
  exists b c,
    In b (budgets st) /\ b_active b = true
    /\ get_category st (b_category_id b) = Some c
    /\ budget_id (v_row v) = b_id b
    /\ budgeted_amount (v_row v) = b_amount b
    /\ category_id (v_row v) = c_id c.

(** Reading a quoted cell body back: every double quote must come with a
    partner, and a pair stands for one quote. *)
Fixpoint quotes_paired (s : string) : bool :=
  match s with
  | "" => true
  | String c rest =>
      if Ascii.eqb c dquote then
        match rest with
        | String c' rest' => Ascii.eqb c' dquote && quotes_paired rest'
        | "" => false
        end
      else quotes_paired rest
  end.

Fixpoint undouble_quotes (s : string) : string :=
  match s with
  | "" => ""
  | String c rest =>
      if Ascii.eqb c dquote then
        match rest with
        | String _ rest' => String dquote (undouble_quotes rest')
        | "" => String c ""
        end
      else String c (undouble_quotes rest)
  end.

(** Two exported transactions, the second with quotes in its description:
    [Dinner at "Luigi"]. *)
Definition csv_sample : list record :=
  [ [("id", VStr "txn_001"); ("description", VStr "Weekly grocery shopping");
     ("tags", VNull)];
    [("id", VStr "txn_006");
     ("description", VStr ("Dinner at " ++ String dquote ("Luigi" ++ String dquote "")));
     ("tags", VStr "dining,date")] ].

(** * The rest of the adapter, the helpers and the handlers *)

(** ** sqlite-adapter.js: getCategories, getLedgers, getBudgets *)

(** The [filters] of get_account_data: whether [active_only] is truthy, and
    the [ledger_ids]. *)
Record AccountFilters : Type := mkAccountFilters {
  active_only : bool;
  ledger_ids : option (list string)
}.

(** [ORDER BY a, b] on two text columns. *)
Definition by_two (x1 x2 y1 y2 : string) : bool :=
  str_lt x1 y1 || (String.eqb x1 y1 && str_le x2 y2).

(** [SELECT * FROM categories [WHERE active = 1] ORDER BY type, name] *)
Definition getCategories (st : Store) (filters : AccountFilters) : list Category :=
  order_by (fun x y => by_two (c_type x) (c_name x) (c_type y) (c_name y))
    (List.filter (fun c => if active_only filters then c_active c else true)
       (categories st)).

(** [SELECT * FROM ledgers [WHERE active = 1] [AND|WHERE id IN (...)]
     ORDER BY name] *)
Definition getLedgers (st : Store) (filters : AccountFilters) : list Ledger :=
  order_by (fun x y => str_le (l_name x) (l_name y))
    (List.filter (fun l =>
         (if active_only filters then l_active l else true)
         && match nonempty (ledger_ids filters) with
            | Some ids => in_list (l_id l) ids
            | None => true
            end)
       (ledgers st)).

(** [SELECT b.*, c.name as category_name, c.type as category_type
     FROM budgets b JOIN categories c ON b.category_id = c.id
     [WHERE b.active = 1] ORDER BY b.period, c.name] *)
Definition getBudgets (st : Store) (filters : AccountFilters) : list BudgetDetail :=
  order_by (fun x y => by_two (b_period (d_budget x)) (bd_category_name x)
                         (b_period (d_budget y)) (bd_category_name y))
    (flat_map (fun b =>
       if (if active_only filters then b_active b else true) then
         match get_category st (b_category_id b) with
         | Some c => [mkBudgetDetail b (c_name c) (c_type c)]
         | None => []
         end
       else []) (budgets st)).

(** ** sqlite-adapter.js: exportData *)

(** The [options] of export_data that the adapter reads. *)
Record ExportOptions : Type := mkExportOptions {
  group_by_option : option string
}.

(** The conditions pushed by the transactions export: the two dates, the
    category set and the ledger set of [filters]. *)
Definition export_keeps (f : QueryFilters) (t : Transaction) : bool :=
  (if truthy_str (date_start f)
   then str_le (or_default (date_start f) "") (date_text (t_date t)) else true)
  && (if truthy_str (date_end f)
      then str_le (date_text (t_date t)) (or_default (date_end f) "") else true)
  && match nonempty (f_categories f) with
     | Some cs => in_list (t_category_id t) cs
     | None => true
     end
  && match nonempty (f_ledgers f) with
     | Some ls => in_list (t_ledger_id t) ls
     | None => true
     end.

(** The same conditions on a joined row: they read columns of [t] only. *)
Definition export_where (f : QueryFilters) (r : TransactionDetail) : bool :=
  export_keeps f (d_txn r).

(** [ORDER BY c.name], [l.name] or [t.date] when [group_by] is given,
    [ORDER BY t.date DESC] when it is not. *)
Definition export_le (options : ExportOptions) (x y : TransactionDetail) : bool :=
  if truthy_str (group_by_option options) then
    if String.eqb (or_default (group_by_option options) "") "category"
    then str_le (d_category_name x) (d_category_name y)
    else if String.eqb (or_default (group_by_option options) "") "ledger"
    then str_le (d_ledger_name x) (d_ledger_name y)
    else str_le (date_text (t_date (d_txn x))) (date_text (t_date (d_txn y)))
  else str_le (date_text (t_date (d_txn y))) (date_text (t_date (d_txn x))).

(** [FROM transactions t JOIN categories c ... JOIN ledgers l ...] with the
    four display columns. *)
Definition joined_details (st : Store) : list TransactionDetail :=
  flat_map (fun t =>
    match get_category st (t_category_id t), get_ledger st (t_ledger_id t) with
    | Some c, Some l =>
        [mkTransactionDetail t (c_name c) (c_type c) (l_name l) (l_type l)]
    | _, _ => []
    end) (transactions st).

(** The statement of the transactions export. *)
Definition export_transactions (st : Store) (filters : QueryFilters)
    (options : ExportOptions) : list TransactionDetail :=
  order_by (export_le options) (List.filter (export_where filters) (joined_details st)).

(** [SUM(...)] over the selected rows: NULL when there is none. *)
Definition sql_sum (l : list Q) : value :=
  match l with
  | [] => VNull
  | _ => VNum (Qsum l)
  end.

(** The number an arithmetic operator of JavaScript makes of such a total,
    which is a number or [null]: [null] counts as 0. *)
Definition total_number (v : value) : Q :=
  match v with
  | VNum q => q
  | _ => 0
  end.

(** [WHERE date >= startDate AND date <= endDate] *)
Definition window (startDate endDate : string) : Period :=
  mkPeriod startDate endDate None.

(** [SELECT SUM(CASE WHEN type = kind THEN amount ELSE 0 END) FROM
     transactions WHERE date >= ? AND date <= ?] *)
Definition sum_of_kind (st : Store) (startDate endDate kind : string) : value :=
  sql_sum (map (fun t => if String.eqb (t_type t) kind then t_amount t else 0%Q)
             (List.filter (in_window (window startDate endDate)) (transactions st))).

(** [ORDER BY c.type, amount DESC] *)
Definition report_le (x y : BreakdownLine) : bool :=
  str_lt (bl_type x) (bl_type y)
  || (String.eqb (bl_type x) (bl_type y)
      && Qle_bool (total_number (bl_amount y)) (total_number (bl_amount x))).

(** [SELECT c.name as category, c.type, SUM(t.amount) as amount, COUNT(t.id)
     FROM transactions t JOIN categories c ON t.category_id = c.id
     WHERE t.date >= ? AND t.date <= ?
     GROUP BY c.id, c.name, c.type ORDER BY c.type, amount DESC] *)
Definition report_breakdown (st : Store) (startDate endDate : string)
  : list BreakdownLine :=
  order_by report_le
    (map (fun g => mkBreakdownLine (g_category g) (g_type g) (VNum (total_amount g))
                     (transaction_count g))
       (flat_map breakdown_group
          (group_by (fun r => c_id (snd r))
             (breakdown_rows st (window startDate endDate) no_filters)))).

Section ExportStatements.

(** The clock, the columns [created_at] and [updated_at] that SQLite stamps
    on a transaction, and the rows of [SELECT * FROM table] as objects. *)
Context (today : Date) (now : string)
        (created_at updated_at : Transaction -> value)
        (select_all : Store -> string -> list record).

(** A row of the transactions export as the object the driver returns:
    the columns of [t.*] and the four display columns, in that order. *)
Definition export_row (r : TransactionDetail) : record :=
  let t := d_txn r in
  [ ("id", VStr (t_id t)); ("type", VStr (t_type t)); ("amount", VNum (t_amount t));
    ("category_id", VStr (t_category_id t)); ("ledger_id", VStr (t_ledger_id t));
    ("description", VStr (t_description t)); ("date", VStr (date_text (t_date t)));
    ("tags", VStr (t_tags t)); ("created_at", created_at t); ("updated_at", updated_at t);
    ("category_name", VStr (d_category_name r)); ("category_type", VStr (d_category_type r));
    ("ledger_name", VStr (d_ledger_name r)); ("ledger_type", VStr (d_ledger_type r)) ].

(** The three exports; any other [exportType] throws. *)
Definition exportData (st : Store) (exportType : string) (filters : QueryFilters)
    (options : ExportOptions) : result ExportData :=
  if String.eqb exportType "transactions" then
    Ok (Rows (map export_row (export_transactions st filters options)))
  else if String.eqb exportType "summary_report" then
    let startDate := or_default (date_start filters) "2024-01-01" in
    let endDate := or_default (date_end filters) (date_text today) in
    let total_income := sum_of_kind st startDate endDate "income" in
    let total_expenses := sum_of_kind st startDate endDate "expense" in
    Ok (Report startDate endDate total_income total_expenses
          (VNum (total_number total_income - total_number total_expenses))
          (report_breakdown st startDate endDate))
  else if String.eqb exportType "full_backup" then
    let tables := ["users"; "categories"; "ledgers"; "budgets"; "transactions"] in
    Ok (Backup (map (fun table => (table, select_all st table)) tables) now "1.0.0")
  else Err ("Unknown export_type: " ++ exportType).
End ExportStatements.

(** ** handlers.js: handleExportData *)

Section Handlers.

Context (today : Date) (now : string)
        (created_at updated_at : Transaction -> value)
        (select_all : Store -> string -> list record)
        (Number_toString : Q -> string)
        (JSON_stringify : ExportData -> string)
        (formatCurrency : value -> string).

(** The text of the response: the export, then the formatter. *)
Definition handleExportData (st : Store) (export_type format : string)
    (filters : QueryFilters) (options : ExportOptions) : result string :=
  result ← exportData today now created_at updated_at select_all st export_type
             filters options;
  formatExportData Number_toString JSON_stringify formatCurrency result format.
End Handlers.

(** ** utils/helpers.js: calculatePeriodDates *)

(** What the function reads off [new Date()]: the day in UTC
    ([toISOString]), the year and the month in local time ([getFullYear],
    [getMonth] + 1), and the UTC day of the instant that [setDate(getDate()
    - getDay())] moves [now] to. *)
Record Clock : Type := mkClock {
  utc_day : Date;
  local_year : Z;
  local_month : Z;
  week_start : Date
}.

(** The [date_range] of a custom period. *)
Record DateRange : Type := mkDateRange {
  range_start : string;
  range_end : string
}.

(** The first and the last day of a period, as texts. *)
Definition calculatePeriodDates (now : Clock) (period : string)
    (dateRange : option DateRange) : result (string * string) :=
  if String.eqb period "today" then
    Ok (date_text (utc_day now), date_text (utc_day now))
  else if String.eqb period "this_week" then
    Ok (date_text (week_start now), date_text (utc_day now))
  else if String.eqb period "this_month" then
    Ok ((digits (local_year now) ++ "-" ++ pad2 (local_month now) ++ "-01")%string,
        date_text (utc_day now))
  else if String.eqb period "this_year" then
    Ok ((digits (local_year now) ++ "-01-01")%string, date_text (utc_day now))
  else if String.eqb period "custom" then
    match dateRange with
    | None => Err "date_range required for custom period"
    | Some range => Ok (range_start range, range_end range)
    end
  else Err ("Unknown period: " ++ period).

(** ** sqlite-adapter.js: getSummary *)

(** The [period] object of a summary. *)
Record PeriodInfo : Type := mkPeriodInfo {
  pi_start : string;
  pi_end : string;
  pi_type : string
}.

(** A budget with the expenses of its category in the window. *)
Record BudgetStatusRow : Type := mkBudgetStatusRow {
  bs_budget : Budget;
  bs_category_name : string;
  spent_amount : Q
}.

(** The same row with the three fields the adapter adds. *)
Record BudgetStatusItem : Type := mkBudgetStatusItem {
  bs_row : BudgetStatusRow;
  remaining : Q;
  percentage_used : value;
  bs_status : string
}.

(** A JavaScript number that may come out of a division. *)
Inductive number : Type :=
| Finite (q : Q)
| PlusInfinity
| MinusInfinity
| NaN.

(** [a / d] of JavaScript for a finite [a] and a count of days [d] that is
    [NaN] when a date did not parse. *)
Definition js_divide (a : Q) (d : option Z) : number :=
  match d with
  | None => NaN
  | Some d =>
      if (d =? 0)%Z then
        if Qlt_bool 0 a then PlusInfinity
        else if Qlt_bool a 0 then MinusInfinity
        else NaN
      else Finite (a / inject_Z d)
  end.

(** The row of the top expense category. *)
Record TopCategory : Type := mkTopCategory {
  top_category : string;
  top_total : Q
}.

(** The quick statistics; [qs_days] is the [days] of their [period]. *)
Record QuickStats : Type := mkQuickStats {
  qs_total_expenses : value;
  qs_total_income : value;
  expense_transactions : Z;
  avg_expense : value;
  max_expense : value;
  daily_avg_expense : number;
  top_expense_category : option TopCategory;
  qs_days : option Z
}.

(** The three summaries. *)
Inductive Summary : Type :=
| PeriodTotals (total_income total_expenses : value) (income_count expense_count : Z)
    (net_amount : Q) (info : PeriodInfo)
    (details : option (list BreakdownLine))
| BudgetStatus (items : list BudgetStatusItem) (info : PeriodInfo)
| QuickStatsSummary (stats : QuickStats) (info : PeriodInfo).

(** [COUNT(CASE WHEN type = kind THEN 1 END)] over the window. *)
Definition count_of_kind (st : Store) (startDate endDate kind : string) : Z :=
  Z.of_nat (length (List.filter (fun t => in_window (window startDate endDate) t
                                          && String.eqb (t_type t) kind)
                      (transactions st))).

(** The row of a group of [GROUP BY b.id]: the budget, the name of its
    category and the sum of the joined amounts, 0 when none joined. *)
Definition status_group (g : string * list (Budget * Category * option Transaction))
  : list BudgetStatusRow :=
  match snd g with
  | [] => []
  | (b, c, _) :: _ =>
      [ {| bs_budget := b;
           bs_category_name := c_name c;
           spent_amount :=
             Qsum (flat_map (fun r => match snd r with
                                      | Some t => [t_amount t]
                                      | None => []
                                      end) (snd g)) |} ]
  end.

(** [SELECT b.*, c.name as category_name, COALESCE(SUM(t.amount), 0) as
     spent_amount FROM budgets b JOIN categories c ... LEFT JOIN transactions t
     ON t.category_id = c.id AND t.date >= ? AND t.date <= ? AND t.type =
     'expense' WHERE b.active = 1 GROUP BY b.id] *)
Definition status_query (st : Store) (startDate endDate : string) : list BudgetStatusRow :=
  flat_map status_group
    (group_by (fun r => b_id (fst (fst r)))
       (variance_rows st (window startDate endDate))).

(** [remaining], [percentage_used] and [status] of a budget. *)
Definition status_item (budget : BudgetStatusRow) : BudgetStatusItem :=
  {| bs_row := budget;
     remaining := b_amount (bs_budget budget) - spent_amount budget;
     percentage_used :=
       if Qlt_bool 0 (b_amount (bs_budget budget))
       then VStr (toFixed2 (spent_amount budget / b_amount (bs_budget budget) * 100))
       else VNum 0;
     bs_status := if Qlt_bool (b_amount (bs_budget budget)) (spent_amount budget)
                  then "over" else "under" |}.

(** [AVG(x)] over the rows where [x] is not NULL: NULL over no rows. *)
Definition sql_avg (l : list Q) : value :=
  match l with
  | [] => VNull
  | _ => VNum (Qsum l / inject_Z (Z.of_nat (length l)))
  end.

(** The larger of two numbers. *)
Definition Qmax (a b : Q) : Q := if Qle_bool a b then b else a.

(** [MAX(x)]: NULL over no rows. *)
Definition sql_max (l : list Q) : value :=
  match l with
  | [] => VNull
  | x :: l' => VNum (fold_left Qmax l' x)
  end.

(** [SELECT c.name as category, SUM(t.amount) as total FROM transactions t
     JOIN categories c ... WHERE t.date >= ? AND t.date <= ? AND t.type =
     'expense' GROUP BY c.id, c.name ORDER BY total DESC]; the adapter reads
    its first row. *)
Definition top_categories (st : Store) (startDate endDate : string) : list TopCategory :=
  order_by (fun x y => Qle_bool (top_total y) (top_total x))
    (map (fun g => mkTopCategory (g_category g) (total_amount g))
       (flat_map breakdown_group
          (group_by (fun r => c_id (snd r))
             (breakdown_rows st (window startDate endDate)
                (mkAnalysisFilters (Some "expense") None))))).

Section Summary.

(** [Date.parse] belongs to the platform: the milliseconds since the epoch
    of a date text, or nothing ([NaN]) when it does not parse. *)
Context (now : Clock) (Date_parse : string -> option Z).

(** [Math.ceil((new Date(endDate) - new Date(startDate)) / 86400000) + 1] *)
Definition days_between (startDate endDate : string) : option Z :=
  match Date_parse endDate, Date_parse startDate with
  | Some e, Some s => Some (- ((- (e - s)) / 86400000) + 1)%Z
  | _, _ => None
  end.

(** The three summaries of a period; any other [summaryType] throws. *)
Definition getSummary (st : Store) (summaryType period : string)
    (dateRange : option DateRange) (includeDetails : bool) : result Summary :=
  dates ← calculatePeriodDates now period dateRange;
  let startDate := fst dates in
  let endDate := snd dates in
  let info := mkPeriodInfo startDate endDate period in
  if String.eqb summaryType "period_totals" then
    let total_income := sum_of_kind st startDate endDate "income" in
    let total_expenses := sum_of_kind st startDate endDate "expense" in
    Ok (PeriodTotals total_income total_expenses
          (count_of_kind st startDate endDate "income")
          (count_of_kind st startDate endDate "expense")
          (total_number total_income - total_number total_expenses)
          info
          (if includeDetails then Some (report_breakdown st startDate endDate) else None))
  else if String.eqb summaryType "budget_status" then
    Ok (BudgetStatus (map status_item (status_query st startDate endDate)) info)
  else if String.eqb summaryType "quick_stats" then
    let days := days_between startDate endDate in
    let spent :=
      map t_amount
        (List.filter (fun t => in_window (window startDate endDate) t
                               && String.eqb (t_type t) "expense") (transactions st)) in
    let total_expenses := sum_of_kind st startDate endDate "expense" in
    Ok (QuickStatsSummary
          {| qs_total_expenses := total_expenses;
             qs_total_income := sum_of_kind st startDate endDate "income";
             expense_transactions := count_of_kind st startDate endDate "expense";
             avg_expense := sql_avg spent;
             max_expense := sql_max spent;
             daily_avg_expense := js_divide (total_number total_expenses) days;
             top_expense_category := hd_error (top_categories st startDate endDate);
             qs_days := days |}
          info)
  else Err ("Unknown summary_type: " ++ summaryType).
End Summary.

(** ** database/factory.js: DatabaseFactory *)

(** The configuration handed to the factory: the type and the connection
    properties the checks read. *)
Record DatabaseConfig : Type := mkDatabaseConfig {
  db_type : option string;
  db_host : option string;
  db_database : option string;
  db_user : option string;
  db_url : option string
}.

(** The types an adapter exists for. *)
Definition getSupportedTypes : list string := ["sqlite"].

(** The checks on a configuration: returns nothing, or throws. *)
Definition validateConfig (config : DatabaseConfig) : result unit :=
  if negb (truthy_str (db_type config)) then Err "Database type is required"
  else
    let type := or_default (db_type config) "" in
    let supportedTypes := getSupportedTypes in
    if negb (in_list type supportedTypes)
    then Err ("Unsupported database type: " ++ type ++ ". Supported types: "
              ++ String.concat ", " supportedTypes)
    else if String.eqb type "sqlite" then Ok tt
    else if String.eqb type "postgres" then
      if negb (truthy_str (db_host config)) || negb (truthy_str (db_database config))
         || negb (truthy_str (db_user config))
      then Err "PostgreSQL requires host, database, and user" else Ok tt
    else if String.eqb type "mongodb" then
      if negb (truthy_str (db_url config)) then Err "MongoDB requires url" else Ok tt
    else if String.eqb type "mysql" then
      if negb (truthy_str (db_host config)) || negb (truthy_str (db_database config))
         || negb (truthy_str (db_user config))
      then Err "MySQL requires host, database, and user" else Ok tt
    else Ok tt.

(** * Notions used to state the further properties *)

(** ** Pages of a request *)

(** The same request for another page. *)
Definition with_page (options : QueryOptions) (p : Z) : QueryOptions :=
  mkQueryOptions (q_type options) (q_filters options)
    (mkPagination (Some p) (p_limit (q_pagination options))) (q_sort options).

(** The rows of pages 1 to [n], one request per page. *)
Definition pages (st : Store) (options : QueryOptions) (n : nat) : list TransactionRow :=
  flat_map (fun i => qr_transactions (queryTransactions st (with_page options (Z.of_nat i))))
    (seq 1 n).

(** All the rows a request selects, in its order. *)
Definition query_rows (st : Store) (options : QueryOptions) : list TransactionRow :=
  order_by (query_le (q_sort options))
    (List.filter (query_where (default "all" (q_type options)) (q_filters options))
       (joined st)).

(** ** What a batch reports and stores *)

(** The requests from index [i] on that pass the checks, each judged on the
    tables of [st], with their indices. *)
Fixpoint accepted (st : Store) (i : nat) (txns : list TransactionInput)
  : list (nat * TransactionInput) :=
  match txns with
  | [] => []
  | txn :: rest =>
      match rejection st txn with
      | None => (i, txn) :: accepted st (S i) rest
      | Some _ => accepted st (S i) rest
      end
  end.

(** The errors of the rejected requests, with their indices. *)
Fixpoint rejected (st : Store) (i : nat) (txns : list TransactionInput)
  : list BatchError :=
  match txns with
  | [] => []
  | txn :: rest =>
      match rejection st txn with
      | None => rejected st (S i) rest
      | Some msg => mkBatchError i msg txn :: rejected st (S i) rest
      end
  end.

(** The row a real run inserts for the request at index [i]. *)
Definition new_row (today : Date) (entropy : nat -> string) (i : nat)
    (txn : TransactionInput) : Transaction :=
  mkTransaction (generateId (entropy i) "txn")
    (or_default (type txn) "")
    (default 0%Q (amount txn))
    (or_default (category txn) "")
    (or_default (ledger_id txn) "checking")
    (or_default (description txn) "")
    (match formatDate today (date txn) with
     | Ok d => d
     | Err _ => today
     end)
    (match tags txn with
     | Some ts => String.concat "," ts
     | None => ""
     end).

(** [CHECK(type IN ('income', 'expense'))] on transactions. *)
Definition types_ok (st : Store) : bool :=
  forallb (fun t => in_list (t_type t) ["income"; "expense"]) (transactions st).

(** ** The item of a budget *)

(** The item of a budget, from the budget and its category. *)
Definition variance_row_of (st : Store) (period : Period) (b : Budget) : list VarianceRow :=
  if b_active b then
    match get_category st (b_category_id b) with
    | Some c =>
        [ mkVarianceRow (b_id b) (b_amount b) (b_period b) (c_name c) (c_id c)
            (Qsum (map t_amount (budget_expenses st period c))) ]
    | None => []
    end
  else [].

(** ** The rows related to a record *)

(** [x] is dated no later than [y]. *)
Definition not_later (x y : RelatedTransaction) : Prop :=
  str_le (date_text (t_date (rt_txn x))) (date_text (t_date (rt_txn y))) = true.

(** The expenses of a category in the month of [today], as the statement of
    the budget snapshot selects them. *)
Definition month_expenses (st : Store) (today : Date) (category_id : string)
  : list Transaction :=
  let currentMonth := (pad4 (year today) ++ "-" ++ pad2 (month today))%string in
  List.filter (fun t =>
      String.eqb (t_category_id t) category_id
      && String.eqb (t_type t) "expense"
      && str_le (currentMonth ++ "-01") (date_text (t_date t))
      && str_le (date_text (t_date t)) (currentMonth ++ "-31"))
    (transactions st).

(** ** The outline of a category tree *)

(** The categories of a tree with their depth, parents before children. *)
Fixpoint outline (level : nat) (t : CategoryTree) : list (nat * Category) :=
  match t with
  | Branch cat ts => (level, cat) :: flat_map (outline (S level)) ts
  end.

(** The line of a category at a depth. *)
Definition bullet (e : nat * Category) : string :=
  repeat_string (fst e) "  " ++ "- " ++ c_name (snd e) ++ " (" ++ c_id (snd e) ++ ")"
  ++ String (ascii_of_nat 10) "".

(** ** The columns of the transactions export *)

(** The keys of [export_row], in the order of the statement. *)
Definition export_columns : list string :=
  [ "id"; "type"; "amount"; "category_id"; "ledger_id"; "description"; "date"; "tags";
    "created_at"; "updated_at"; "category_name"; "category_type"; "ledger_name";
    "ledger_type" ].

(** ** Dates as text and days of the calendar *)

(** A year of four digits, a month and a day of two. *)
Definition four_two_two (d : Date) : Prop :=
  (0 <= year d <= 9999)%Z /\ (0 <= month d <= 99)%Z /\ (0 <= day d <= 99)%Z.

(** The order of the calendar on year, month and day. *)
Definition date_compare (a b : Date) : comparison :=
  match (year a ?= year b)%Z with
  | Eq => match (month a ?= month b)%Z with
          | Eq => (day a ?= day b)%Z
          | c => c
          end
  | c => c
  end.

(** Leap years of the Gregorian calendar. *)
Definition leap (y : Z) : bool :=
  ((y mod 4 =? 0) && (negb (y mod 100 =? 0) || (y mod 400 =? 0)))%Z.

(** The length of month [m] of year [y]. *)
Definition days_in_month (y m : Z) : Z :=
  if (m =? 2)%Z then (if leap y then 29%Z else 28%Z)
  else if ((m =? 4) || (m =? 6) || (m =? 9) || (m =? 11))%Z then 30%Z
  else 31%Z.

(** A day that exists in the calendar. *)
Definition real_day (d : Date) : Prop :=
  (1 <= month d <= 12)%Z /\ (1 <= day d <= days_in_month (year d) (month d))%Z.

(** Earlier in the calendar. *)
Definition date_lt (a b : Date) : Prop :=
  (year a < year b)%Z
  \/ (year a = year b
      /\ ((month a < month b)%Z \/ (month a = month b /\ (day a < day b)%Z))).

(** The days before the first of March of year [y], up to a constant. *)
Definition year_days (y : Z) : Z := (365 * y + y / 4 - y / 100 + y / 400)%Z.

(** The days from the first of March to the first of month [m]. *)
Definition month_offset (m : Z) : Z :=
  match m with
  | 1 => 306 | 2 => 337 | 3 => 0 | 4 => 31 | 5 => 61 | 6 => 92
  | 7 => 122 | 8 => 153 | 9 => 184 | 10 => 214 | 11 => 245 | 12 => 275
  | _ => 0
  end%Z.

(** ** Further sample inputs *)

(** The second page of all transactions, three to a page. *)
Definition three_a_page : QueryOptions :=
  mkQueryOptions None (mkQueryFilters None None None None None None None)
    (mkPagination (Some 2%Z) (Some 3%Z)) (mkSort None None).

(** An id generator that numbers the items. *)
Definition numbered (i : nat) : string := digits (Z.of_nat i).

(** An inactive category with an active child. *)
Definition hidden_parent_store : Store :=
  {| categories := [ mkCategory "food" "Food" "expense" None None false;
                     mkCategory "groceries" "Groceries" "expense" (Some "food") None true ];
     ledgers := [];
     budgets := [];
     transactions := [] |}.

(** Saturday 9 March 2024, in a time zone where that is also the local day. *)
Definition march_9 : Clock := mkClock (mkDate 2024 3 9) 2024 3 (mkDate 2024 3 3).

(** March 2024 as a custom range. *)
Definition march_range : DateRange := mkDateRange "2024-03-01" "2024-03-31".

(** [Date.parse] on the two ends of March 2024. *)
Definition parse_march (text : string) : option Z :=
  if String.eqb text "2024-03-01" then Some 1709251200000%Z
  else if String.eqb text "2024-03-31" then Some 1711843200000%Z
  else None.

(** * Properties *)

Example toFixed2_examples :
  toFixed2 100 = "100.00" /\ toFixed2 (1 # 3) = "0.33" /\
  toFixed2 (-40) = "-40.00" /\ toFixed2 (5 # 1000) = "0.01" /\
  toFixed2 (- (1 # 1000)) = "-0.00" /\ date_text (mkDate 2024 3 7) = "2024-03-07".
Proof. vm_compute. repeat split; reflexivity. Qed.

Example like_examples :
  like "%gro%" "Weekly Grocery shopping" = true /\
  like "%gas%" "Weekly grocery shopping" = false /\
  like "a_c" "abc" = true.
Proof. vm_compute. repeat split; reflexivity. Qed.

Example calendar_examples :
  weekday (mkDate 1970 1 1) = 3%Z /\ weekday (mkDate 2024 1 1) = 0%Z /\
  weekday (mkDate 2023 1 1) = 6%Z /\ day_of_year (mkDate 2024 3 1) = 60%Z /\
  strftime "%Y-%W" (mkDate 2024 1 1) = "2024-01" /\
  strftime "%Y-%W" (mkDate 2023 1 1) = "2023-00" /\
  strftime "%Y-%m-%d" (mkDate 2023 11 2) = "2023-11-02" /\
  strftime "%Y-%m" (mkDate 2023 11 2) = "2023-11".
Proof. vm_compute. repeat split; reflexivity. Qed.

(** ** Comparisons on rationals *)

Lemma Qlt_bool_iff (x y : Q) : Qlt_bool x y = true <-> (x < y)%Q.
Proof.
  unfold Qlt_bool. rewrite negb_true_iff.
  destruct (Qle_bool y x) eqn:E.
  - apply Qle_bool_iff in E. split; [discriminate | intros H; lra].
  - split; [intros _ | reflexivity].
    destruct (Qlt_le_dec x y) as [H | H]; [exact H |].
    apply Qle_bool_iff in H. congruence.
Qed.

Lemma Qlt_bool_false_iff (x y : Q) : Qlt_bool x y = false <-> (y <= x)%Q.
Proof.
  unfold Qlt_bool. rewrite negb_false_iff. apply Qle_bool_iff.
Qed.

(** ** Pagination of queryTransactions *)

(** The rows counted by the count statement: the same join and the same
    conditions as the page statement. *)
Lemma query_total (st : Store) (options : QueryOptions) :
  total (qr_pagination (queryTransactions st options))
  = Z.of_nat (length (List.filter
                        (query_where (default "all" (q_type options)) (q_filters options))
                        (joined st))).
Proof. reflexivity. Qed.


(** The page itself holds at most [min L 100] rows when that is not negative. *)
Lemma query_page_length (st : Store) (options : QueryOptions) :
  let info := qr_pagination (queryTransactions st options) in
  (0 <= limit info)%Z ->
  (Z.of_nat (length (qr_transactions (queryTransactions st options))) <= limit info)%Z.
Proof.
  cbv zeta. cbn -[Z.min]. intros H.
  unfold limit_offset.
  destruct (Z.ltb_spec (Z.min (default 50%Z (p_limit (q_pagination options))) 100) 0);
    [lia |].
  rewrite length_firstn. lia.
Qed.

(** ** Grouping *)

Definition key_lt (a b : string) : Prop := String.compare a b = Lt.

Lemma key_lt_trans (a b c : string) : key_lt a b -> key_lt b c -> key_lt a c.
Proof.
  unfold key_lt. intros H1 H2.
  pose proof String_as_OT.lt_strorder as [_ T].
  exact (T a b c H1 H2).
Qed.

Lemma key_lt_irrefl (a : string) : ~ key_lt a a.
Proof.
  unfold key_lt. intros H.
  pose proof String_as_OT.lt_strorder as [I _].
  exact (I a H).
Qed.

Lemma compare_Gt_lt (a b : string) : String.compare a b = Gt -> key_lt b a.
Proof.
  unfold key_lt. intros H. rewrite String.compare_antisym, H. reflexivity.
Qed.

Lemma insert_key_In (k k' : string) (ks : list string) :
  In k' (insert_key k ks) <-> k' = k \/ In k' ks.
Proof.
  induction ks as [| h ks IH]; cbn.
  - intuition.
  - destruct (String.compare k h) eqn:E; cbn.
    + apply String.compare_eq_iff in E. subst h. intuition.
    + intuition.
    + rewrite IH. intuition.
Qed.

Lemma insert_key_sorted (k : string) (ks : list string) :
  StronglySorted key_lt ks -> StronglySorted key_lt (insert_key k ks).
Proof.
  induction 1 as [| h ks Hs IH Hall]; cbn.
  - constructor; constructor.
  - destruct (String.compare k h) eqn:E.
    + constructor; assumption.
    + constructor; [constructor; assumption |].
      constructor; [exact E |].
      eapply List.Forall_impl; [| exact Hall].
      intros x Hx. eapply key_lt_trans; [exact E | exact Hx].
    + constructor; [exact IH |].
      apply List.Forall_forall. intros x Hx. apply insert_key_In in Hx.
      destruct Hx as [-> | Hx].
      * apply compare_Gt_lt. exact E.
      * rewrite List.Forall_forall in Hall. apply Hall. exact Hx.
Qed.

Section GroupByFacts.
Context {A : Type} (key : A -> string).

Lemma group_keys_In (k : string) (rows : list A) :
  In k (group_keys key rows) <-> In k (map key rows).
Proof.
  unfold group_keys. induction (map key rows) as [| h l IH]; cbn.
  - tauto.
  - rewrite insert_key_In, IH. intuition.
Qed.

Lemma group_keys_sorted (rows : list A) :
  StronglySorted key_lt (group_keys key rows).
Proof.
  unfold group_keys. induction (map key rows) as [| h l IH]; cbn.
  - constructor.
  - apply insert_key_sorted. exact IH.
Qed.

Lemma group_by_keys (rows : list A) :
  map fst (group_by key rows) = group_keys key rows.
Proof.
  unfold group_by. rewrite map_map. cbn. apply map_id.
Qed.

(** A group is the rows of its key, in scan order, and is not empty. *)
Lemma group_by_In (g : string * list A) (rows : list A) :
  In g (group_by key rows) <->
  In (fst g) (map key rows)
  /\ snd g = List.filter (fun r => String.eqb (key r) (fst g)) rows.
Proof.
  unfold group_by. rewrite in_map_iff. split.
  - intros [k [<- Hk]]. cbn. split; [| reflexivity].
    apply group_keys_In. exact Hk.
  - intros [Hk Hg]. exists (fst g). split.
    + destruct g as [k l]. cbn in *. subst l. reflexivity.
    + apply group_keys_In. exact Hk.
Qed.

Lemma group_by_nonempty (g : string * list A) (rows : list A) :
  In g (group_by key rows) -> snd g <> [].
Proof.
  intros H. apply group_by_In in H. destruct H as [Hk Hg].
  apply in_map_iff in Hk. destruct Hk as [r [Hr Hin]].
  assert (Hi : In r (snd g)).
  { rewrite Hg. apply filter_In. split; [exact Hin |].
    apply String.eqb_eq. exact Hr. }
  intros E. rewrite E in Hi. exact Hi.
Qed.

Lemma group_by_rows (g : string * list A) (rows : list A) (r : A) :
  In g (group_by key rows) -> In r (snd g) -> In r rows /\ key r = fst g.
Proof.
  intros H Hr. apply group_by_In in H. destruct H as [_ Hg].
  rewrite Hg in Hr. apply filter_In in Hr. destruct Hr as [Hin Hk].
  apply String.eqb_eq in Hk. split; assumption.
Qed.
End GroupByFacts.

(** ** budget_variance *)

Lemma variance_item_as_built (row : VarianceRow) : variance_as_built (variance_item row).
Proof.
  unfold variance_as_built, variance_item. cbn.
  assert (Hpct0 : (budgeted_amount row <= 0)%Q -> Qlt_bool 0 (budgeted_amount row) = false)
    by (intros H; apply Qlt_bool_false_iff; exact H).
  assert (Hpct1 : (0 < budgeted_amount row)%Q -> Qlt_bool 0 (budgeted_amount row) = true)
    by (intros H; apply Qlt_bool_iff; exact H).
  destruct (Qlt_bool (budgeted_amount row) (actual_amount row)) eqn:E;
    [apply Qlt_bool_iff in E | apply Qlt_bool_false_iff in E].
  - split; [split; [intros _; exact E | reflexivity] |].
    split; [split; [discriminate | intros H; contradiction] |].
    split; [reflexivity |].
    split; intros H; [rewrite (Hpct0 H) | rewrite (Hpct1 H)]; reflexivity.
  - apply Qle_not_lt in E.
    split; [split; [discriminate | intros H; contradiction] |].
    split; [split; [intros _; exact E | reflexivity] |].
    split; [reflexivity |].
    split; intros H; [rewrite (Hpct0 H) | rewrite (Hpct1 H)]; reflexivity.
Qed.

Lemma variance_rows_of_In (st : Store) (period : Period) (b : Budget)
    (r : Budget * Category * option Transaction) :
  In r (variance_rows_of st period b) ->
  b_active b = true
  /\ get_category st (b_category_id b) = Some (snd (fst r))
  /\ fst (fst r) = b
  /\ match snd r with
     | Some t => In t (budget_expenses st period (snd (fst r)))
     | None => budget_expenses st period (snd (fst r)) = []
     end.
Proof.
  unfold variance_rows_of.
  destruct (b_active b); [| contradiction].
  destruct (get_category st (b_category_id b)) as [c |]; [| contradiction].
  destruct (budget_expenses st period c) as [| t0 ts] eqn:E.
  - intros [<- | []]. cbn. repeat split; try reflexivity. exact E.
  - intros H. apply in_map_iff in H. destruct H as [t [<- Ht]]. cbn.
    repeat split; try reflexivity. rewrite E. exact Ht.
Qed.

Lemma variance_rows_of_first (st : Store) (period : Period) (b : Budget) (c : Category) :
  b_active b = true -> get_category st (b_category_id b) = Some c ->
  exists t rest, variance_rows_of st period b = (b, c, t) :: rest.
Proof.
  intros Hact Hc. unfold variance_rows_of. rewrite Hact, Hc.
  destruct (budget_expenses st period c) as [| t0 ts]; cbn; eauto.
Qed.

Lemma variance_query_active (st : Store) (period : Period) (row : VarianceRow) :
  In row (variance_query st period) ->
  exists b c,
    In b (budgets st) /\ b_active b = true
    /\ get_category st (b_category_id b) = Some c
    /\ budget_id row = b_id b /\ budgeted_amount row = b_amount b
    /\ category_id row = c_id c.
Proof.
  unfold variance_query. intros H. apply in_flat_map in H.
  destruct H as [g [Hg Hrow]].
  unfold variance_group in Hrow.
  destruct (snd g) as [| [[b c] t] rest] eqn:E; [contradiction |].
  destruct Hrow as [<- | []]. cbn.
  assert (Hin : In (b, c, t) (snd g)) by (rewrite E; left; reflexivity).
  destruct (group_by_rows _ _ _ _ Hg Hin) as [Hr _].
  unfold variance_rows in Hr. apply in_flat_map in Hr.
  destruct Hr as [b' [Hb' Hr]].
  destruct (variance_rows_of_In st period b' (b, c, t) Hr) as (Hact & Hc & Hb & _).
  cbn in Hb, Hc. subst b'.
  exists b, c. repeat split; assumption.
Qed.

(** Every active budget whose category exists has an item; with distinct
    budget ids that item holds the sum of the expenses of the category in
    the window, 0 when there is none. *)
Lemma variance_query_covers (st : Store) (period : Period) (b : Budget) (c : Category) :
  In b (budgets st) -> b_active b = true ->
  get_category st (b_category_id b) = Some c ->
  exists row, In row (variance_query st period) /\ budget_id row = b_id b.
Proof.
  intros Hb Hact Hc.
  destruct (variance_rows_of_first st period b c Hact Hc) as (t & rest & Hrows).
  assert (Hkey : In (b_id b) (map (fun r => b_id (fst (fst r))) (variance_rows st period))).
  { apply in_map_iff. exists (b, c, t). split; [reflexivity |].
    unfold variance_rows. apply in_flat_map. exists b. split; [exact Hb |].
    rewrite Hrows. left. reflexivity. }
  set (g := (b_id b, List.filter (fun r => String.eqb (b_id (fst (fst r))) (b_id b))
                       (variance_rows st period))).
  assert (Hg : In g (group_by (fun r => b_id (fst (fst r))) (variance_rows st period))).
  { apply group_by_In. split; [exact Hkey | reflexivity]. }
  pose proof (group_by_nonempty _ _ _ Hg) as Hne.
  destruct (snd g) as [| [[b1 c1] t1] rest1] eqn:E; [contradiction |].
  assert (Hin : In (b1, c1, t1) (snd g)) by (rewrite E; left; reflexivity).
  destruct (group_by_rows _ _ _ _ Hg Hin) as [_ Hk]. cbn in Hk.
  eexists. split.
  - unfold variance_query. apply in_flat_map. exists g. split; [exact Hg |].
    unfold variance_group. rewrite E. left. reflexivity.
  - cbn. exact Hk.
Qed.

Lemma filter_flat_map_key {A B : Type} (key : A -> string) (rowkey : B -> string)
    (f : A -> list B) (l : list A) (x : A) :
  List.NoDup (map key l) -> In x l ->
  (forall y r, In r (f y) -> rowkey r = key y) ->
  List.filter (fun r => String.eqb (rowkey r) (key x)) (flat_map f l) = f x.
Proof.
  intros Hnd Hin Hkey.
  assert (Hall : forall y, key y = key x ->
                 List.filter (fun r => String.eqb (rowkey r) (key x)) (f y) = f y).
  { intros y E. apply forallb_filter_id. apply forallb_forall. intros r Hr.
    apply String.eqb_eq. rewrite (Hkey y r Hr). exact E. }
  assert (Hnone : forall y, key y <> key x ->
                  List.filter (fun r => String.eqb (rowkey r) (key x)) (f y) = []).
  { intros y E. destruct (List.filter _ (f y)) as [| r rest] eqn:F; [reflexivity |].
    assert (Hr : In r (List.filter (fun r => String.eqb (rowkey r) (key x)) (f y)))
      by (rewrite F; left; reflexivity).
    apply filter_In in Hr. destruct Hr as [Hr Hk]. apply String.eqb_eq in Hk.
    rewrite (Hkey y r Hr) in Hk. contradiction. }
  assert (Hrest : forall l' : list A,
             (forall z, In z l' -> key z <> key x) ->
             List.filter (fun r => String.eqb (rowkey r) (key x)) (flat_map f l') = []).
  { induction l' as [| z l' IHl]; intros Hl'; [reflexivity |].
    cbn [flat_map]. rewrite List.filter_app.
    rewrite (Hnone z (Hl' z (or_introl eq_refl))). cbn. apply IHl.
    intros w Hw. apply Hl'. right. exact Hw. }
  induction l as [| y l IH]; [contradiction |].
  cbn in Hnd. inversion Hnd as [| k ks Hy Hnd']. subst.
  cbn [flat_map]. rewrite List.filter_app. destruct Hin as [-> | Hin].
  - rewrite (Hall x eq_refl). rewrite Hrest; [apply app_nil_r |].
    intros z Hz E. apply Hy. rewrite <- E. apply in_map. exact Hz.
  - assert (Hyx : key y <> key x).
    { intros E. apply Hy. rewrite E. apply in_map. exact Hin. }
    rewrite (Hnone y Hyx). cbn. apply IH; assumption.
Qed.

Lemma variance_query_actual (st : Store) (period : Period) (b : Budget) (c : Category) :
  List.NoDup (map b_id (budgets st)) ->
  In b (budgets st) -> b_active b = true ->
  get_category st (b_category_id b) = Some c ->
  In (mkVarianceRow (b_id b) (b_amount b) (b_period b) (c_name c) (c_id c)
        (Qsum (map t_amount (budget_expenses st period c))))
     (variance_query st period).
Proof.
  intros Hnd Hb Hact Hc.
  destruct (variance_rows_of_first st period b c Hact Hc) as (t & rest & Hrows).
  assert (Hgroup : List.filter (fun r => String.eqb (b_id (fst (fst r))) (b_id b))
                     (variance_rows st period)
                   = variance_rows_of st period b).
  { unfold variance_rows.
    apply (filter_flat_map_key b_id (fun r => b_id (fst (fst r)))); try assumption.
    intros y r Hr. destruct r as [[b1 c1] t1].
    destruct (variance_rows_of_In st period y (b1, c1, t1) Hr) as (_ & _ & E & _).
    cbn in *. congruence. }
  unfold variance_query. apply in_flat_map.
  exists (b_id b, variance_rows_of st period b). split.
  - apply group_by_In. cbn [fst snd]. split; [| symmetry; exact Hgroup].
    apply in_map_iff. exists (b, c, t). split; [reflexivity |].
    unfold variance_rows. apply in_flat_map. exists b. split; [exact Hb |].
    rewrite Hrows. left. reflexivity.
  - unfold variance_group. cbn [snd]. rewrite Hrows. left.
    rewrite <- Hrows. f_equal.
    unfold variance_rows_of. rewrite Hact, Hc.
    destruct (budget_expenses st period c) as [| t0 ts]; [reflexivity |].
    f_equal. generalize (t0 :: ts). intros l.
    induction l as [| x l IH]; [reflexivity |]. cbn. rewrite IH. reflexivity.
Qed.



(** The example of the specification: actual 60 against a budget of 100. *)
Example budget_variance_food :
  map (fun v => (actual_amount (v_row v), Qred (variance v),
                 variance_percentage v, v_status v))
    (fst (budget_variance food_store march_2024))
  = [(60%Q, (-40)%Q, VStr "-40.00", "under")].
Proof. vm_compute. reflexivity. Qed.

(** ** CSV export *)

Lemma double_quotes_paired (s : string) : quotes_paired (double_quotes s) = true.
Proof.
  induction s as [| c s IH]; [reflexivity |].
  cbn [double_quotes]. destruct (Ascii.eqb c dquote) eqn:E.
  - cbn. exact IH.
  - cbn [quotes_paired]. rewrite E. exact IH.
Qed.

Lemma undouble_double_quotes (s : string) : undouble_quotes (double_quotes s) = s.
Proof.
  induction s as [| c s IH]; [reflexivity |].
  cbn [double_quotes]. destruct (Ascii.eqb c dquote) eqn:E.
  - apply Ascii.eqb_eq in E. subst c. cbn. rewrite IH. reflexivity.
  - cbn [undouble_quotes]. rewrite E, IH. reflexivity.
Qed.

Lemma get_missing (row : record) (header : string) :
  ~ In header (keys row) -> get row header = VUndefined.
Proof.
  unfold get, keys. intros H.
  destruct (List.find _ row) as [kv |] eqn:E; [| reflexivity].
  apply find_some in E. destruct E as [Hin Hk].
  apply String.eqb_eq in Hk. exfalso. apply H. rewrite <- Hk.
  apply in_map. exact Hin.
Qed.

Section FormatFacts.
Context (Number_toString : Q -> string)
        (JSON_stringify : ExportData -> string)
        (formatCurrency : value -> string).

(** A cell is a quoted body; the body is the text of the value with every
    double quote doubled, so it reads back as that text. *)
Lemma csv_cell_quoted (row : record) (header : string) :
  exists body,
    csv_cell Number_toString row header = String dquote (body ++ String dquote "")
    /\ quotes_paired body = true
    /\ undouble_quotes body
       = toString Number_toString
           (if truthy (get row header) then get row header else VStr "").
Proof.
  eexists. split; [reflexivity |]. split.
  - apply double_quotes_paired.
  - apply undouble_double_quotes.
Qed.

Lemma csv_cell_missing (row : record) (header : string) :
  ~ In header (keys row) ->
  csv_cell Number_toString row header = String dquote (String dquote "").
Proof.
  intros H. unfold csv_cell. rewrite (get_missing _ _ H). reflexivity.
Qed.

End FormatFacts.

(** The example of the specification: two transactions give a header line
    and one line of quoted cells each; the quotes around Luigi are doubled
    and the null tags are empty. *)
Example csv_two_transactions :
  formatExportData (fun q => digits (Qfloor q)) (fun _ => "") (fun _ => "")
    (Rows csv_sample) "csv"
  = Ok (String.concat newline
          [ "id,description,tags";
            String.concat ","
              [ String dquote ("txn_001" ++ String dquote "");
                String dquote ("Weekly grocery shopping" ++ String dquote "");
                String dquote (String dquote "") ];
            String.concat ","
              [ String dquote ("txn_006" ++ String dquote "");
                String dquote
                  ("Dinner at "
                   ++ String dquote (String dquote ("Luigi"
                   ++ String dquote (String dquote (String dquote "")))));
                String dquote ("dining,date" ++ String dquote "") ] ]).
Proof. vm_compute. reflexivity. Qed.

(** ** batchCreateTransactions *)

Section BatchFacts.
Context (today : Date) (entropy : nat -> string) (validateOnly : bool).

Lemma rejection_tables (st st' : Store) (txn : TransactionInput) :
  categories st' = categories st -> ledgers st' = ledgers st ->
  rejection st' txn = rejection st txn.
Proof.
  intros Hc Hl. unfold rejection, get_category, get_ledger. rewrite Hc, Hl.
  reflexivity.
Qed.

(** A rejected item throws that message, whatever the mode. *)
Lemma batch_item_rejected (st : Store) (i : nat) (txn : TransactionInput) (msg : string) :
  rejection st txn = Some msg ->
  batch_item today entropy validateOnly st i txn = Err msg.
Proof.
  unfold rejection, batch_item.
  destruct (0 <? length (validateTransaction txn))%nat; [congruence |].
  destruct (get_category st _); [| congruence].
  destruct (get_ledger st _); [discriminate | congruence].
Qed.

(** An item only ever touches the transactions table, and its entry keeps
    its index and its request. *)
Lemma batch_item_ok (st st' : Store) (i : nat) (txn : TransactionInput) (e : BatchEntry) :
  batch_item today entropy validateOnly st i txn = Ok (st', e) ->
  categories st' = categories st /\ ledgers st' = ledgers st
  /\ budgets st' = budgets st
  /\ index e = i /\ transaction e = txn /\ rejection st txn = None.
Proof.
  unfold rejection, batch_item.
  destruct (0 <? length (validateTransaction txn))%nat; [discriminate |].
  destruct (get_category st _); [| discriminate].
  destruct (get_ledger st _); [| discriminate].
  destruct validateOnly.
  - intros H. inversion H. subst. repeat split; reflexivity.
  - destruct (formatDate today (date txn)) as [d |]; cbn; [| discriminate].
    unfold insert_transaction.
    destruct (existsb _ (transactions st)); cbn; [discriminate |].
    destruct (negb _); cbn; [discriminate |].
    intros H. inversion H. subst. repeat split; reflexivity.
Qed.

Lemma batch_loop_spec (txns : list TransactionInput) :
  forall (i : nat) (st : Store) (results : list BatchEntry) (errors : list BatchError)
         (st' : Store) (results' : list BatchEntry) (errors' : list BatchError),
    batch_loop today entropy validateOnly i txns st results errors
    = (st', results', errors') ->
    categories st' = categories st /\ ledgers st' = ledgers st
    /\ budgets st' = budgets st
    /\ exists rs es,
        results' = results ++ rs /\ errors' = errors ++ es
        /\ Permutation (map index rs ++ map e_index es) (seq i (length txns))
        /\ (forall e, In e rs ->
              (i <= index e)%nat /\ nth_error txns (index e - i) = Some (transaction e))
        /\ (forall e, In e es ->
              (i <= e_index e)%nat
              /\ nth_error txns (e_index e - i) = Some (e_transaction e))
        /\ (forall j txn msg,
              nth_error txns j = Some txn -> rejection st txn = Some msg ->
              In (mkBatchError (i + j) msg txn) es).
Proof.
  induction txns as [| txn rest IH]; intros i st results errors st' results' errors' H.
  - cbn in H. inversion H. subst.
    split; [reflexivity |]. split; [reflexivity |]. split; [reflexivity |].
    exists [], []. rewrite !app_nil_r.
    split; [reflexivity |]. split; [reflexivity |]. split; [constructor |].
    split; [intros e [] |]. split; [intros e [] |].
    intros j t msg Hj. destruct j; discriminate Hj.
  - cbn [batch_loop] in H.
    destruct (batch_item today entropy validateOnly st i txn) as [[st1 entry] | message] eqn:E.
    + apply batch_item_ok in E. destruct E as (Hc & Hl & Hb & Hi & Ht & Hrej).
      apply IH in H. destruct H as (Hc' & Hl' & Hb' & rs & es & -> & -> & Hp & Hrs & Hes & Herr).
      split; [congruence |]. split; [congruence |]. split; [congruence |].
      exists (entry :: rs), es. rewrite <- !app_assoc. cbn.
      split; [reflexivity |]. split; [reflexivity |]. split; [| split; [| split]].
      * rewrite Hi. constructor. exact Hp.
      * intros e [<- | He].
        -- rewrite Hi, Nat.sub_diag. cbn. rewrite Ht. split; [lia | reflexivity].
        -- destruct (Hrs e He) as [Hle Hn]. split; [lia |].
           replace (index e - i)%nat with (S (index e - S i)) by lia. exact Hn.
      * intros e He. destruct (Hes e He) as [Hle Hn]. split; [lia |].
        replace (e_index e - i)%nat with (S (e_index e - S i)) by lia. exact Hn.
      * intros j t msg Hj Hr. destruct j as [| j].
        -- cbn in Hj. inversion Hj. subst t. congruence.
        -- cbn in Hj. replace (i + S j)%nat with (S i + j)%nat by lia.
           apply (Herr j t msg Hj).
           rewrite (rejection_tables st st1 t Hc Hl). exact Hr.
    + apply IH in H. destruct H as (Hc' & Hl' & Hb' & rs & es & -> & -> & Hp & Hrs & Hes & Herr).
      split; [exact Hc' |]. split; [exact Hl' |]. split; [exact Hb' |].
      exists rs, (mkBatchError i message txn :: es). rewrite <- !app_assoc. cbn.
      split; [reflexivity |]. split; [reflexivity |]. split; [| split; [| split]].
      * apply Permutation_sym. apply Permutation_cons_app.
        apply Permutation_sym. exact Hp.
      * intros e He. destruct (Hrs e He) as [Hle Hn]. split; [lia |].
        replace (index e - i)%nat with (S (index e - S i)) by lia. exact Hn.
      * intros e [<- | He].
        -- cbn. rewrite Nat.sub_diag. cbn. split; [lia | reflexivity].
        -- destruct (Hes e He) as [Hle Hn]. split; [lia |].
           replace (e_index e - i)%nat with (S (e_index e - S i)) by lia. exact Hn.
      * intros j t msg Hj Hr. destruct j as [| j].
        -- cbn in Hj. inversion Hj. subst t. left.
           rewrite (batch_item_rejected st i txn msg Hr) in E. inversion E.
           rewrite Nat.add_0_r. reflexivity.
        -- cbn in Hj. right. replace (i + S j)%nat with (S i + j)%nat by lia.
           apply (Herr j t msg Hj). exact Hr.
Qed.
End BatchFacts.

Lemma batch_results_of_loop (today : Date) (entropy : nat -> string) (validateOnly : bool)
    (st : Store) (txns : list TransactionInput) :
  let out := batchCreateTransactions today entropy validateOnly st txns in
  batch_loop today entropy validateOnly 0 txns st [] []
  = (fst out, results (snd out), errors (snd out))
  /\ summary (snd out)
     = mkBatchSummary (length txns) (length (results (snd out)))
         (length (errors (snd out))) validateOnly.
Proof.
  unfold batchCreateTransactions.
  destruct (batch_loop today entropy validateOnly 0 txns st [] []) as [[st' rs] es].
  split; reflexivity.
Qed.

(** C5.  For every input list, in either mode: the indices recorded in
    [results] and [errors] together are exactly the input indices, each
    once, so every item is processed and lands in exactly one of the two
    lists; each entry carries the request found at its index; an item of
    invalid shape, with an unknown category or with an unknown ledger is
    recorded in [errors] at its own index with its message, without keeping
    the other items from being processed; and the summary counts satisfy
    successful + failed = total = number of items. *)
Theorem batch_isolates_failures (today : Date) (entropy : nat -> string)
    (validateOnly : bool) (st : Store) (txns : list TransactionInput) :
  let r := snd (batchCreateTransactions today entropy validateOnly st txns) in
  Permutation (map index (results r) ++ map e_index (errors r)) (seq 0 (length txns))
  /\ (forall j : nat, (j < length txns)%nat ->
        (count_occ Nat.eq_dec (map index (results r)) j
         + count_occ Nat.eq_dec (map e_index (errors r)) j = 1)%nat)
  /\ Forall (fun e => nth_error txns (index e) = Some (transaction e)) (results r)
  /\ Forall (fun e => nth_error txns (e_index e) = Some (e_transaction e)) (errors r)
  /\ (forall (j : nat) (txn : TransactionInput) (msg : string),
        nth_error txns j = Some txn -> rejection st txn = Some msg ->
        In (mkBatchError j msg txn) (errors r))
  /\ (successful (summary r) + failed (summary r) = sm_total (summary r))%nat
  /\ sm_total (summary r) = length txns.
Proof.
  cbv zeta.
  destruct (batch_results_of_loop today entropy validateOnly st txns) as [Hloop Hsum].
  apply batch_loop_spec in Hloop.
  destruct Hloop as (_ & _ & _ & rs & es & Hrs & Hes & Hp & Hr & He & Herr).
  cbn [app] in Hrs, Hes. rewrite Hsum, Hrs, Hes. cbn [successful failed sm_total].
  split; [exact Hp |]. split; [| split; [| split; [| split; [| split]]]].
  - intros j Hj. rewrite <- count_occ_app.
    rewrite (proj1 (Permutation_count_occ Nat.eq_dec _ _) Hp j).
    apply NoDup_count_occ'; [apply seq_NoDup |].
    apply in_seq. lia.
  - apply List.Forall_forall. intros e Hin. destruct (Hr e Hin) as [_ Hn].
    rewrite Nat.sub_0_r in Hn. exact Hn.
  - apply List.Forall_forall. intros e Hin. destruct (He e Hin) as [_ Hn].
    rewrite Nat.sub_0_r in Hn. exact Hn.
  - intros j txn msg Hj Hrej. exact (Herr j txn msg Hj Hrej).
  - apply Permutation_length in Hp.
    rewrite length_app, !length_map, length_seq in Hp. exact Hp.
  - reflexivity.
Qed.

(** One invalid item between two valid ones: the outer items are created,
    the invalid ones are reported at indices 1 and 2. *)
Example batch_mixed :
  let out := batchCreateTransactions (mkDate 2024 3 9) (fun i => digits (Z.of_nat i))
               false (seedData (mkDate 2024 3 9)) [lunch; refund; unknown_category; lunch] in
  map index (results (snd out)) = [0; 3]%nat
  /\ map (fun e => (e_index e, error e)) (errors (snd out))
     = [(1%nat, "Invalid amount"); (2%nat, "Category not found: lottery")]
  /\ summary (snd out) = mkBatchSummary 4 2 2 false
  /\ length (transactions (fst out)) = 10%nat.
Proof. vm_compute. repeat split; reflexivity. Qed.

(** *** validate_only *)

Lemma batch_loop_dry (today : Date) (entropy : nat -> string) (txns : list TransactionInput) :
  forall (i : nat) (st : Store) (results : list BatchEntry) (errors : list BatchError),
    fst (fst (batch_loop today entropy true i txns st results errors)) = st.
Proof.
  induction txns as [| txn rest IH]; intros i st results errors; [reflexivity |].
  cbn [batch_loop].
  destruct (batch_item today entropy true st i txn) as [[st1 entry] | message] eqn:E.
  - assert (st1 = st) as ->.
    { unfold batch_item in E.
      destruct (0 <? length (validateTransaction txn))%nat; [discriminate |].
      destruct (get_category st _); [| discriminate].
      destruct (get_ledger st _); [| discriminate].
      inversion E. reflexivity. }
    apply IH.
  - apply IH.
Qed.

(** A dry run persists nothing: the store it leaves is the store it found. *)
Lemma batch_validate_only_store (today : Date) (entropy : nat -> string)
    (st : Store) (txns : list TransactionInput) :
  fst (batchCreateTransactions today entropy true st txns) = st.
Proof.
  pose proof (batch_loop_dry today entropy txns 0 st [] []) as H.
  unfold batchCreateTransactions.
  destruct (batch_loop today entropy true 0 txns st [] []) as [[st' rs] es].
  exact H.
Qed.

(** What a dry run reports for an item, and what a real run does with the
    same item on the same store: a rejected item is rejected alike; an item
    reported valid is created only if its date parses and the generated id
    is free. *)
Lemma batch_item_dry_run (today : Date) (entropy : nat -> string)
    (st : Store) (i : nat) (txn : TransactionInput) :
  batch_item today entropy true st i txn
  = match rejection st txn with
    | Some msg => Err msg
    | None => Ok (st, mkBatchEntry i "valid" None txn)
    end.
Proof.
  unfold rejection, batch_item.
  destruct (0 <? length (validateTransaction txn))%nat; [reflexivity |].
  destruct (get_category st _); [| reflexivity].
  destruct (get_ledger st _); reflexivity.
Qed.

Lemma batch_item_real_run (today : Date) (entropy : nat -> string)
    (st : Store) (i : nat) (txn : TransactionInput) :
  match rejection st txn with
  | Some msg => batch_item today entropy false st i txn = Err msg
  | None =>
      match formatDate today (date txn) with
      | Err msg => batch_item today entropy false st i txn = Err msg
      | Ok d =>
          if existsb (fun t => String.eqb (t_id t) (generateId (entropy i) "txn"))
               (transactions st)
          then exists msg, batch_item today entropy false st i txn = Err msg
          else exists st', batch_item today entropy false st i txn
                           = Ok (st', mkBatchEntry i "created"
                                        (Some (generateId (entropy i) "txn")) txn)
      end
  end.
Proof.
  unfold rejection, batch_item.
  destruct (0 <? length (validateTransaction txn))%nat eqn:V; [reflexivity |].
  destruct (get_category st _); [| reflexivity].
  destruct (get_ledger st _); [| reflexivity].
  destruct (formatDate today (date txn)) as [d | msg]; [| reflexivity].
  cbn. unfold insert_transaction. cbn [t_id t_type].
  destruct (existsb _ (transactions st)); [eexists; reflexivity |].
  assert (T : in_list (or_default (type txn) "") ["income"; "expense"] = true).
  { unfold validateTransaction in V.
    destruct (negb (truthy_str (type txn))
              || negb (in_list (or_default (type txn) "") ["income"; "expense"])) eqn:T.
    - exfalso. cbn in V.
      destruct (match amount txn with Some a => _ | None => true end);
        destruct (negb (truthy_str (category txn))); cbn in V; discriminate.
    - apply orb_false_iff in T. destruct T as [_ T].
      apply negb_false_iff in T. exact T. }
  rewrite T. cbn. eexists. reflexivity.
Qed.

(** C4 at a failing input.  On the seeded store, a request dated
    [not-a-date] is reported valid by the dry run, which leaves the table
    as it was, and is rejected with [Invalid time value] by the real run. *)
Theorem batch_validate_only_misses_date :
  let st := seedData (mkDate 2024 3 9) in
  let dry := batchCreateTransactions (mkDate 2024 3 9) (fun _ => "e") true st [misdated_lunch] in
  let real := batchCreateTransactions (mkDate 2024 3 9) (fun _ => "e") false st [misdated_lunch] in
  fst dry = st
  /\ map (fun e => (index e, status e)) (results (snd dry)) = [(0%nat, "valid")]
  /\ errors (snd dry) = []
  /\ results (snd real) = []
  /\ map (fun e => (e_index e, error e)) (errors (snd real))
     = [(0%nat, "Invalid time value")]
  /\ fst real = st.
Proof. vm_compute. repeat split; reflexivity. Qed.

(** ** getRecordDetails *)

Lemma find_absent {A : Type} (f : A -> bool) (l : list A) :
  (forall x, In x l -> f x = false) -> List.find f l = None.
Proof.
  intros H. destruct (List.find f l) as [x |] eqn:E; [| reflexivity].
  apply find_some in E. destruct E as [Hin Hf]. rewrite (H x Hin) in Hf.
  discriminate Hf.
Qed.

Lemma find_present {A : Type} (f : A -> bool) (l : list A) (x : A) :
  In x l -> f x = true -> exists y, List.find f l = Some y /\ In y l /\ f y = true.
Proof.
  intros Hin Hf. destruct (List.find f l) as [y |] eqn:E.
  - exists y. apply find_some in E. destruct E. repeat split; assumption.
  - rewrite (find_none f l E x Hin) in Hf. discriminate Hf.
Qed.

Lemma transaction_detail_absent (st : Store) (recordId : string) :
  ~ In recordId (map t_id (transactions st)) ->
  transaction_detail st recordId = None.
Proof.
  intros H. unfold transaction_detail. apply find_absent.
  intros d Hd. apply in_flat_map in Hd. destruct Hd as [t [Ht Hd]].
  destruct (get_category st (t_category_id t)); [| contradiction].
  destruct (get_ledger st (t_ledger_id t)); [| contradiction].
  destruct Hd as [<- | []]. cbn.
  apply String.eqb_neq. intros E. apply H. rewrite <- E. apply in_map. exact Ht.
Qed.

Lemma transaction_detail_present (st : Store) (recordId : string) :
  references_ok st = true ->
  In recordId (map t_id (transactions st)) ->
  exists t c l,
    In t (transactions st) /\ t_id t = recordId
    /\ get_category st (t_category_id t) = Some c
    /\ get_ledger st (t_ledger_id t) = Some l
    /\ transaction_detail st recordId
       = Some (mkTransactionDetail t (c_name c) (c_type c) (l_name l) (l_type l)).
Proof.
  intros Hok Hin. apply andb_true_iff in Hok. destruct Hok as [Hok _].
  rewrite forallb_forall in Hok.
  apply in_map_iff in Hin. destruct Hin as [t0 [Hid Ht0]].
  specialize (Hok t0 Ht0) as Hrefs.
  destruct (get_category st (t_category_id t0)) as [c0 |] eqn:Hc0; [| discriminate].
  destruct (get_ledger st (t_ledger_id t0)) as [l0 |] eqn:Hl0; [| discriminate].
  unfold transaction_detail.
  edestruct (find_present
               (fun r => String.eqb (t_id (d_txn r)) recordId)
               (flat_map (fun t =>
                  match get_category st (t_category_id t), get_ledger st (t_ledger_id t) with
                  | Some c, Some l =>
                      [mkTransactionDetail t (c_name c) (c_type c) (l_name l) (l_type l)]
                  | _, _ => []
                  end) (transactions st))
               (mkTransactionDetail t0 (c_name c0) (c_type c0) (l_name l0) (l_type l0)))
    as [d [Hfind [Hd Hdid]]].
  - apply in_flat_map. exists t0. split; [exact Ht0 |]. rewrite Hc0, Hl0. left. reflexivity.
  - cbn. apply String.eqb_eq. exact Hid.
  - apply in_flat_map in Hd. destruct Hd as [t [Ht Hd]].
    destruct (get_category st (t_category_id t)) as [c |] eqn:Hc; [| contradiction].
    destruct (get_ledger st (t_ledger_id t)) as [l |] eqn:Hl; [| contradiction].
    destruct Hd as [<- | []]. cbn in Hdid. apply String.eqb_eq in Hdid.
    exists t, c, l. repeat split; assumption.
Qed.

Lemma get_ledger_absent (st : Store) (recordId : string) :
  ~ In recordId (map l_id (ledgers st)) -> get_ledger st recordId = None.
Proof.
  intros H. unfold get_ledger. apply find_absent. intros l Hl.
  apply String.eqb_neq. intros E. apply H. rewrite <- E. apply in_map. exact Hl.
Qed.

Lemma get_ledger_present (st : Store) (recordId : string) :
  In recordId (map l_id (ledgers st)) ->
  exists l, In l (ledgers st) /\ l_id l = recordId /\ get_ledger st recordId = Some l.
Proof.
  intros Hin. apply in_map_iff in Hin. destruct Hin as [l0 [Hid Hl0]].
  unfold get_ledger.
  destruct (find_present (fun l => String.eqb (l_id l) recordId) (ledgers st) l0 Hl0)
    as [l [Hfind [Hl Hlid]]].
  - apply String.eqb_eq. exact Hid.
  - apply String.eqb_eq in Hlid. exists l. repeat split; assumption.
Qed.

Lemma budget_detail_absent (st : Store) (recordId : string) :
  ~ In recordId (map b_id (budgets st)) -> budget_detail st recordId = None.
Proof.
  intros H. unfold budget_detail. apply find_absent.
  intros d Hd. apply in_flat_map in Hd. destruct Hd as [b [Hb Hd]].
  destruct (get_category st (b_category_id b)); [| contradiction].
  destruct Hd as [<- | []]. cbn.
  apply String.eqb_neq. intros E. apply H. rewrite <- E. apply in_map. exact Hb.
Qed.

Lemma budget_detail_present (st : Store) (recordId : string) :
  references_ok st = true ->
  In recordId (map b_id (budgets st)) ->
  exists b c,
    In b (budgets st) /\ b_id b = recordId
    /\ get_category st (b_category_id b) = Some c
    /\ budget_detail st recordId = Some (mkBudgetDetail b (c_name c) (c_type c)).
Proof.
  intros Hok Hin. apply andb_true_iff in Hok. destruct Hok as [_ Hok].
  rewrite forallb_forall in Hok.
  apply in_map_iff in Hin. destruct Hin as [b0 [Hid Hb0]].
  specialize (Hok b0 Hb0) as Hrefs.
  destruct (get_category st (b_category_id b0)) as [c0 |] eqn:Hc0; [| discriminate].
  unfold budget_detail.
  edestruct (find_present
               (fun r => String.eqb (b_id (d_budget r)) recordId)
               (flat_map (fun b =>
                  match get_category st (b_category_id b) with
                  | Some c => [mkBudgetDetail b (c_name c) (c_type c)]
                  | None => []
                  end) (budgets st))
               (mkBudgetDetail b0 (c_name c0) (c_type c0)))
    as [d [Hfind [Hd Hdid]]].
  - apply in_flat_map. exists b0. split; [exact Hb0 |]. rewrite Hc0. left. reflexivity.
  - cbn. apply String.eqb_eq. exact Hid.
  - apply in_flat_map in Hd. destruct Hd as [b [Hb Hd]].
    destruct (get_category st (b_category_id b)) as [c |] eqn:Hc; [| contradiction].
    destruct Hd as [<- | []]. cbn in Hdid. apply String.eqb_eq in Hdid.
    exists b, c. repeat split; assumption.
Qed.

(** C8.  On a store that honours the references its schema declares, for
    each of the three record types: an id that the table does not hold
    makes getRecordDetails throw the not-found error whose message ends
    with that id; an id that it holds returns the row with that id, a
    transaction joined with the name and type of its category and of its
    ledger, a budget joined with the name and type of its category, a
    ledger as stored. *)
Theorem record_details_lookup (st : Store) (today : Date) (recordId : string)
    (includeRelated : bool) :
  references_ok st = true ->
  (~ In recordId (map t_id (transactions st)) ->
   getRecordDetails st today "transaction" recordId includeRelated
   = Err ("Transaction not found: " ++ recordId))
  /\ (In recordId (map t_id (transactions st)) ->
      exists t c l related,
        In t (transactions st) /\ t_id t = recordId
        /\ get_category st (t_category_id t) = Some c
        /\ get_ledger st (t_ledger_id t) = Some l
        /\ getRecordDetails st today "transaction" recordId includeRelated
           = Ok (TransactionRecord
                   (mkTransactionDetail t (c_name c) (c_type c) (l_name l) (l_type l))
                   related))
  /\ (~ In recordId (map l_id (ledgers st)) ->
      getRecordDetails st today "ledger_record" recordId includeRelated
      = Err ("Ledger not found: " ++ recordId))
  /\ (In recordId (map l_id (ledgers st)) ->
      exists l recent,
        In l (ledgers st) /\ l_id l = recordId
        /\ getRecordDetails st today "ledger_record" recordId includeRelated
           = Ok (LedgerRecord l recent))
  /\ (~ In recordId (map b_id (budgets st)) ->
      getRecordDetails st today "budget_snapshot" recordId includeRelated
      = Err ("Budget not found: " ++ recordId))
  /\ (In recordId (map b_id (budgets st)) ->
      exists b c spending,
        In b (budgets st) /\ b_id b = recordId
        /\ get_category st (b_category_id b) = Some c
        /\ getRecordDetails st today "budget_snapshot" recordId includeRelated
           = Ok (BudgetRecord (mkBudgetDetail b (c_name c) (c_type c)) spending)).
Proof.
  intros Hok. unfold getRecordDetails. cbn [String.eqb Ascii.eqb Bool.eqb].
  split; [| split; [| split; [| split; [| split]]]].
  - intros H. rewrite (transaction_detail_absent st recordId H). reflexivity.
  - intros H.
    destruct (transaction_detail_present st recordId Hok H)
      as (t & c & l & Ht & Hid & Hc & Hl & Hd).
    rewrite Hd. exists t, c, l. eexists. repeat split; try eassumption.
  - intros H. rewrite (get_ledger_absent st recordId H). reflexivity.
  - intros H. destruct (get_ledger_present st recordId H) as (l & Hl & Hid & Hg).
    rewrite Hg. exists l. eexists. repeat split; assumption.
  - intros H. rewrite (budget_detail_absent st recordId H). reflexivity.
  - intros H.
    destruct (budget_detail_present st recordId Hok H) as (b & c & Hb & Hid & Hc & Hd).
    rewrite Hd. exists b, c. eexists. repeat split; try eassumption.
Qed.

(** The example of the specification: the seeded store has no transaction
    [txn_999], and has the ledger [cash]. *)
Lemma record_details_lookup_seed :
  references_ok (seedData (mkDate 2024 3 9)) = true
  /\ getRecordDetails (seedData (mkDate 2024 3 9)) (mkDate 2024 3 9)
       "transaction" "txn_999" false
     = Err "Transaction not found: txn_999".
Proof.
  split; [reflexivity |].
  apply (record_details_lookup (seedData (mkDate 2024 3 9)) (mkDate 2024 3 9)
           "txn_999" false eq_refl).
  cbn. intros H. repeat (destruct H as [H | H]; [discriminate H |]). exact H.
Defined.

Example record_details_seed_transaction :
  getRecordDetails (seedData (mkDate 2024 3 9)) (mkDate 2024 3 9)
    "transaction" "txn_005" false
  = Ok (TransactionRecord
          (mkTransactionDetail
             (mkTransaction "txn_005" "expense" (1250 # 100) "movies" "cash"
                "Movie theater tickets" (mkDate 2024 3 8) "entertainment")
             "Movies & Shows" "expense" "Cash Wallet" "cash")
          None).
Proof. vm_compute. reflexivity. Qed.

(** ** Sorting *)

Section OrderByFacts.
Context {A : Type} (le : A -> A -> bool).

Lemma insert_sorted_perm (x : A) (l : list A) :
  Permutation (insert_sorted le x l) (x :: l).
Proof.
  induction l as [| y l IH]; cbn; [reflexivity |].
  destruct (le x y); [reflexivity |].
  rewrite IH. apply perm_swap.
Qed.

Lemma order_by_perm (l : list A) : Permutation (order_by le l) l.
Proof.
  induction l as [| x l IH]; cbn; [reflexivity |].
  rewrite insert_sorted_perm. constructor. exact IH.
Qed.

Lemma order_by_In (x : A) (l : list A) : In x (order_by le l) <-> In x l.
Proof.
  split; apply Permutation_in; [| apply Permutation_sym]; apply order_by_perm.
Qed.

Lemma order_by_length (l : list A) : length (order_by le l) = length l.
Proof. apply Permutation_length. apply order_by_perm. Qed.

Lemma insert_sorted_sorted (x : A) (l : list A) :
  (forall a b, le a b = false -> le b a = true) ->
  (forall a b c, le a b = true -> le b c = true -> le a c = true) ->
  StronglySorted (fun a b => le a b = true) l ->
  StronglySorted (fun a b => le a b = true) (insert_sorted le x l).
Proof.
  intros Htot Htrans. induction 1 as [| y l Hs IH Hall]; cbn.
  - constructor; constructor.
  - destruct (le x y) eqn:E.
    + constructor; [constructor; assumption |].
      constructor; [exact E |].
      eapply List.Forall_impl; [| exact Hall].
      intros z Hz. exact (Htrans x y z E Hz).
    + constructor; [exact IH |].
      apply List.Forall_forall. intros z Hz.
      apply (Permutation_in _ (insert_sorted_perm x l)) in Hz.
      destruct Hz as [<- | Hz].
      * apply Htot. exact E.
      * rewrite List.Forall_forall in Hall. apply Hall. exact Hz.
Qed.

Lemma order_by_sorted (l : list A) :
  (forall a b, le a b = false -> le b a = true) ->
  (forall a b c, le a b = true -> le b c = true -> le a c = true) ->
  StronglySorted (fun a b => le a b = true) (order_by le l).
Proof.
  intros Htot Htrans. induction l as [| x l IH]; cbn.
  - constructor.
  - apply insert_sorted_sorted; assumption.
Qed.
End OrderByFacts.

(** ** Sums *)

Lemma fold_left_Qplus (l : list Q) (a : Q) :
  (fold_left Qplus l a == a + fold_left Qplus l 0)%Q.
Proof.
  revert a. induction l as [| x l IH]; intros a; cbn.
  - ring.
  - rewrite (IH (a + x)%Q), (IH (0 + x)%Q). ring.
Qed.

Lemma Qsum_cons (x : Q) (l : list Q) : (Qsum (x :: l) == x + Qsum l)%Q.
Proof.
  unfold Qsum. cbn. rewrite fold_left_Qplus. ring.
Qed.

Lemma Qsum_nonneg (l : list Q) :
  (forall x, In x l -> (0 <= x)%Q) -> (0 <= Qsum l)%Q.
Proof.
  induction l as [| x l IH]; intros H.
  - unfold Qsum. cbn. lra.
  - rewrite Qsum_cons.
    assert (0 <= x)%Q by (apply H; left; reflexivity).
    assert (0 <= Qsum l)%Q by (apply IH; intros y Hy; apply H; right; exact Hy).
    lra.
Qed.

Lemma Qsum_pos (l : list Q) :
  l <> [] -> (forall x, In x l -> (0 < x)%Q) -> (0 < Qsum l)%Q.
Proof.
  destruct l as [| x l]; intros Hne H; [contradiction |].
  rewrite Qsum_cons.
  assert (0 < x)%Q by (apply H; left; reflexivity).
  assert (0 <= Qsum l)%Q.
  { apply Qsum_nonneg. intros y Hy. apply Qlt_le_weak. apply H. right. exact Hy. }
  lra.
Qed.

Lemma fold_left_sum_map {A : Type} (f : A -> Q) (l : list A) (a : Q) :
  fold_left (fun sum x => (sum + f x)%Q) l a = fold_left Qplus (map f l) a.
Proof.
  revert a. induction l as [| x l IH]; intros a; cbn; [reflexivity |]. apply IH.
Qed.

(** ** Rounding to two decimals *)

(** [round2 x] is the nearest number of hundredths: it is off by at most
    half a hundredth. *)
Lemma hundredths_bounds (x : Q) :
  (inject_Z (hundredths x) <= Qabs x * 100 + (1 # 2)
   /\ Qabs x * 100 - (1 # 2) < inject_Z (hundredths x))%Q.
Proof.
  unfold hundredths. split.
  - apply Qfloor_le.
  - pose proof (Qlt_floor (Qabs x * 100 + (1 # 2))) as H.
    rewrite inject_Z_plus in H. change (inject_Z 1) with 1%Q in H. lra.
Qed.

Lemma round2_nonneg (x : Q) :
  (0 <= x)%Q ->
  (inject_Z (round2 x) <= x * 100 + (1 # 2)
   /\ x * 100 - (1 # 2) < inject_Z (round2 x))%Q.
Proof.
  intros H. unfold round2.
  rewrite (proj2 (Qlt_bool_false_iff x 0) H).
  pose proof (hundredths_bounds x) as B. rewrite (Qabs_pos x H) in B. exact B.
Qed.

Lemma round2_error (x : Q) :
  (Qabs (inject_Z (round2 x) - x * 100) <= 1 # 2)%Q.
Proof.
  pose proof (hundredths_bounds x) as [B1 B2].
  unfold round2. destruct (Qlt_bool x 0) eqn:E.
  - apply Qlt_bool_iff in E.
    rewrite (Qabs_neg x) in B1, B2 by lra.
    rewrite inject_Z_opp. apply Qabs_Qle_condition. lra.
  - apply Qlt_bool_false_iff in E.
    rewrite (Qabs_pos x E) in B1, B2.
    apply Qabs_Qle_condition. lra.
Qed.

(** The text printed by [toFixed2] is the sign, the whole hundreds of
    [|round2 x|], a point and its last two digits. *)
Lemma toFixed2_round2 (x : Q) :
  toFixed2 x
  = ((if Qlt_bool x 0 then "-" else "")
     ++ digits (Z.abs (round2 x) / 100) ++ "." ++ pad2 (Z.abs (round2 x) mod 100))%string.
Proof.
  assert (H : (0 <= hundredths x)%Z).
  { unfold hundredths.
    assert (0 <= Qabs x * 100 + (1 # 2))%Q by (pose proof (Qabs_nonneg x); lra).
    apply Qfloor_resp_le in H. exact H. }
  unfold toFixed2, round2. destruct (Qlt_bool x 0).
  - rewrite Z.abs_opp, Z.abs_eq by exact H. reflexivity.
  - rewrite Z.abs_eq by exact H. reflexivity.
Qed.

(** Shares of a total, each rounded to hundredths of a percent, add up to
    100.00 give or take half a hundredth per share. *)
Lemma round2_bounds (x : Q) :
  (inject_Z (round2 x) <= x * 100 + (1 # 2)
   /\ x * 100 - (1 # 2) <= inject_Z (round2 x))%Q.
Proof.
  pose proof (round2_error x) as H. apply Qabs_Qle_condition in H. split; lra.
Qed.

Lemma rounded_shares_bounds (T : Q) (l : list Q) :
  (inject_Z (Zsum (map (fun a => round2 (a / T * 100)) l))
   <= Qsum l * / T * 10000 + inject_Z (Z.of_nat (length l)) * (1 # 2)
   /\ Qsum l * / T * 10000 - inject_Z (Z.of_nat (length l)) * (1 # 2)
      <= inject_Z (Zsum (map (fun a => round2 (a / T * 100)) l)))%Q.
Proof.
  induction l as [| a l [IH1 IH2]].
  - change (inject_Z (Zsum (map (fun a => round2 (a / T * 100)) []))) with 0%Q.
    change (inject_Z (Z.of_nat (length (@nil Q)))) with 0%Q.
    change (Qsum []) with 0%Q. split; lra.
  - destruct (round2_bounds (a / T * 100)) as [R1 R2].
    cbn [map Zsum fold_right length].
    change (fold_right Z.add 0%Z (map (fun a => round2 (a / T * 100)) l))
      with (Zsum (map (fun a => round2 (a / T * 100)) l)).
    rewrite inject_Z_plus, Nat2Z.inj_succ, <- Z.add_1_r, inject_Z_plus, Qsum_cons.
    change (inject_Z 1) with 1%Q.
    assert (Hq : (a / T * 100 == a * / T * 100)%Q) by (unfold Qdiv; ring).
    revert IH1 IH2 R1 R2 Hq.
    generalize (inject_Z (Zsum (map (fun a => round2 (a / T * 100)) l))).
    generalize (inject_Z (round2 (a / T * 100))).
    generalize (a / T * 100)%Q.
    generalize (inject_Z (Z.of_nat (length l))).
    generalize (Qsum l). generalize (/ T)%Q.
    intros i s k q r z IH1 IH2 R1 R2 Hq. split; lra.
Qed.

Lemma rounded_shares (T : Q) (l : list Q) :
  (0 < T)%Q -> (Qsum l == T)%Q ->
  (2 * Z.abs (Zsum (map (fun a => round2 (a / T * 100)) l) - 10000)
   <= Z.of_nat (length l))%Z.
Proof.
  intros HT Hsum.
  destruct (rounded_shares_bounds T l) as [B1 B2].
  assert (E : (Qsum l * / T * 10000 == 10000)%Q).
  { rewrite Hsum. field. lra. }
  rewrite E in B1, B2.
  set (S := Zsum (map (fun a => round2 (a / T * 100)) l)) in *.
  set (k := Z.of_nat (length l)) in *.
  assert (U : (inject_Z (2 * S) <= inject_Z (20000 + k))%Q).
  { rewrite inject_Z_mult, inject_Z_plus.
    change (inject_Z 2) with 2%Q. change (inject_Z 20000) with 20000%Q. lra. }
  assert (L : (inject_Z (20000 - k) <= inject_Z (2 * S))%Q).
  { rewrite inject_Z_mult. unfold Z.sub. rewrite inject_Z_plus, inject_Z_opp.
    change (inject_Z 2) with 2%Q. change (inject_Z 20000) with 20000%Q. lra. }
  rewrite <- Zle_Qle in U, L. lia.
Qed.

(** ** category_breakdown *)

Lemma breakdown_rows_In (st : Store) (period : Period) (filters : AnalysisFilters)
    (r : Transaction * Category) :
  In r (breakdown_rows st period filters) <->
  In (fst r) (transactions st)
  /\ get_category st (t_category_id (fst r)) = Some (snd r)
  /\ breakdown_where period filters r = true.
Proof.
  unfold breakdown_rows. rewrite filter_In, in_flat_map. split.
  - intros [[t [Ht Hr]] Hw].
    destruct (get_category st (t_category_id t)) as [c |] eqn:Hc; [| contradiction].
    destruct Hr as [<- | []]. cbn. repeat split; assumption.
  - intros (Ht & Hc & Hw). split; [| exact Hw].
    exists (fst r). split; [exact Ht |]. rewrite Hc. left.
    destruct r; reflexivity.
Qed.

(** Every group of the statement is built from the rows of one category:
    its name and type are the category's, its total, count and average are
    those of its rows, and it has at least one row. *)
Lemma breakdown_query_group (st : Store) (period : Period) (filters : AnalysisFilters)
    (g : BreakdownGroup) :
  In g (breakdown_query st period filters) ->
  exists t c rest,
    rows_of_group st period filters g = (t, c) :: rest
    /\ g_category_id g = c_id c /\ g_category g = c_name c /\ g_type g = c_type c
    /\ total_amount g
       = Qsum (map (fun r => t_amount (fst r)) (rows_of_group st period filters g))
    /\ transaction_count g
       = Z.of_nat (length (rows_of_group st period filters g))
    /\ avg_amount g
       = (total_amount g / inject_Z (transaction_count g))%Q.
Proof.
  unfold breakdown_query. rewrite order_by_In, in_flat_map.
  intros [[k rows] [Hg Hin]].
  pose proof (proj1 (group_by_In _ _ _) Hg) as [_ Hrows]. cbn in Hrows.
  unfold breakdown_group in Hin. cbn [snd] in Hin.
  destruct rows as [| [t c] rest] eqn:E; [contradiction |].
  destruct Hin as [<- | []].
  assert (Hk : c_id c = k).
  { assert (Hin : In (t, c) (snd (k, rows))) by (cbn; rewrite E; left; reflexivity).
    rewrite <- E in Hg.
    destruct (group_by_rows _ _ _ _ Hg Hin) as [_ Hkey]. exact Hkey. }
  unfold rows_of_group. cbn [g_category_id g_category g_type total_amount
                              transaction_count avg_amount].
  rewrite Hk, <- Hrows. exists t, c, rest.
  rewrite length_map. repeat split; try reflexivity. symmetry. exact Hk.
Qed.

Lemma breakdown_group_positive (st : Store) (period : Period) (filters : AnalysisFilters)
    (g : BreakdownGroup) :
  amounts_positive st = true ->
  In g (breakdown_query st period filters) -> (0 < total_amount g)%Q.
Proof.
  intros Hpos Hg.
  destruct (breakdown_query_group st period filters g Hg)
    as (t & c & rest & Hrows & _ & _ & _ & Htot & _).
  rewrite Htot. apply Qsum_pos.
  - rewrite Hrows. discriminate.
  - intros x Hx. apply in_map_iff in Hx. destruct Hx as [r [<- Hr]].
    unfold rows_of_group in Hr. apply filter_In in Hr. destruct Hr as [Hr _].
    apply breakdown_rows_In in Hr. destruct Hr as [Ht _].
    unfold amounts_positive in Hpos. rewrite forallb_forall in Hpos.
    apply Qlt_bool_iff. apply Hpos. exact Ht.
Qed.

(** The grand total is the sum of the amounts of all the rows that take
    part: grouping loses and adds nothing. *)
Lemma Qsum_perm (l1 l2 : list Q) : Permutation l1 l2 -> (Qsum l1 == Qsum l2)%Q.
Proof.
  induction 1 as [| x l1 l2 _ IH | x y l | l1 l2 l3 _ IH1 _ IH2].
  - reflexivity.
  - rewrite !Qsum_cons, IH. reflexivity.
  - rewrite !Qsum_cons. ring.
  - rewrite IH1. exact IH2.
Qed.

Lemma sum_one_key (a : Q) (k : string) (ks : list string) :
  List.NoDup ks -> In k ks ->
  (Qsum (map (fun k' => if String.eqb k k' then a else 0%Q) ks) == a)%Q.
Proof.
  induction ks as [| h ks IH]; intros Hnd Hin; [contradiction |].
  inversion Hnd as [| h' ks' Hh Hnd']. subst. cbn [map]. rewrite Qsum_cons.
  assert (Hzero : forall l, ~ In k l ->
                  (Qsum (map (fun k' => if String.eqb k k' then a else 0%Q) l) == 0)%Q).
  { induction l as [| x l IHl]; intros Hx; [reflexivity |].
    cbn [map]. rewrite Qsum_cons.
    destruct (String.eqb_spec k x) as [-> | _].
    - exfalso. apply Hx. left. reflexivity.
    - rewrite IHl; [ring |]. intros H. apply Hx. right. exact H. }
  destruct Hin as [-> | Hin].
  - rewrite String.eqb_refl, (Hzero ks Hh). ring.
  - destruct (String.eqb_spec k h) as [-> | _]; [contradiction |].
    rewrite (IH Hnd' Hin). ring.
Qed.

Lemma sum_by_key {A : Type} (key : A -> string) (f : A -> Q) (ks : list string)
    (rows : list A) :
  List.NoDup ks -> (forall r, In r rows -> In (key r) ks) ->
  (Qsum (map (fun k => Qsum (map f (List.filter (fun r => String.eqb (key r) k) rows))) ks)
   == Qsum (map f rows))%Q.
Proof.
  intros Hnd. induction rows as [| r rows IH]; intros Hin.
  - cbn [List.filter map]. clear Hnd Hin.
    induction ks as [| k ks IHk]; [reflexivity |].
    cbn [map]. rewrite Qsum_cons, IHk. reflexivity.
  - cbn [map]. rewrite Qsum_cons.
    rewrite <- IH by (intros x Hx; apply Hin; right; exact Hx).
    rewrite <- (sum_one_key (f r) (key r) ks Hnd (Hin r (or_introl eq_refl))) at 1.
    clear IH Hnd Hin. induction ks as [| k ks IHk].
    + cbn. unfold Qsum. cbn. ring.
    + cbn [map List.filter]. rewrite !Qsum_cons, IHk.
      destruct (String.eqb (key r) k); cbn [map]; rewrite ?Qsum_cons; ring.
Qed.

Lemma group_keys_NoDup {A : Type} (key : A -> string) (rows : list A) :
  List.NoDup (group_keys key rows).
Proof.
  pose proof (group_keys_sorted key rows) as H.
  induction H as [| k ks _ IH Hall]; constructor; [| exact IH].
  intros Hin. rewrite List.Forall_forall in Hall.
  exact (key_lt_irrefl k (Hall k Hin)).
Qed.

Lemma breakdown_groups_totals (rows : list (Transaction * Category)) (ks : list string) :
  (forall k, In k ks -> In k (map (fun r => c_id (snd r)) rows)) ->
  map total_amount
    (flat_map breakdown_group
       (map (fun k => (k, List.filter (fun r => String.eqb (c_id (snd r)) k) rows)) ks))
  = map (fun k => Qsum (map (fun r => t_amount (fst r))
                          (List.filter (fun r => String.eqb (c_id (snd r)) k) rows))) ks.
Proof.
  induction ks as [| k ks IH]; intros Hks; [reflexivity |].
  cbn [map flat_map]. rewrite map_app, IH by (intros x Hx; apply Hks; right; exact Hx).
  unfold breakdown_group at 1. cbn [snd].
  destruct (List.filter (fun r => String.eqb (c_id (snd r)) k) rows) as [| [t c] rest] eqn:E.
  - exfalso. specialize (Hks k (or_introl eq_refl)).
    apply in_map_iff in Hks. destruct Hks as [r [Hr Hin]].
    assert (H : In r (List.filter (fun r => String.eqb (c_id (snd r)) k) rows)).
    { apply filter_In. split; [exact Hin | apply String.eqb_eq; exact Hr]. }
    rewrite E in H. exact H.
  - reflexivity.
Qed.

Lemma category_breakdown_total_rows (st : Store) (period : Period)
    (filters : AnalysisFilters) :
  (snd (category_breakdown st period filters)
   == Qsum (map (fun r => t_amount (fst r)) (breakdown_rows st period filters)))%Q.
Proof.
  unfold category_breakdown. cbn [snd]. rewrite fold_left_sum_map.
  change (fold_left Qplus (map total_amount (breakdown_query st period filters)) 0%Q)
    with (Qsum (map total_amount (breakdown_query st period filters))).
  unfold breakdown_query.
  rewrite (Qsum_perm _ _ (Permutation_map total_amount (order_by_perm _ _))).
  unfold group_by. rewrite breakdown_groups_totals.
  - apply sum_by_key; [apply group_keys_NoDup |].
    intros r Hr. apply group_keys_In.
    apply (in_map (fun r => c_id (snd r))). exact Hr.
  - intros k Hk. apply group_keys_In in Hk. exact Hk.
Qed.

(** The guard of the percentages on any store: with a positive total every
    percentage is the rounded share and the rounded shares add up to 100.00
    give or take half a hundredth per group; with a total that is not
    positive every percentage is the number 0. *)
Lemma category_breakdown_guard (st : Store) (period : Period)
    (filters : AnalysisFilters) :
  let items := fst (category_breakdown st period filters) in
  let total := snd (category_breakdown st period filters) in
  total = Qsum (map (fun i => total_amount (item i)) items)
  /\ ((0 < total)%Q ->
      Forall (fun i =>
                percentage i
                = VStr (toFixed2 (total_amount (item i) / total * 100))) items
      /\ (2 * Z.abs (Zsum (map (fun i => round2 (total_amount (item i) / total * 100))
                              items) - 10000)
          <= Z.of_nat (length items))%Z)
  /\ ((total <= 0)%Q -> Forall (fun i => percentage i = VNum 0) items).
Proof.
  cbv zeta. unfold category_breakdown. cbn [fst snd].
  set (groups := breakdown_query st period filters).
  set (total := fold_left (fun sum item => (sum + total_amount item)%Q) groups 0%Q).
  assert (Htotal : total = Qsum (map total_amount groups))
    by (unfold total, Qsum; apply fold_left_sum_map).
  split; [| split].
  - rewrite map_map. cbn [item]. exact Htotal.
  - intros Hlt. split.
    + apply List.Forall_forall. intros i Hi. apply in_map_iff in Hi.
      destruct Hi as [g [<- _]]. cbn [percentage item].
      rewrite (proj2 (Qlt_bool_iff 0 total) Hlt). reflexivity.
    + rewrite map_map, length_map. cbn [item].
      rewrite <- (length_map total_amount groups).
      rewrite <- (map_map total_amount (fun a => round2 (a / total * 100))).
      apply rounded_shares; [exact Hlt |]. rewrite Htotal. reflexivity.
  - intros Hz. apply List.Forall_forall. intros i Hi. apply in_map_iff in Hi.
    destruct Hi as [g [<- _]]. cbn [percentage].
    rewrite (proj2 (Qlt_bool_false_iff 0 total) Hz). reflexivity.
Qed.

(** With positive amounts the total is not negative, and it is zero only
    when there is no group. *)
Lemma category_breakdown_total_nonneg (st : Store) (period : Period)
    (filters : AnalysisFilters) :
  amounts_positive st = true ->
  (0 <= snd (category_breakdown st period filters))%Q.
Proof.
  intros Hpos. destruct (category_breakdown_guard st period filters) as [Htotal _].
  cbv zeta in Htotal. rewrite Htotal. apply Qsum_nonneg.
  intros a Ha. apply in_map_iff in Ha. destruct Ha as [i [<- Hi]].
  unfold category_breakdown in Hi. cbn [fst] in Hi.
  apply in_map_iff in Hi. destruct Hi as [g [<- Hg]]. cbn [item].
  apply Qlt_le_weak. exact (breakdown_group_positive st period filters g Hpos Hg).
Qed.



Lemma StronglySorted_weaken {A : Type} (R R' : A -> A -> Prop) (l : list A) :
  (forall a b, R a b -> R' a b) -> StronglySorted R l -> StronglySorted R' l.
Proof.
  intros H. induction 1 as [| x l Hs IH Hall]; constructor.
  - exact IH.
  - eapply List.Forall_impl; [| exact Hall]. intros y. apply H.
Qed.

Lemma breakdown_query_sorted (st : Store) (period : Period) (filters : AnalysisFilters) :
  StronglySorted (fun x y => (total_amount y <= total_amount x)%Q)
    (breakdown_query st period filters).
Proof.
  unfold breakdown_query.
  eapply StronglySorted_weaken; [| apply order_by_sorted].
  - intros a b H. cbn in H. apply Qle_bool_iff in H. exact H.
  - intros a b H. apply Qle_bool_iff.
    destruct (Qlt_le_dec (total_amount a) (total_amount b)) as [L | L].
    + apply Qlt_le_weak. exact L.
    + apply Qle_bool_iff in L. congruence.
  - intros a b c H1 H2. apply Qle_bool_iff in H1, H2. apply Qle_bool_iff.
    eapply Qle_trans; eassumption.
Qed.

Lemma type_filter_kind (filters : AnalysisFilters) (kind : string) (t : Transaction) :
  transaction_type filters = Some kind -> kind <> "" ->
  type_filter filters t = true -> t_type t = kind.
Proof.
  unfold type_filter. intros -> Hne. cbn.
  destruct (String.eqb kind "") eqn:E.
  - apply String.eqb_eq in E. contradiction.
  - cbn. intros H. apply String.eqb_eq in H. exact H.
Qed.

(** C7 (amended).  For every store, window and filters, category_breakdown
    groups the transactions of the window that have a category, of either
    kind: a row takes part exactly when its date is in the window, its kind
    is the transaction_type filter if one is given, and its category is in
    the category set if a non-empty one is given.  So with transaction_type
    [expense] every contributing row is an expense, and a kind [k] filter in
    general leaves only rows of kind [k].  Each group carries the name and
    type of its category and the total, count and average of its rows, and
    the groups are ordered by total descending. *)
Theorem category_breakdown_groups (st : Store) (period : Period)
    (filters : AnalysisFilters) :
  let rows := breakdown_rows st period filters in
  let groups := breakdown_query st period filters in
  map item (fst (category_breakdown st period filters)) = groups
  /\ (forall r : Transaction * Category,
        In r rows <->
        In (fst r) (transactions st)
        /\ get_category st (t_category_id (fst r)) = Some (snd r)
        /\ breakdown_where period filters r = true)
  /\ (forall kind : string,
        transaction_type filters = Some kind -> kind <> "" ->
        Forall (fun r => t_type (fst r) = kind) rows)
  /\ Forall (fun g =>
       exists t c rest,
         rows_of_group st period filters g = (t, c) :: rest
         /\ g_category_id g = c_id c /\ g_category g = c_name c /\ g_type g = c_type c
         /\ total_amount g
            = Qsum (map (fun r => t_amount (fst r)) (rows_of_group st period filters g))
         /\ transaction_count g
            = Z.of_nat (length (rows_of_group st period filters g))
         /\ avg_amount g = (total_amount g / inject_Z (transaction_count g))%Q) groups
  /\ StronglySorted (fun x y => (total_amount y <= total_amount x)%Q) groups.
Proof.
  cbv zeta. split; [| split; [| split; [| split]]].
  - unfold category_breakdown. cbn [fst]. rewrite map_map. cbn [item]. apply map_id.
  - intros r. apply breakdown_rows_In.
  - intros kind Hk Hne. apply List.Forall_forall. intros r Hr.
    apply breakdown_rows_In in Hr. destruct Hr as (_ & _ & Hw).
    unfold breakdown_where in Hw. apply andb_true_iff in Hw. destruct Hw as [Hw _].
    apply andb_true_iff in Hw. destruct Hw as [_ Hw].
    exact (type_filter_kind filters kind (fst r) Hk Hne Hw).
  - apply List.Forall_forall. intros g Hg. apply breakdown_query_group. exact Hg.
  - apply breakdown_query_sorted.
Qed.

(** C7 as specified fails on the seeded store: without a transaction_type
    filter the breakdown of the current month has the income groups
    salary and freelance, built from income transactions. *)
Lemma category_breakdown_counts_income :
  map (fun i => (g_category_id (item i), g_type (item i), Qred (total_amount (item i))))
    (fst (category_breakdown (seedData (mkDate 2024 3 9)) march_2024 no_filters))
  = [ ("salary", "income", 3500%Q); ("freelance", "income", 750%Q);
      ("electricity", "expense", (8999 # 100)%Q);
      ("restaurants", "expense", (3367 # 50)%Q);
      ("groceries", "expense", (4599 # 100)%Q); ("gas", "expense", (51 # 2)%Q);
      ("public_transport", "expense", (1999 # 100)%Q);
      ("movies", "expense", (25 # 2)%Q) ]
  /\ ~ (forall st period filters,
         Forall (fun r => t_type (fst r) = "expense")
           (breakdown_rows st period filters)).
Proof.
  split; [vm_compute; reflexivity |].
  intros H. specialize (H (seedData (mkDate 2024 3 9)) march_2024 no_filters).
  rewrite List.Forall_forall in H.
  specialize (H (mkTransaction "txn_003" "income" 3500 "salary" "checking"
                   "Monthly salary deposit" (mkDate 2024 3 1) "monthly,salary",
                 mkCategory "salary" "Salary" "income" None None true)).
  assert (E : "income" = "expense"); [| discriminate E].
  apply H. vm_compute. tauto.
Qed.

(** ** time_trend *)

Example iso_week_examples :
  iso_week_of_year (mkDate 2020 12 31) = (2020, 53)%Z
  /\ iso_week_of_year (mkDate 2021 1 1) = (2020, 53)%Z
  /\ iso_week_of_year (mkDate 2023 1 1) = (2022, 52)%Z
  /\ iso_week_of_year (mkDate 2024 1 1) = (2024, 1)%Z
  /\ iso_week_of_year (mkDate 2024 12 30) = (2025, 1)%Z
  /\ iso_week_label (mkDate 2021 1 1) = "2020-53"
  /\ first_monday 2021 = day_number (mkDate 2021 1 4).
Proof. vm_compute. repeat split; reflexivity. Qed.

Lemma dateFormat_cases (grouping : string) :
  (grouping = "day" -> dateFormat grouping = "%Y-%m-%d")
  /\ (grouping = "week" -> dateFormat grouping = "%Y-%W")
  /\ (grouping = "month" -> dateFormat grouping = "%Y-%m")
  /\ (grouping <> "day" -> grouping <> "week" -> dateFormat grouping = "%Y-%m").
Proof.
  repeat split; try (intros ->; reflexivity).
  intros Hd Hw. unfold dateFormat.
  apply String.eqb_neq in Hd, Hw. rewrite Hd, Hw.
  destruct (String.eqb grouping "month"); reflexivity.
Qed.

(** [%W]: week 00 before the first Monday of the year, then one more for
    every Monday reached. *)
Lemma week_W_first_monday (d : Date) :
  (0 <= day_of_year d)%Z ->
  week_W d = (if (day_number d <? first_monday (year d))%Z then 0
              else (day_number d - first_monday (year d)) / 7 + 1)%Z.
Proof.
  unfold week_W, weekday, day_of_year, first_monday.
  generalize (day_number d) (days_from_civil (year d) 1 1). intros D J H.
  destruct (Z.ltb_spec D (J + (4 - J) mod 7)); Z.div_mod_to_equations; lia.
Qed.

Lemma strftime_week (d : Date) :
  strftime "%Y-%W" d = (pad4 (year d) ++ "-" ++ pad2 (week_W d))%string.
Proof. reflexivity. Qed.

(** A real day of the calendar is not before the first of January of its
    year. *)
Lemma day_of_year_nonneg (d : Date) :
  (1 <= month d <= 12)%Z -> (1 <= day d)%Z -> (0 <= day_of_year d)%Z.
Proof.
  unfold day_of_year, day_number, days_from_civil.
  generalize (year d) (month d) (day d). intros y m dd Hm Hd.
  change (1 <=? 2)%Z with true. change (1 >? 2)%Z with false. cbv iota.
  destruct (Z.leb_spec m 2); destruct (Z.gtb_spec m 2); try lia.
  - Z.div_mod_to_equations. lia.
  - Z.div_mod_to_equations. lia.
Qed.

Lemma trend_rows_In (st : Store) (period : Period) (filters : AnalysisFilters)
    (t : Transaction) :
  In t (trend_rows st period filters) <->
  In t (transactions st) /\ in_window period t = true /\ type_filter filters t = true.
Proof.
  unfold trend_rows. rewrite filter_In, andb_true_iff. tauto.
Qed.

Lemma time_trend_rows (st : Store) (period : Period) (filters : AnalysisFilters)
    (row : TrendRow) :
  In row (fst (time_trend st period filters)) ->
  rows_of_bucket st period filters row <> []
  /\ expenses row
     = Qsum (map (fun t => if String.eqb (t_type t) "expense" then t_amount t else 0%Q)
               (rows_of_bucket st period filters row))
  /\ income row
     = Qsum (map (fun t => if String.eqb (t_type t) "income" then t_amount t else 0%Q)
               (rows_of_bucket st period filters row))
  /\ tr_transaction_count row
     = Z.of_nat (length (rows_of_bucket st period filters row)).
Proof.
  unfold time_trend. cbn [fst]. intros H. apply in_map_iff in H.
  destruct H as [[k rows] [<- Hg]].
  pose proof (group_by_nonempty _ _ _ Hg) as Hne.
  pose proof (proj1 (group_by_In _ _ _) Hg) as [_ Hrows].
  cbn [fst snd] in Hne, Hrows.
  unfold rows_of_bucket, trend_row. cbn [fst snd tr_period expenses income
                                          tr_transaction_count].
  rewrite <- Hrows. repeat split; try reflexivity. exact Hne.
Qed.

(** C6 (amended).  For every store, window and filters: time_trend takes
    the grouping of the period (month when none is given) and formats each
    date with [%Y-%m-%d] for day, [%Y-%W] for week and [%Y-%m] for month and
    for any other grouping; the buckets are the distinct labels of the
    transactions of the window (of the filtered kind, if any), in ascending
    order of label; each bucket holds the sum of its expenses, the sum of
    its income and the number of its transactions.  The week label is the
    calendar year and the week-of-year of strftime's [%W]: 00 before the
    first Monday of the year, then 01, 02, ... from each Monday on. *)
Theorem time_trend_buckets (st : Store) (period : Period) (filters : AnalysisFilters) :
  let grouping := default "month" (grouping period) in
  let rows := trend_rows st period filters in
  let trends := fst (time_trend st period filters) in
  analyzeSpending st "time_trend" period filters = Ok (TimeTrend trends grouping)
  /\ ((grouping = "day" -> dateFormat grouping = "%Y-%m-%d")
      /\ (grouping = "week" -> dateFormat grouping = "%Y-%W")
      /\ (grouping = "month" -> dateFormat grouping = "%Y-%m")
      /\ (grouping <> "day" -> grouping <> "week" -> dateFormat grouping = "%Y-%m"))
  /\ (forall t : Transaction,
        In t rows <->
        In t (transactions st) /\ in_window period t = true
        /\ type_filter filters t = true)
  /\ (forall label : string,
        In label (map tr_period trends) <->
        In label (map (fun t => strftime (dateFormat grouping) (t_date t)) rows))
  /\ StronglySorted key_lt (map tr_period trends)
  /\ Forall (fun row =>
       rows_of_bucket st period filters row <> []
       /\ expenses row
          = Qsum (map (fun t => if String.eqb (t_type t) "expense"
                                then t_amount t else 0%Q)
                    (rows_of_bucket st period filters row))
       /\ income row
          = Qsum (map (fun t => if String.eqb (t_type t) "income"
                                then t_amount t else 0%Q)
                    (rows_of_bucket st period filters row))
       /\ tr_transaction_count row
          = Z.of_nat (length (rows_of_bucket st period filters row))) trends
  /\ (forall d : Date,
        strftime "%Y-%W" d = (pad4 (year d) ++ "-" ++ pad2 (week_W d))%string
        /\ ((1 <= month d <= 12)%Z -> (1 <= day d)%Z ->
            week_W d = (if (day_number d <? first_monday (year d))%Z then 0
                        else (day_number d - first_monday (year d)) / 7 + 1)%Z)).
Proof.
  cbv zeta. split; [reflexivity |]. split; [apply dateFormat_cases |].
  split; [intros t; apply trend_rows_In |].
  assert (Hlabels : map tr_period (fst (time_trend st period filters))
                    = group_keys
                        (fun t => strftime (dateFormat (default "month" (grouping period)))
                                    (t_date t))
                        (trend_rows st period filters)).
  { unfold time_trend. cbn [fst]. rewrite map_map. cbn [tr_period trend_row].
    apply group_by_keys. }
  split; [| split; [| split]].
  - intros label. rewrite Hlabels. apply group_keys_In.
  - rewrite Hlabels. apply group_keys_sorted.
  - apply List.Forall_forall. intros row Hrow. apply time_trend_rows. exact Hrow.
  - intros d. split; [reflexivity |]. intros Hm Hd.
    apply week_W_first_monday. apply day_of_year_nonneg; assumption.
Qed.

(** C6 as specified fails at new year 2021: Thursday 2020-12-31 and Friday
    2021-01-01 lie in the same ISO week, 2020-W53, and time_trend by week
    puts them in the two buckets 2020-52 and 2021-00. *)
Lemma time_trend_week_is_not_iso :
  map tr_period (fst (time_trend new_year_store new_year_weeks no_filters))
  = ["2020-52"; "2021-00"]
  /\ iso_week_of_year (mkDate 2020 12 31) = iso_week_of_year (mkDate 2021 1 1)
  /\ iso_week_label (mkDate 2020 12 31) = "2020-53"
  /\ ~ (forall d : Date, strftime (dateFormat "week") d = iso_week_label d)
  /\ ~ (forall d1 d2 : Date,
          iso_week_of_year d1 = iso_week_of_year d2 ->
          strftime (dateFormat "week") d1 = strftime (dateFormat "week") d2).
Proof.
  split; [vm_compute; reflexivity |]. split; [vm_compute; reflexivity |].
  split; [vm_compute; reflexivity |]. split.
  - intros H. specialize (H (mkDate 2020 12 31)). vm_compute in H. discriminate H.
  - intros H. specialize (H (mkDate 2020 12 31) (mkDate 2021 1 1) eq_refl).
    vm_compute in H. discriminate H.
Qed.


(** ** buildCategoryTree *)

(** *** The node objects *)

Lemma tree_nodes_snoc (categories : list Category) (cat : Category) :
  tree_nodes (categories ++ [cat])
  = <[c_id cat := mkTreeNode cat []]> (tree_nodes categories).
Proof. unfold tree_nodes. rewrite fold_left_app. reflexivity. Qed.

Lemma tree_nodes_dom (categories : list Category) (k : string) :
  is_Some (tree_nodes categories !! k) <-> In k (map c_id categories).
Proof.
  induction categories as [| cat categories IH] using rev_ind.
  - cbn. rewrite lookup_empty. split; [intros [x Hx]; discriminate | tauto].
  - rewrite tree_nodes_snoc, map_app, in_app_iff. cbn.
    destruct (decide (c_id cat = k)) as [-> | Hne].
    + rewrite lookup_insert_eq. split; [tauto | eauto].
    + rewrite lookup_insert_ne by exact Hne. rewrite IH. tauto.
Qed.

Lemma tree_nodes_lookup (categories : list Category) (cat : Category) :
  NoDup (map c_id categories) -> In cat categories ->
  tree_nodes categories !! c_id cat = Some (mkTreeNode cat []).
Proof.
  induction categories as [| x categories IH] using rev_ind; intros Hnd Hin.
  - contradiction.
  - rewrite tree_nodes_snoc. rewrite map_app in Hnd. cbn in Hnd.
    apply NoDup_app in Hnd. destruct Hnd as (Hnd & Hdisj & _).
    apply in_app_iff in Hin. destruct Hin as [Hin | [<- | []]].
    + rewrite lookup_insert_ne.
      * apply IH; assumption.
      * intros E. apply (Hdisj (c_id cat)).
        -- apply list_elem_of_In. apply in_map. exact Hin.
        -- rewrite <- E. apply list_elem_of_In. left. reflexivity.
    + apply lookup_insert_eq.
Qed.

Lemma tree_nodes_node (categories : list Category) (k : string) (n : TreeNode) :
  tree_nodes categories !! k = Some n ->
  In (node n) categories /\ c_id (node n) = k /\ children n = [].
Proof.
  induction categories as [| x categories IH] using rev_ind.
  - cbn. rewrite lookup_empty. discriminate.
  - rewrite tree_nodes_snoc. destruct (decide (c_id x = k)) as [<- | Hne].
    + rewrite lookup_insert_eq. intros H. inversion H. cbn.
      split; [apply in_app_iff; right; left; reflexivity | split; reflexivity].
    + rewrite lookup_insert_ne by exact Hne. intros H.
      destruct (IH H) as (Hin & Hid & Hch).
      split; [apply in_app_iff; left; exact Hin | split; assumption].
Qed.

Lemma in_list_In (x : string) (l : list string) : in_list x l = true <-> In x l.
Proof.
  unfold in_list. rewrite existsb_exists. split.
  - intros [y [Hy E]]. apply String.eqb_eq in E. subst y. exact Hy.
  - intros H. exists x. split; [exact H | apply String.eqb_refl].
Qed.

(** *** Linking *)

Lemma parent_node_tree_nodes (categories : list Category) (cat : Category) :
  parent_node (tree_nodes categories) cat = attached_to categories cat.
Proof.
  unfold parent_node, attached_to.
  destruct (c_parent_id cat) as [p |]; [| reflexivity].
  destruct (String.eqb p ""); [reflexivity |].
  destruct (tree_nodes categories !! p) as [n |] eqn:E.
  - assert (H : In p (map c_id categories)) by (apply tree_nodes_dom; eauto).
    apply in_list_In in H. rewrite H. reflexivity.
  - destruct (in_list p (map c_id categories)) eqn:F; [| reflexivity].
    apply in_list_In, tree_nodes_dom in F. destruct F as [n F]. congruence.
Qed.

Lemma parent_node_alter (f : TreeNode -> TreeNode) (p : string)
    (tree : gmap string TreeNode) (cat : Category) :
  parent_node (alter f p tree) cat = parent_node tree cat.
Proof.
  unfold parent_node. destruct (c_parent_id cat) as [q |]; [| reflexivity].
  destruct (String.eqb q ""); [reflexivity |].
  rewrite lookup_alter. destruct (decide (p = q)) as [-> | Hne].
  - destruct (tree !! q); reflexivity.
  - reflexivity.
Qed.

Lemma link_fold (categories : list Category) (l : list Category) :
  forall (tree : gmap string TreeNode) (roots : list string),
    (forall cat, parent_node tree cat = attached_to categories cat) ->
    snd (fold_left link l (tree, roots))
    = roots ++ map c_id (List.filter (is_root categories) l)
    /\ forall k : string,
        fst (fold_left link l (tree, roots)) !! k
        = with_children (map c_id (List.filter (child_of categories k) l)) <$> tree !! k.
Proof.
  induction l as [| cat l IH]; intros tree roots Hpar.
  - cbn. rewrite app_nil_r. split; [reflexivity |]. intros k.
    destruct (tree !! k) as [[c ch] |]; cbn; [| reflexivity].
    unfold with_children. cbn. rewrite app_nil_r. reflexivity.
  - cbn [fold_left]. unfold link at 2 4. cbn [fst snd]. rewrite Hpar.
    unfold is_root, child_of. cbn [List.filter].
    destruct (attached_to categories cat) as [p |] eqn:E.
    + destruct (IH (alter (push_child (c_id cat)) p tree) roots) as [IH1 IH2].
      { intros c. rewrite parent_node_alter. apply Hpar. }
      split; [exact IH1 |]. intros k. rewrite IH2, lookup_alter.
      destruct (decide (p = k)) as [-> | Hne].
      * rewrite String.eqb_refl. destruct (tree !! k) as [[c ch] |]; cbn; [| reflexivity].
        unfold with_children, push_child. cbn. rewrite <- app_assoc. reflexivity.
      * apply String.eqb_neq in Hne. rewrite Hne. reflexivity.
    + destruct (IH tree (roots ++ [c_id cat])) as [IH1 IH2]; [exact Hpar |].
      split; [| exact IH2]. rewrite IH1, <- app_assoc. reflexivity.
Qed.

(** The returned roots are the categories without a usable parent, in input
    order; the node under a key holds the category stored there and, as
    children, the categories attached to that key, in input order. *)
Lemma buildCategoryTree_spec (categories : list Category) :
  snd (buildCategoryTree categories)
  = map c_id (List.filter (is_root categories) categories)
  /\ forall k : string,
      fst (buildCategoryTree categories) !! k
      = with_children (map c_id (List.filter (child_of categories k) categories))
          <$> tree_nodes categories !! k.
Proof.
  unfold buildCategoryTree.
  destruct (link_fold categories categories (tree_nodes categories) [])
    as [H1 H2]; [apply parent_node_tree_nodes |].
  split; [exact H1 | exact H2].
Qed.

(** *** Walking the tree *)

Lemma sum_below_ext (a b : nat -> nat) (n : nat) :
  (forall j, a j = b j) -> sum_below a n = sum_below b n.
Proof. intros H. induction n as [| n IH]; cbn; [reflexivity |]. rewrite H, IH. reflexivity. Qed.

Lemma sum_below_zero (n : nat) : sum_below (fun _ => 0%nat) n = 0%nat.
Proof. induction n as [| n IH]; cbn; [reflexivity | exact IH]. Qed.

Lemma sum_below_add (a b : nat -> nat) (n : nat) :
  sum_below (fun j => (a j + b j)%nat) n = (sum_below a n + sum_below b n)%nat.
Proof. induction n as [| n IH]; cbn; [reflexivity |]. rewrite IH. lia. Qed.

Lemma sum_below_shift (a : nat -> nat) (n : nat) :
  sum_below a (S n) = (a 0%nat + sum_below (fun j => a (S j)) n)%nat.
Proof.
  induction n as [| n IH]; [cbn; lia |].
  change (sum_below a (S (S n))) with (a (S n) + sum_below a (S n))%nat.
  rewrite IH. cbn. lia.
Qed.

Lemma count_occ_map_filter {A : Type} (f : A -> string) (P : A -> bool)
    (l : list A) (c : A) :
  NoDup (map f l) -> In c l ->
  count_occ string_dec (map f (List.filter P l)) (f c) = ind (P c).
Proof.
  induction l as [| x l IH]; intros Hnd Hin; [contradiction |].
  cbn in Hnd. apply NoDup_cons in Hnd. destruct Hnd as [Hx Hnd].
  assert (Hout : forall y, ~ In (f y) (map f l) ->
                 count_occ string_dec (map f (List.filter P l)) (f y) = 0%nat).
  { intros y Hy. apply count_occ_not_In. intros H. apply Hy.
    apply in_map_iff in H. destruct H as [z [Hz Hzin]].
    apply filter_In in Hzin. destruct Hzin as [Hzin _].
    rewrite <- Hz. apply in_map. exact Hzin. }
  rewrite list_elem_of_In in Hx.
  destruct Hin as [-> | Hin].
  - cbn [List.filter]. destruct (P c); cbn [map ind].
    + rewrite count_occ_cons_eq by reflexivity. rewrite (Hout c Hx). reflexivity.
    + apply (Hout c Hx).
  - assert (Hne : f x <> f c).
    { intros E. apply Hx. rewrite E. apply in_map. exact Hin. }
    cbn [List.filter]. destruct (P x); cbn [map].
    + rewrite count_occ_cons_neq by exact Hne. apply IH; assumption.
    + apply IH; assumption.
Qed.

Section TreeFacts.
Context (categories : list Category).
Hypothesis distinct : NoDup (map c_id categories).

Lemma find_category (cat : Category) :
  In cat categories ->
  List.find (fun c => String.eqb (c_id c) (c_id cat)) categories = Some cat.
Proof using distinct.
  intros Hin.
  destruct (find_present (fun c => String.eqb (c_id c) (c_id cat)) categories cat Hin)
    as [c [Hfind [Hc Hid]]]; [apply String.eqb_refl |].
  rewrite Hfind. f_equal. apply String.eqb_eq in Hid.
  clear Hfind. revert distinct Hin Hc Hid. clear.
  induction categories as [| x l IH]; intros Hnd Hin Hc Hid; [contradiction |].
  cbn in Hnd. apply NoDup_cons in Hnd. destruct Hnd as [Hx Hnd].
  rewrite list_elem_of_In in Hx.
  destruct Hin as [-> | Hin]; destruct Hc as [-> | Hc]; try reflexivity.
  - exfalso. apply Hx. rewrite <- Hid. apply in_map. exact Hc.
  - exfalso. apply Hx. rewrite Hid. apply in_map. exact Hin.
  - apply IH; assumption.
Qed.

Lemma parent_in_category (cat : Category) :
  In cat categories -> parent_in categories (c_id cat) = attached_to categories cat.
Proof using distinct.
  intros Hin. unfold parent_in. rewrite (find_category cat Hin). reflexivity.
Qed.

Lemma attached_to_In (cat : Category) (p : string) :
  attached_to categories cat = Some p -> In p (map c_id categories).
Proof using Type.
  unfold attached_to. destruct (c_parent_id cat) as [q |]; [| discriminate].
  destruct (String.eqb q ""); [discriminate |].
  destruct (in_list q (map c_id categories)) eqn:E; [| discriminate].
  intros H. inversion H. subst q. apply in_list_In. exact E.
Qed.

Lemma parent_in_In (k p : string) :
  parent_in categories k = Some p -> In p (map c_id categories).
Proof using Type.
  unfold parent_in. destruct (List.find _ categories) as [c |]; [| discriminate].
  apply attached_to_In.
Qed.

Lemma ancestor_snoc (j : nat) (k : string) :
  ancestor categories (S j) k
  = match ancestor categories j k with
    | Some z => parent_in categories z
    | None => None
    end.
Proof using Type.
  revert k. induction j as [| j IH]; intros k.
  - cbn. destruct (parent_in categories k); reflexivity.
  - change (ancestor categories (S (S j)) k)
      with (match parent_in categories k with
            | Some p => ancestor categories (S j) p
            | None => None
            end).
    destruct (parent_in categories k) as [p |] eqn:E.
    + rewrite IH. cbn. rewrite E. reflexivity.
    + cbn. rewrite E. reflexivity.
Qed.

Lemma ancestor_dead (j i : nat) (k : string) :
  ancestor categories j k = None -> ancestor categories (j + i) k = None.
Proof using Type.
  intros H. induction i as [| i IH].
  - rewrite Nat.add_0_r. exact H.
  - rewrite Nat.add_succ_r, ancestor_snoc, IH. reflexivity.
Qed.

Lemma ancestor_In (j : nat) (k z : string) :
  In k (map c_id categories) -> ancestor categories j k = Some z ->
  In z (map c_id categories).
Proof using Type.
  intros Hk. revert z. induction j as [| j IH]; intros z.
  - cbn. intros H. inversion H. subst z. exact Hk.
  - rewrite ancestor_snoc. destruct (ancestor categories j k) as [y |]; [| discriminate].
    apply parent_in_In.
Qed.

Lemma kids_In (k x : string) : In x (kids categories k) -> In x (map c_id categories).
Proof using Type.
  unfold kids. intros H. apply in_map_iff in H. destruct H as [c [<- Hc]].
  apply filter_In in Hc. destruct Hc as [Hc _]. apply in_map. exact Hc.
Qed.

Lemma roots_In (x : string) : In x (roots categories) -> In x (map c_id categories).
Proof using Type.
  unfold roots. intros H. apply in_map_iff in H. destruct H as [c [<- Hc]].
  apply filter_In in Hc. destruct Hc as [Hc _]. apply in_map. exact Hc.
Qed.

Lemma count_kids (k z : string) :
  In z (map c_id categories) ->
  count_occ string_dec (kids categories k) z = ind (is_key (parent_in categories z) k).
Proof using distinct.
  intros Hz. apply in_map_iff in Hz. destruct Hz as [c [<- Hc]].
  unfold kids. rewrite (count_occ_map_filter c_id _ categories c distinct Hc).
  rewrite (parent_in_category c Hc). reflexivity.
Qed.

Lemma count_roots (z : string) :
  In z (map c_id categories) ->
  count_occ string_dec (roots categories) z
  = ind (match parent_in categories z with None => true | Some _ => false end).
Proof using distinct.
  intros Hz. apply in_map_iff in Hz. destruct Hz as [c [<- Hc]].
  unfold roots. rewrite (count_occ_map_filter c_id _ categories c distinct Hc).
  rewrite (parent_in_category c Hc). reflexivity.
Qed.

Lemma tree_lookup (cat : Category) :
  In cat categories ->
  fst (buildCategoryTree categories) !! c_id cat
  = Some (mkTreeNode cat (kids categories (c_id cat))).
Proof using distinct.
  intros Hin. destruct (buildCategoryTree_spec categories) as [_ H].
  rewrite H, (tree_nodes_lookup categories cat distinct Hin). reflexivity.
Qed.

Lemma tree_lookup_id (k : string) :
  In k (map c_id categories) ->
  exists cat, In cat categories /\ c_id cat = k
              /\ fst (buildCategoryTree categories) !! k = Some (mkTreeNode cat (kids categories k)).
Proof using distinct.
  intros H. apply in_map_iff in H. destruct H as [cat [<- Hin]].
  exists cat. split; [exact Hin |]. split; [reflexivity |]. apply tree_lookup. exact Hin.
Qed.
End TreeFacts.

Section TreeCount.
Context (categories : list Category).
Hypothesis distinct : NoDup (map c_id categories).

Lemma walk_succ (fuel : nat) (k : string) :
  In k (map c_id categories) ->
  walk (S fuel) (fst (buildCategoryTree categories)) k
  = k :: flat_map (walk fuel (fst (buildCategoryTree categories))) (kids categories k).
Proof using distinct.
  intros Hk. destruct (tree_lookup_id categories distinct k Hk) as (cat & _ & _ & H).
  cbn [walk]. rewrite H. reflexivity.
Qed.

Lemma hit_cons (y : string) (l : list string) (o : option string) :
  hit (y :: l) o = (ind (is_key o y) + hit l o)%nat.
Proof using Type.
  destruct o as [z |]; [| reflexivity]. cbn [hit is_key].
  destruct (String.eqb_spec z y) as [-> | Hne].
  - rewrite count_occ_cons_eq by reflexivity. reflexivity.
  - rewrite count_occ_cons_neq by (intros E; apply Hne; symmetry; exact E). reflexivity.
Qed.

Lemma hit_kids (y : string) (j : nat) (x : string) :
  In x (map c_id categories) ->
  hit (kids categories y) (ancestor categories j x)
  = ind (is_key (ancestor categories (S j) x) y).
Proof using distinct.
  intros Hx. rewrite ancestor_snoc.
  destruct (ancestor categories j x) as [z |] eqn:E; [| reflexivity].
  cbn [hit]. apply count_kids; [exact distinct |].
  exact (ancestor_In categories j x z Hx E).
Qed.

(** How often [x] is met when walking from the keys of [l] with [fuel]
    levels: once for each of its first [fuel] ancestors (itself included)
    that is in [l]. *)
Lemma count_walk (x : string) :
  In x (map c_id categories) ->
  forall (fuel : nat) (l : list string),
    (forall y, In y l -> In y (map c_id categories)) ->
    count_occ string_dec
      (flat_map (walk fuel (fst (buildCategoryTree categories))) l) x
    = sum_below (fun j => hit l (ancestor categories j x)) fuel.
Proof using distinct.
  intros Hx. induction fuel as [| fuel IHf]; intros l Hl.
  - cbn [sum_below]. induction l as [| y l IHl]; [reflexivity |].
    cbn. apply IHl. intros z Hz. apply Hl. right. exact Hz.
  - induction l as [| y l IHl].
    + cbn [flat_map count_occ]. symmetry.
      rewrite (sum_below_ext _ (fun _ => 0%nat)); [apply sum_below_zero |].
      intros j. destruct (ancestor categories j x); reflexivity.
    + cbn [flat_map]. rewrite walk_succ by (apply Hl; left; reflexivity).
      rewrite count_occ_app.
      rewrite IHl by (intros z Hz; apply Hl; right; exact Hz).
      rewrite (sum_below_ext (fun j => hit (y :: l) (ancestor categories j x))
                 (fun j => (ind (is_key (ancestor categories j x) y)
                            + hit l (ancestor categories j x))%nat))
        by (intros j; apply hit_cons).
      rewrite sum_below_add.
      rewrite (sum_below_shift (fun j => ind (is_key (ancestor categories j x) y)) fuel).
      rewrite (sum_below_ext (fun j => ind (is_key (ancestor categories (S j) x) y))
                 (fun j => hit (kids categories y) (ancestor categories j x)))
        by (intros j; symmetry; apply hit_kids; exact Hx).
      rewrite <- (IHf (kids categories y)) by (intros z Hz; eapply kids_In; exact Hz).
      cbn [ancestor is_key].
      destruct (String.eqb_spec x y) as [-> | Hne].
      * rewrite count_occ_cons_eq by reflexivity. cbn [ind]. lia.
      * rewrite count_occ_cons_neq by (intros E; apply Hne; symmetry; exact E).
        cbn [ind]. lia.
Qed.

Lemma hit_roots (j : nat) (x : string) :
  In x (map c_id categories) ->
  hit (roots categories) (ancestor categories j x)
  = ind (alive categories j x && negb (alive categories (S j) x)).
Proof using distinct.
  intros Hx. unfold alive. rewrite ancestor_snoc.
  destruct (ancestor categories j x) as [z |] eqn:E; [| reflexivity].
  cbn [hit]. rewrite (count_roots categories distinct z)
    by exact (ancestor_In categories j x z Hx E).
  destruct (parent_in categories z); reflexivity.
Qed.

Lemma telescope (x : string) (n : nat) :
  (sum_below (fun j => ind (alive categories j x && negb (alive categories (S j) x))) n + ind (alive categories n x) = 1)%nat.
Proof using Type.
  induction n as [| n IH]; [reflexivity |].
  cbn [sum_below].
  assert (M : alive categories n x = false -> alive categories (S n) x = false).
  { unfold alive. rewrite ancestor_snoc.
    destruct (ancestor categories n x); [discriminate | reflexivity]. }
  destruct (alive categories n x); destruct (alive categories (S n) x); cbn [ind andb negb] in *;
    try lia.
Qed.

(** A category whose chain of parents ends within [fuel] steps is met
    exactly once when walking from the roots; one whose chain is still
    going, on a cycle, is never met. *)
Lemma count_walk_roots (x : string) (fuel : nat) :
  In x (map c_id categories) ->
  count_occ string_dec
    (flat_map (walk fuel (fst (buildCategoryTree categories))) (roots categories)) x
  = ind (negb (alive categories fuel x)).
Proof using distinct.
  intros Hx. rewrite (count_walk x Hx fuel (roots categories) (roots_In categories)).
  rewrite (sum_below_ext _ (fun j => ind (alive categories j x && negb (alive categories (S j) x))))
    by (intros j; apply hit_roots; exact Hx).
  pose proof (telescope x fuel) as T.
  destruct (alive categories fuel x); cbn [ind negb] in *; lia.
Qed.

Lemma walk_In (fuel : nat) (k x : string) :
  In k (map c_id categories) ->
  In x (walk fuel (fst (buildCategoryTree categories)) k) ->
  In x (map c_id categories).
Proof using distinct.
  revert k. induction fuel as [| fuel IH]; intros k Hk; [intros [] |].
  rewrite walk_succ by exact Hk. intros [<- | H]; [exact Hk |].
  apply in_flat_map in H. destruct H as [c [Hc H]].
  apply (IH c); [eapply kids_In; exact Hc | exact H].
Qed.
End TreeCount.

(** *** The nested view *)

Lemma all_some_cons {A : Type} (o : option A) (l : list (option A)) (ys : list A) :
  all_some (o :: l) = Some ys ->
  exists y ys', o = Some y /\ all_some l = Some ys' /\ ys = y :: ys'.
Proof.
  cbn. destruct o as [y |]; [| discriminate].
  destruct (all_some l) as [ys' |]; [| discriminate].
  intros H. inversion H. exists y, ys'. repeat split; reflexivity.
Qed.

Lemma all_some_total {A B : Type} (g : A -> option B) (l : list A) :
  (forall x, In x l -> is_Some (g x)) -> is_Some (all_some (map g l)).
Proof.
  induction l as [| x l IH]; intros H; [cbn; eauto |].
  destruct (H x (or_introl eq_refl)) as [y Hy].
  destruct IH as [ys Hys]; [intros z Hz; apply H; right; exact Hz |].
  cbn. rewrite Hy, Hys. eauto.
Qed.

Lemma NoDup_map_inj {A : Type} (f : A -> string) (l : list A) (x y : A) :
  NoDup (map f l) -> In x l -> In y l -> f x = f y -> x = y.
Proof.
  induction l as [| z l IH]; intros Hnd Hx Hy E; [contradiction |].
  cbn in Hnd. apply NoDup_cons in Hnd. destruct Hnd as [Hz Hnd].
  rewrite list_elem_of_In in Hz.
  destruct Hx as [-> | Hx]; destruct Hy as [-> | Hy]; try reflexivity.
  - exfalso. apply Hz. rewrite E. apply in_map. exact Hy.
  - exfalso. apply Hz. rewrite <- E. apply in_map. exact Hx.
  - apply IH; assumption.
Qed.

Lemma Permutation_by_key {A : Type} (f : A -> string) (l1 l2 : list A) :
  NoDup (map f l2) -> (forall x, In x l1 -> In x l2) ->
  Permutation (map f l1) (map f l2) -> Permutation l1 l2.
Proof.
  intros Hnd Hsub Hperm.
  assert (Hnd1 : NoDup (map f l1)) by (rewrite Hperm; exact Hnd).
  apply NoDup_Permutation.
  - apply (NoDup_fmap_1 f). exact Hnd1.
  - apply (NoDup_fmap_1 f). exact Hnd.
  - intros x. rewrite !list_elem_of_In. split; [apply Hsub |].
    intros Hx.
    assert (Hfx : In (f x) (map f l1)).
    { apply (Permutation_in (l := map f l2)); [apply Permutation_sym; exact Hperm |].
      apply in_map. exact Hx. }
    apply in_map_iff in Hfx. destruct Hfx as [y [E Hy]].
    rewrite <- (NoDup_map_inj f l2 y x Hnd (Hsub y Hy) Hx E). exact Hy.
Qed.

Section TreeView.
Context (categories : list Category).
Hypothesis distinct : NoDup (map c_id categories).

Lemma subtree_walk (fuel : nat) :
  forall (k : string) (t : CategoryTree),
    In k (map c_id categories) ->
    subtree fuel (fst (buildCategoryTree categories)) k = Some t ->
    map c_id (tree_categories t) = walk fuel (fst (buildCategoryTree categories)) k
    /\ (forall c, In c (tree_categories t) -> In c categories)
    /\ In (root_category t) categories /\ c_id (root_category t) = k.
Proof using distinct.
  induction fuel as [| fuel IH]; intros k t Hk; [discriminate |].
  rewrite walk_succ by assumption.
  destruct (tree_lookup_id categories distinct k Hk) as (cat & Hcat & Hid & Hlook).
  cbn [subtree]. rewrite Hlook. cbn [children node].
  destruct (all_some (map (subtree fuel (fst (buildCategoryTree categories)))
                        (kids categories k))) as [ts |] eqn:E; [| discriminate].
  intros H. inversion H. subst t. clear H. cbn [tree_categories root_category map].
  assert (Hts : map c_id (flat_map tree_categories ts)
                = flat_map (walk fuel (fst (buildCategoryTree categories)))
                    (kids categories k)
                /\ forall c, In c (flat_map tree_categories ts) -> In c categories).
  { assert (Hkids : forall y, In y (kids categories k) -> In y (map c_id categories))
      by (intros y; apply kids_In).
    revert ts E Hkids. generalize (kids categories k). intros l.
    induction l as [| y l IHl]; intros ts E Hl.
    - cbn in E. inversion E. cbn. split; [reflexivity | intros c []].
    - cbn [map] in E. apply all_some_cons in E.
      destruct E as (t0 & ts' & Ht0 & Hts' & ->).
      destruct (IH y t0 (Hl y (or_introl eq_refl)) Ht0) as (W & Hin & _).
      destruct (IHl ts' Hts') as [W' Hin']; [intros z Hz; apply Hl; right; exact Hz |].
      cbn [flat_map]. rewrite map_app, W, W'. split; [reflexivity |].
      intros c Hc. apply in_app_iff in Hc. destruct Hc as [Hc | Hc]; auto. }
  destruct Hts as [W Hin]. rewrite W, Hid. split; [reflexivity |].
  split; [| split; [exact Hcat | reflexivity]].
  intros c [<- | Hc]; [exact Hcat | apply Hin; exact Hc].
Qed.

Lemma subtree_list (fuel : nat) (l : list string) (ts : list CategoryTree) :
  (forall y, In y l -> In y (map c_id categories)) ->
  all_some (map (subtree fuel (fst (buildCategoryTree categories))) l) = Some ts ->
  map c_id (flat_map tree_categories ts)
  = flat_map (walk fuel (fst (buildCategoryTree categories))) l
  /\ (forall c, In c (flat_map tree_categories ts) -> In c categories)
  /\ map c_id (map root_category ts) = l
  /\ (forall t, In t ts -> In (root_category t) categories).
Proof using distinct.
  revert ts. induction l as [| y l IHl]; intros ts Hl E.
  - cbn in E. inversion E. cbn.
    split; [reflexivity |]. split; [intros c [] |]. split; [reflexivity | intros t []].
  - cbn [map] in E. apply all_some_cons in E.
    destruct E as (t0 & ts' & Ht0 & Hts' & ->).
    destruct (subtree_walk fuel y t0 (Hl y (or_introl eq_refl)) Ht0)
      as (W & Hin & Hroot & Hrid).
    destruct (IHl ts') as (W' & Hin' & Hroots & Hrin);
      [intros z Hz; apply Hl; right; exact Hz | exact Hts' |].
    cbn [flat_map map]. rewrite map_app, W, W', Hrid, Hroots.
    split; [reflexivity |]. split; [| split; [reflexivity |]].
    + intros c Hc. apply in_app_iff in Hc. destruct Hc as [Hc | Hc]; auto.
    + intros t [<- | Ht]; auto.
Qed.

Hypothesis no_cycle : acyclic categories = true.

Lemma chains_end (k : string) :
  In k (map c_id categories) -> alive categories (length categories) k = false.
Proof using no_cycle.
  intros Hk. apply in_map_iff in Hk. destruct Hk as [c [<- Hc]].
  unfold acyclic in no_cycle. rewrite forallb_forall in no_cycle.
  specialize (no_cycle c Hc). unfold alive.
  destruct (ancestor categories (length categories) (c_id c)); [discriminate | reflexivity].
Qed.

(** The walk below a category at depth [d] ends within the levels that the
    longest chain leaves. *)
Lemma subtree_total (fuel : nat) :
  forall (k : string) (d : nat),
    In k (map c_id categories) ->
    alive categories d k = true ->
    (length categories <= fuel + d)%nat ->
    is_Some (subtree fuel (fst (buildCategoryTree categories)) k).
Proof using distinct no_cycle.
  induction fuel as [| fuel IH]; intros k d Hk Hd Hlen.
  - exfalso. pose proof (chains_end k Hk) as Hend. unfold alive in Hend, Hd.
    destruct (ancestor categories (length categories) k) eqn:E; [discriminate |].
    pose proof (ancestor_dead categories (length categories)
                  (d - length categories) k E) as Hdead.
    replace (length categories + (d - length categories))%nat with d in Hdead by lia.
    rewrite Hdead in Hd. discriminate Hd.
  - destruct (tree_lookup_id categories distinct k Hk) as (cat & Hcat & Hid & Hlook).
    cbn [subtree]. rewrite Hlook. cbn [children node].
    destruct (all_some_total (subtree fuel (fst (buildCategoryTree categories)))
                (kids categories k)) as [ts Hts]; [| rewrite Hts; eauto].
    intros c Hc. apply (IH c (S d)); [eapply kids_In; exact Hc | | lia].
    assert (Hpar : parent_in categories c = Some k).
    { pose proof (count_kids categories distinct k c (kids_In categories k c Hc)) as Hcount.
      apply (count_occ_In string_dec) in Hc.
      destruct (parent_in categories c) as [p |]; cbn [is_key ind] in Hcount; [| lia].
      revert Hcount. destruct (String.eqb p k) eqn:E; cbn [ind]; intros Hcount; [| lia].
      apply String.eqb_eq in E. rewrite E. reflexivity. }
    unfold alive in *. cbn [ancestor]. rewrite Hpar. exact Hd.
Qed.
End TreeView.

Lemma is_root_iff (categories : list Category) (cat : Category) :
  is_root categories cat = true <->
  (c_parent_id cat = None \/ c_parent_id cat = Some ""
   \/ exists p, c_parent_id cat = Some p /\ ~ In p (map c_id categories)).
Proof.
  unfold is_root, attached_to. destruct (c_parent_id cat) as [p |].
  - destruct (String.eqb_spec p "") as [-> | Hne].
    + split; [intros _; right; left; reflexivity | reflexivity].
    + destruct (in_list p (map c_id categories)) eqn:E.
      * apply in_list_In in E. split; [discriminate |].
        intros [H | [H | [q [H Hq]]]]; try discriminate; [congruence |].
        inversion H. subst q. contradiction.
      * split; [| reflexivity]. intros _. right. right. exists p.
        split; [reflexivity |]. intros H. apply in_list_In in H. congruence.
  - split; [intros _; left; reflexivity | reflexivity].
Qed.

Lemma map_key_eq {A : Type} (f : A -> string) (l : list A) (l1 l2 : list A) :
  NoDup (map f l) ->
  (forall x, In x l1 -> In x l) -> (forall x, In x l2 -> In x l) ->
  map f l1 = map f l2 -> l1 = l2.
Proof.
  intros Hnd. revert l2. induction l1 as [| x l1 IH]; intros [| y l2] H1 H2 E;
    try discriminate; [reflexivity |].
  cbn in E. inversion E as [[Exy Erest]].
  rewrite (NoDup_map_inj f l x y Hnd (H1 x (or_introl eq_refl))
             (H2 y (or_introl eq_refl)) Exy).
  f_equal. apply IH; [| | exact Erest].
  - intros z Hz. apply H1. right. exact Hz.
  - intros z Hz. apply H2. right. exact Hz.
Qed.




(** ** The invariants of the store *)

(** What a request that passes validateTransaction is known to hold. *)
Lemma validateTransaction_passed (txn : TransactionInput) :
  (0 <? length (validateTransaction txn))%nat = false ->
  in_list (or_default (type txn) "") ["income"; "expense"] = true
  /\ (exists a, amount txn = Some a /\ (0 < a)%Q)
  /\ truthy_str (category txn) = true.
Proof.
  unfold validateTransaction.
  destruct (negb (truthy_str (type txn))
            || negb (in_list (or_default (type txn) "") ["income"; "expense"])) eqn:T;
    destruct (match amount txn with
              | Some a => negb (truthy (VNum a)) || Qle_bool a 0
              | None => true
              end) eqn:A;
    destruct (negb (truthy_str (category txn))) eqn:C; cbn; try discriminate.
  intros _. apply orb_false_iff in T. destruct T as [_ T].
  apply negb_false_iff in T. apply negb_false_iff in C.
  split; [exact T |]. split; [| exact C].
  destruct (amount txn) as [a |]; [| discriminate].
  exists a. split; [reflexivity |].
  apply orb_false_iff in A. destruct A as [_ A].
  apply Qlt_bool_iff. unfold Qlt_bool. rewrite A. reflexivity.
Qed.

Section BatchInvariants.
Context (today : Date) (entropy : nat -> string) (validateOnly : bool).

Lemma batch_loop_invariant (P : Store -> Prop) :
  (forall st i txn st' e,
      P st -> batch_item today entropy validateOnly st i txn = Ok (st', e) -> P st') ->
  forall (txns : list TransactionInput) (i : nat) (st : Store)
         (results : list BatchEntry) (errors : list BatchError),
    P st ->
    P (fst (fst (batch_loop today entropy validateOnly i txns st results errors))).
Proof.
  intros Hstep. induction txns as [| txn rest IH]; intros i st results errors HP.
  - exact HP.
  - cbn [batch_loop].
    destruct (batch_item today entropy validateOnly st i txn) as [[st1 entry] | message] eqn:E.
    + apply IH. exact (Hstep st i txn st1 entry HP E).
    + apply IH. exact HP.
Qed.

Lemma batch_item_store (st st' : Store) (i : nat) (txn : TransactionInput) (e : BatchEntry) :
  batch_item today entropy validateOnly st i txn = Ok (st', e) ->
  st' = st
  \/ exists row a,
       amount txn = Some a /\ (0 < a)%Q /\ t_amount row = a
       /\ is_Some (get_category st (t_category_id row))
       /\ is_Some (get_ledger st (t_ledger_id row))
       /\ ~ In (t_id row) (map t_id (transactions st))
       /\ st' = {| categories := categories st;
                   ledgers := ledgers st;
                   budgets := budgets st;
                   transactions := transactions st ++ [row] |}.
Proof.
  unfold batch_item.
  destruct (0 <? length (validateTransaction txn))%nat eqn:V; [discriminate |].
  destruct (validateTransaction_passed txn V) as (_ & (a & Ha & Hpos) & _).
  destruct (get_category st _) as [c |] eqn:Hc; [| discriminate].
  destruct (get_ledger st _) as [l |] eqn:Hl; [| discriminate].
  destruct validateOnly.
  - intros H. inversion H. left. reflexivity.
  - destruct (formatDate today (date txn)) as [d |]; cbn; [| discriminate].
    unfold insert_transaction. cbn [t_id t_type].
    destruct (existsb _ (transactions st)) eqn:X; cbn; [discriminate |].
    destruct (negb _); cbn; [discriminate |].
    intros H. inversion H. right.
    exists (mkTransaction (generateId (entropy i) "txn")
              (or_default (type txn) "") (default 0%Q (amount txn))
              (or_default (category txn) "") (or_default (ledger_id txn) "checking")
              (or_default (description txn) "") d
              (match tags txn with
               | Some ts => String.concat "," ts
               | None => ""
               end)), a.
    split; [exact Ha |]. split; [exact Hpos |].
    split; [cbn; rewrite Ha; reflexivity |].
    split; [cbn; rewrite Hc; eauto |]. split; [cbn; rewrite Hl; eauto |].
    split; [| reflexivity]. cbn [t_id].
    intros Hin. apply in_map_iff in Hin. destruct Hin as [t [Hid Ht]].
    assert (F : existsb (fun t => String.eqb (t_id t) (generateId (entropy i) "txn"))
                  (transactions st) = true).
    { apply existsb_exists. exists t. split; [exact Ht |]. apply String.eqb_eq. exact Hid. }
    congruence.
Qed.

(** Batch creation keeps the amounts positive ... *)
Lemma batch_keeps_amounts_positive (st : Store) (txns : list TransactionInput) :
  amounts_positive st = true ->
  amounts_positive (fst (batchCreateTransactions today entropy validateOnly st txns)) = true.
Proof.
  intros H.
  destruct (batch_results_of_loop today entropy validateOnly st txns) as [Hloop _].
  cbv zeta in Hloop.
  pose proof (batch_loop_invariant (fun s => amounts_positive s = true)) as Inv.
  specialize (Inv) with (txns := txns) (i := 0%nat) (st := st) (results := [])
                        (errors := []).
  rewrite Hloop in Inv. cbn [fst] in Inv. apply Inv; [| exact H].
  intros s i txn s' e Hs Hitem.
  destruct (batch_item_store s s' i txn e Hitem)
    as [-> | (row & a & _ & Hpos & Hrow & _ & _ & _ & ->)]; [exact Hs |].
  unfold amounts_positive in *. cbn [transactions].
  rewrite forallb_app, Hs. cbn. rewrite Hrow.
  rewrite (proj2 (Qlt_bool_iff 0 a) Hpos). reflexivity.
Qed.

(** ... and the references intact. *)
Lemma batch_keeps_references (st : Store) (txns : list TransactionInput) :
  references_ok st = true ->
  references_ok (fst (batchCreateTransactions today entropy validateOnly st txns)) = true.
Proof.
  intros H.
  destruct (batch_results_of_loop today entropy validateOnly st txns) as [Hloop _].
  cbv zeta in Hloop.
  pose proof (batch_loop_invariant (fun s => references_ok s = true)) as Inv.
  specialize (Inv) with (txns := txns) (i := 0%nat) (st := st) (results := [])
                        (errors := []).
  rewrite Hloop in Inv. cbn [fst] in Inv. apply Inv; [| exact H].
  intros s i txn s' e Hs Hitem.
  destruct (batch_item_store s s' i txn e Hitem)
    as [-> | (row & a & _ & _ & _ & [c Hc] & [l Hl] & _ & ->)]; [exact Hs |].
  unfold references_ok, get_category, get_ledger in *.
  cbn [transactions categories ledgers budgets].
  apply andb_true_iff in Hs. destruct Hs as [Ht Hb].
  rewrite forallb_app, Ht, Hb. cbn. rewrite Hc, Hl. reflexivity.
Qed.

(** ... and the ids of the transactions distinct. *)
Lemma batch_keeps_ids_distinct (st : Store) (txns : list TransactionInput) :
  List.NoDup (map t_id (transactions st)) ->
  List.NoDup (map t_id (transactions
                          (fst (batchCreateTransactions today entropy validateOnly st txns)))).
Proof.
  intros H.
  destruct (batch_results_of_loop today entropy validateOnly st txns) as [Hloop _].
  cbv zeta in Hloop.
  pose proof (batch_loop_invariant
                (fun s => List.NoDup (map t_id (transactions s)))) as Inv.
  specialize (Inv) with (txns := txns) (i := 0%nat) (st := st) (results := [])
                        (errors := []).
  rewrite Hloop in Inv. cbn [fst] in Inv. apply Inv; [| exact H].
  intros s i txn s' e Hs Hitem.
  destruct (batch_item_store s s' i txn e Hitem)
    as [-> | (row & a & _ & _ & _ & _ & _ & Hfresh & ->)]; [exact Hs |].
  cbn [transactions]. rewrite map_app. cbn [map].
  apply List.NoDup_rev in Hs. rewrite <- (rev_involutive (map t_id (transactions s) ++ _)).
  apply List.NoDup_rev. rewrite rev_app_distr. cbn.
  constructor; [| exact Hs]. rewrite <- in_rev. exact Hfresh.
Qed.
End BatchInvariants.

(** The seeded store satisfies them. *)
Lemma seedData_invariants (today : Date) :
  amounts_positive (seedData today) = true
  /\ references_ok (seedData today) = true
  /\ List.NoDup (map t_id (transactions (seedData today))).
Proof.
  split; [reflexivity |]. split; [reflexivity |].
  cbn. repeat constructor; cbn; intuition discriminate.
Qed.

(** * Further properties *)

(** ** queryTransactions: the page *)

Lemma str_le_total (a b : string) : str_le a b = false -> str_le b a = true.
Proof.
  intros H. destruct (String.leb_total a b) as [E | E]; [| exact E].
  unfold str_le in H. congruence.
Qed.

Lemma str_le_trans (a b c : string) :
  str_le a b = true -> str_le b c = true -> str_le a c = true.
Proof.
  unfold str_le, String.leb. intros H1 H2.
  destruct (String.compare a b) eqn:E1; [| | discriminate].
  - apply String.compare_eq_iff in E1. subst b. exact H2.
  - destruct (String.compare b c) eqn:E2; [| | discriminate].
    + apply String.compare_eq_iff in E2. subst c. rewrite E1. reflexivity.
    + rewrite (key_lt_trans a b c E1 E2). reflexivity.
Qed.

Lemma Qle_bool_total (a b : Q) : Qle_bool a b = false -> Qle_bool b a = true.
Proof.
  intros H. apply Qle_bool_iff.
  destruct (Qlt_le_dec b a) as [L | L].
  - apply Qlt_le_weak. exact L.
  - apply Qle_bool_iff in L. congruence.
Qed.

Lemma Qle_bool_trans (a b c : Q) :
  Qle_bool a b = true -> Qle_bool b c = true -> Qle_bool a c = true.
Proof.
  rewrite !Qle_bool_iff. apply Qle_trans.
Qed.

Lemma query_le_total (s : Sort) (a b : TransactionRow) :
  query_le s a b = false -> query_le s b a = true.
Proof.
  unfold query_le.
  destruct (truthy_str (s_field s)).
  - destruct (String.eqb (or_default (s_field s) "") "category");
      [| destruct (String.eqb (or_default (s_field s) "") "date")];
      destruct (s_order s) as [[|] |];
      first [apply str_le_total | apply Qle_bool_total].
  - apply str_le_total.
Qed.

Lemma query_le_trans (s : Sort) (a b c : TransactionRow) :
  query_le s a b = true -> query_le s b c = true -> query_le s a c = true.
Proof.
  unfold query_le.
  destruct (truthy_str (s_field s)).
  - destruct (String.eqb (or_default (s_field s) "") "category");
      [| destruct (String.eqb (or_default (s_field s) "") "date")];
      destruct (s_order s) as [[|] |]; intros H1 H2;
      first [ exact (str_le_trans _ _ _ H1 H2) | exact (str_le_trans _ _ _ H2 H1)
            | exact (Qle_bool_trans _ _ _ H1 H2) | exact (Qle_bool_trans _ _ _ H2 H1) ].
  - intros H1 H2. exact (str_le_trans _ _ _ H2 H1).
Qed.

Lemma In_skipn_list {A : Type} (n : nat) (l : list A) (x : A) :
  In x (skipn n l) -> In x l.
Proof.
  revert l. induction n as [| n IH]; intros l H; [exact H |].
  destruct l as [| y l]; [destruct H |]. right. apply IH. exact H.
Qed.

Lemma In_firstn_list {A : Type} (n : nat) (l : list A) (x : A) :
  In x (firstn n l) -> In x l.
Proof.
  revert l. induction n as [| n IH]; intros l H; [destruct H |].
  destruct l as [| y l]; [destruct H |].
  destruct H as [-> | H]; [left; reflexivity | right; apply IH; exact H].
Qed.

Lemma StronglySorted_skipn {A : Type} (R : A -> A -> Prop) (n : nat) (l : list A) :
  StronglySorted R l -> StronglySorted R (skipn n l).
Proof.
  revert l. induction n as [| n IH]; intros l H; [exact H |].
  destruct l as [| x l]; [constructor |].
  cbn. apply IH. inversion H. assumption.
Qed.

Lemma StronglySorted_firstn {A : Type} (R : A -> A -> Prop) (n : nat) (l : list A) :
  StronglySorted R l -> StronglySorted R (firstn n l).
Proof.
  revert l. induction n as [| n IH]; intros l H; [constructor |].
  destruct l as [| x l]; [constructor |].
  cbn. inversion H as [| ? ? Hs Hall]. subst. constructor; [apply IH; exact Hs |].
  apply List.Forall_forall. intros y Hy. rewrite List.Forall_forall in Hall.
  apply Hall. revert Hy. apply In_firstn_list.
Qed.

Lemma In_limit_offset {A : Type} (limit offset : Z) (l : list A) (x : A) :
  In x (limit_offset limit offset l) -> In x l.
Proof.
  unfold limit_offset. intros H.
  destruct (limit <? 0)%Z.
  - revert H. apply In_skipn_list.
  - apply (In_skipn_list (Z.to_nat offset)). revert H. apply In_firstn_list.
Qed.

Lemma query_rows_page (st : Store) (options : QueryOptions) :
  qr_transactions (queryTransactions st options)
  = limit_offset (Z.min (default 50%Z (p_limit (q_pagination options))) 100)
      ((default 1%Z (p_page (q_pagination options)) - 1)
       * Z.min (default 50%Z (p_limit (q_pagination options))) 100)
      (query_rows st options).
Proof. reflexivity. Qed.

(** X1.  Every row of a page of queryTransactions is a stored transaction
    joined with its own category and ledger, it satisfies every condition of
    the request, and the page is in the requested order. *)
Theorem query_page_rows (st : Store) (options : QueryOptions) :
  let rows := qr_transactions (queryTransactions st options) in
  Forall (fun r =>
            In r (joined st)
            /\ query_where (default "all" (q_type options)) (q_filters options) r = true)
         rows
  /\ StronglySorted (fun x y => query_le (q_sort options) x y = true) rows
  /\ (forall r, In r rows ->
        exists c l, get_category st (t_category_id (r_txn r)) = Some c
                    /\ get_ledger st (t_ledger_id (r_txn r)) = Some l
                    /\ In (r_txn r) (transactions st)
                    /\ r_category_name r = c_name c /\ r_category_type r = c_type c
                    /\ r_ledger_name r = l_name l).
Proof.
  cbv zeta. rewrite query_rows_page.
  assert (Hin : forall r,
             In r (limit_offset
                     (Z.min (default 50%Z (p_limit (q_pagination options))) 100)
                     ((default 1%Z (p_page (q_pagination options)) - 1)
                      * Z.min (default 50%Z (p_limit (q_pagination options))) 100)
                     (query_rows st options)) ->
             In r (joined st)
             /\ query_where (default "all" (q_type options)) (q_filters options) r = true).
  { intros r Hr. apply In_limit_offset in Hr. unfold query_rows in Hr.
    apply order_by_In in Hr. apply filter_In in Hr. exact Hr. }
  split; [| split].
  - apply List.Forall_forall. exact Hin.
  - unfold limit_offset.
    assert (S : StronglySorted (fun x y => query_le (q_sort options) x y = true)
                  (query_rows st options)).
    { apply order_by_sorted; [apply query_le_total | apply query_le_trans]. }
    destruct (_ <? 0)%Z.
    + apply StronglySorted_skipn. exact S.
    + apply StronglySorted_firstn, StronglySorted_skipn. exact S.
  - intros r Hr. destruct (Hin r Hr) as [Hj _]. unfold joined in Hj.
    apply in_flat_map in Hj. destruct Hj as [t [Ht Hj]].
    destruct (get_category st (t_category_id t)) as [c |] eqn:Ec; [| destruct Hj].
    destruct (get_ledger st (t_ledger_id t)) as [l |] eqn:El; [| destruct Hj].
    destruct Hj as [<- | []]. cbn. exists c, l. repeat split; assumption.
Qed.


Lemma query_rows_with_page (st : Store) (options : QueryOptions) (p : Z) :
  query_rows st (with_page options p) = query_rows st options.
Proof. reflexivity. Qed.

Lemma pages_firstn (st : Store) (options : QueryOptions) (n : nat) :
  (0 <= Z.min (default 50%Z (p_limit (q_pagination options))) 100)%Z ->
  pages st options n
  = firstn (n * Z.to_nat (Z.min (default 50%Z (p_limit (q_pagination options))) 100))
      (query_rows st options).
Proof.
  intros HL. unfold pages. induction n as [| n IH]; [reflexivity |].
  rewrite seq_S, flat_map_app, IH. cbn [flat_map]. rewrite app_nil_r.
  rewrite query_rows_page, query_rows_with_page. cbn [with_page q_pagination p_page p_limit default].
  set (L := Z.min (default 50%Z (p_limit (q_pagination options))) 100) in *.
  unfold limit_offset. destruct (Z.ltb_spec L 0) as [Hneg | _]; [lia |].
  unfold id.
  replace (Z.to_nat ((Z.of_nat (1 + n) - 1) * L)) with (n * Z.to_nat L)%nat by nia.
  rewrite take_take_drop. f_equal. lia.
Qed.




(** ** batchCreateTransactions: what is reported and what is stored *)

Lemma accepted_tables (st st' : Store) (txns : list TransactionInput) (i : nat) :
  categories st' = categories st -> ledgers st' = ledgers st ->
  accepted st' i txns = accepted st i txns /\ rejected st' i txns = rejected st i txns.
Proof.
  intros Hc Hl. revert i. induction txns as [| txn rest IH]; intros i; [split; reflexivity |].
  cbn. rewrite (rejection_tables st st' txn Hc Hl).
  destruct (IH (S i)) as [-> ->]. split; reflexivity.
Qed.

Lemma batch_loop_dry_run (today : Date) (entropy : nat -> string)
    (txns : list TransactionInput) :
  forall (i : nat) (st : Store) (results : list BatchEntry) (errors : list BatchError),
    batch_loop today entropy true i txns st results errors
    = (st,
       results ++ map (fun e => mkBatchEntry (fst e) "valid" None (snd e)) (accepted st i txns),
       errors ++ rejected st i txns).
Proof.
  induction txns as [| txn rest IH]; intros i st results errors.
  - cbn. rewrite !app_nil_r. reflexivity.
  - cbn [batch_loop accepted rejected]. rewrite batch_item_dry_run.
    destruct (rejection st txn) as [msg |].
    + rewrite IH, <- app_assoc. reflexivity.
    + rewrite IH, <- app_assoc. reflexivity.
Qed.

(** X4.  A dry run returns the store it was given and judges every request
    on that store alone: the results are the requests that pass the checks,
    in input order, each with status [valid] and no id; the errors are the
    others with the message of their first failing check; and the summary
    counts them. *)
Theorem batch_dry_run (today : Date) (entropy : nat -> string)
    (st : Store) (txns : list TransactionInput) :
  batchCreateTransactions today entropy true st txns
  = (st,
     {| results := map (fun e => mkBatchEntry (fst e) "valid" None (snd e))
                     (accepted st 0 txns);
        errors := rejected st 0 txns;
        summary := {| sm_total := length txns;
                      successful := length (accepted st 0 txns);
                      failed := length (rejected st 0 txns);
                      validate_only := true |} |}).
Proof.
  unfold batchCreateTransactions. rewrite batch_loop_dry_run. cbn [app].
  rewrite length_map. reflexivity.
Qed.

Lemma batch_item_created (today : Date) (entropy : nat -> string)
    (st st' : Store) (i : nat) (txn : TransactionInput) (e : BatchEntry) :
  batch_item today entropy false st i txn = Ok (st', e) ->
  e = mkBatchEntry i "created" (Some (generateId (entropy i) "txn")) txn
  /\ st' = {| categories := categories st;
              ledgers := ledgers st;
              budgets := budgets st;
              transactions := transactions st ++ [new_row today entropy i txn] |}
  /\ rejection st txn = None
  /\ (exists d, formatDate today (date txn) = Ok d)
  /\ ~ In (generateId (entropy i) "txn") (map t_id (transactions st)).
Proof.
  unfold rejection, batch_item, new_row.
  destruct (0 <? length (validateTransaction txn))%nat; [discriminate |].
  destruct (get_category st _); [| discriminate].
  destruct (get_ledger st _); [| discriminate].
  destruct (formatDate today (date txn)) as [d |]; cbn; [| discriminate].
  unfold insert_transaction. cbn [t_id t_type].
  destruct (existsb _ (transactions st)) eqn:X; cbn; [discriminate |].
  destruct (negb _); cbn; [discriminate |].
  intros H. inversion H. subst. repeat split; try reflexivity.
  - exists d. reflexivity.
  - intros Hin. apply in_map_iff in Hin. destruct Hin as [t [Ht Hin]].
    assert (F : existsb (fun t0 => String.eqb (t_id t0) (generateId (entropy i) "txn"))
                  (transactions st) = true).
    { apply existsb_exists. exists t. split; [exact Hin |]. apply String.eqb_eq. exact Ht. }
    congruence.
Qed.

Lemma batch_loop_real (today : Date) (entropy : nat -> string)
    (txns : list TransactionInput) :
  forall (i : nat) (st : Store) (results : list BatchEntry) (errors : list BatchError),
  exists new : list BatchEntry,
    snd (fst (batch_loop today entropy false i txns st results errors)) = results ++ new
    /\ fst (fst (batch_loop today entropy false i txns st results errors))
       = {| categories := categories st;
            ledgers := ledgers st;
            budgets := budgets st;
            transactions :=
              transactions st
              ++ map (fun e => new_row today entropy (index e) (transaction e)) new |}
    /\ Forall (fun e => status e = "created"
                        /\ transaction_id e = Some (generateId (entropy (index e)) "txn"))
         new.
Proof.
  induction txns as [| txn rest IH]; intros i st results errors.
  - exists []. cbn. rewrite !app_nil_r. destruct st. repeat split. constructor.
  - cbn [batch_loop].
    destruct (batch_item today entropy false st i txn) as [[st1 entry] | message] eqn:E.
    + apply batch_item_created in E. destruct E as (-> & -> & _).
      destruct (IH (S i)
                  {| categories := categories st; ledgers := ledgers st;
                     budgets := budgets st;
                     transactions := transactions st ++ [new_row today entropy i txn] |}
                  (results ++ [mkBatchEntry i "created"
                                 (Some (generateId (entropy i) "txn")) txn])
                  errors) as (new & H1 & H2 & H3).
      exists (mkBatchEntry i "created" (Some (generateId (entropy i) "txn")) txn :: new).
      rewrite H1, H2. cbn. rewrite <- !app_assoc. cbn. repeat split.
      constructor; [split; reflexivity | exact H3].
    + apply IH.
Qed.

(** X5.  A real run leaves categories, ledgers and budgets as they are and
    only appends to transactions: one new row per entry of [results], in
    that order, built from the request of the entry and carrying the id
    reported in it; so the table grows by exactly [successful] rows. *)
Theorem batch_real_run_appends (today : Date) (entropy : nat -> string)
    (st : Store) (txns : list TransactionInput) :
  let out := batchCreateTransactions today entropy false st txns in
  categories (fst out) = categories st
  /\ ledgers (fst out) = ledgers st
  /\ budgets (fst out) = budgets st
  /\ transactions (fst out)
     = transactions st
       ++ map (fun e => new_row today entropy (index e) (transaction e)) (results (snd out))
  /\ Forall (fun e => status e = "created"
                      /\ transaction_id e = Some (generateId (entropy (index e)) "txn"))
       (results (snd out))
  /\ length (transactions (fst out))
     = (length (transactions st) + successful (summary (snd out)))%nat.
Proof.
  cbv zeta. destruct (batch_loop_real today entropy txns 0 st [] []) as (new & H1 & H2 & H3).
  unfold batchCreateTransactions.
  destruct (batch_loop today entropy false 0 txns st [] []) as [[st' rs] es].
  cbn in *. subst. cbn. repeat split; try assumption.
  rewrite length_app, length_map. reflexivity.
Qed.

Lemma batch_loop_predicted (today : Date) (entropy : nat -> string) (st0 : Store)
    (txns : list TransactionInput) :
  forall (i : nat) (st : Store) (results : list BatchEntry) (errors : list BatchError),
    categories st = categories st0 -> ledgers st = ledgers st0 ->
    (forall text, ~ In (DateInvalid text) (map date txns)) ->
    List.NoDup (map (fun j => generateId (entropy j) "txn") (seq i (length txns))) ->
    (forall j, In j (seq i (length txns)) ->
               ~ In (generateId (entropy j) "txn") (map t_id (transactions st))) ->
    snd (fst (batch_loop today entropy false i txns st results errors))
    = results ++ map (fun e => mkBatchEntry (fst e) "created"
                                 (Some (generateId (entropy (fst e)) "txn")) (snd e))
                   (accepted st0 i txns)
    /\ snd (batch_loop today entropy false i txns st results errors)
       = errors ++ rejected st0 i txns.
Proof.
  induction txns as [| txn rest IH]; intros i st results errors Hc Hl Hdate Hnd Hfresh.
  - cbn. rewrite !app_nil_r. split; reflexivity.
  - cbn [batch_loop accepted rejected].
    rewrite <- (rejection_tables st0 st txn Hc Hl).
    assert (Hdate' : forall text, ~ In (DateInvalid text) (map date rest)).
    { intros text H. apply (Hdate text). right. exact H. }
    cbn [length seq map] in Hnd. apply List.NoDup_cons_iff in Hnd. destruct Hnd as [Hi Hnd].
    destruct (rejection st txn) as [msg |] eqn:R.
    + rewrite (batch_item_rejected today entropy false st i txn msg R).
      destruct (IH (S i) st results (errors ++ [mkBatchError i msg txn]) Hc Hl Hdate' Hnd)
        as [H1 H2].
      { intros j Hj. apply Hfresh. right. exact Hj. }
      rewrite H1, H2, <- app_assoc. split; reflexivity.
    + pose proof (batch_item_real_run today entropy st i txn) as B. rewrite R in B.
      destruct (formatDate today (date txn)) as [d | msg] eqn:D.
      2:{ exfalso. destruct (date txn) as [| d' | text] eqn:Ed; try discriminate D.
          apply (Hdate text). left. exact Ed. }
      destruct (existsb _ (transactions st)) eqn:X.
      { exfalso. apply existsb_exists in X. destruct X as [t [Ht Hid]].
        apply String.eqb_eq in Hid. apply (Hfresh i); [left; reflexivity |].
        rewrite <- Hid. apply in_map. exact Ht. }
      destruct B as [st1 B]. rewrite B.
      apply batch_item_created in B. destruct B as (_ & -> & _).
      destruct (IH (S i)
                  {| categories := categories st; ledgers := ledgers st;
                     budgets := budgets st;
                     transactions := transactions st ++ [new_row today entropy i txn] |}
                  (results ++ [mkBatchEntry i "created"
                                 (Some (generateId (entropy i) "txn")) txn])
                  errors Hc Hl Hdate' Hnd) as [H1 H2].
      { intros j Hj. cbn [transactions]. rewrite map_app, in_app_iff. cbn.
        intros [H | [H | []]].
        - apply (Hfresh j); [right; exact Hj | exact H].
        - apply Hi. rewrite H. apply (in_map (fun j => generateId (entropy j) "txn")).
          exact Hj. }
      rewrite H1, H2, <- app_assoc. split; reflexivity.
Qed.

Lemma batch_loop_dry_run_eq (today : Date) (entropy : nat -> string)
    (st : Store) (txns : list TransactionInput) :
  snd (batchCreateTransactions today entropy true st txns)
  = {| results := map (fun e => mkBatchEntry (fst e) "valid" None (snd e))
                    (accepted st 0 txns);
       errors := rejected st 0 txns;
       summary := {| sm_total := length txns;
                     successful := length (accepted st 0 txns);
                     failed := length (rejected st 0 txns);
                     validate_only := true |} |}.
Proof.
  unfold batchCreateTransactions. rewrite batch_loop_dry_run. cbn [app snd].
  rewrite length_map. reflexivity.
Qed.

(** X6.  When no request carries a date that fails to parse and the ids the
    generator hands out are distinct and not yet stored, a real run accepts
    and rejects exactly what the dry run on the same store reports: the
    same errors, and for every [valid] entry a [created] entry at the same
    index. *)
Theorem batch_dry_run_predicts (today : Date) (entropy : nat -> string)
    (st : Store) (txns : list TransactionInput) :
  (forall text, ~ In (DateInvalid text) (map date txns)) ->
  List.NoDup (map (fun j => generateId (entropy j) "txn") (seq 0 (length txns))) ->
  (forall j, (j < length txns)%nat ->
             ~ In (generateId (entropy j) "txn") (map t_id (transactions st))) ->
  let dry := snd (batchCreateTransactions today entropy true st txns) in
  let real := snd (batchCreateTransactions today entropy false st txns) in
  errors real = errors dry
  /\ results real
     = map (fun e => mkBatchEntry (index e) "created"
                       (Some (generateId (entropy (index e)) "txn")) (transaction e))
         (results dry)
  /\ successful (summary real) = successful (summary dry)
  /\ failed (summary real) = failed (summary dry).
Proof.
  intros Hdate Hnd Hfresh. cbv zeta.
  destruct (batch_loop_predicted today entropy st txns 0 st [] [] eq_refl eq_refl Hdate Hnd)
    as [H1 H2].
  { intros j Hj. apply Hfresh. apply in_seq in Hj. lia. }
  rewrite (batch_loop_dry_run_eq today entropy st txns).
  unfold batchCreateTransactions.
  destruct (batch_loop today entropy false 0 txns st [] []) as [[st' rs] es].
  cbn in *. subst. rewrite map_map. cbn. rewrite !length_map. repeat split; reflexivity.
Qed.

Lemma rejection_none_valid (st : Store) (txn : TransactionInput) :
  rejection st txn = None ->
  (0 <? length (validateTransaction txn))%nat = false
  /\ is_Some (get_category st (or_default (category txn) ""))
  /\ is_Some (get_ledger st (or_default (ledger_id txn) "checking")).
Proof.
  unfold rejection.
  destruct (0 <? length (validateTransaction txn))%nat; [discriminate |].
  destruct (get_category st _); [| discriminate].
  destruct (get_ledger st _); [| discriminate].
  intros _. repeat split; eauto.
Qed.

Lemma batch_keeps_types (today : Date) (entropy : nat -> string) (validateOnly : bool)
    (st : Store) (txns : list TransactionInput) :
  types_ok st = true ->
  types_ok (fst (batchCreateTransactions today entropy validateOnly st txns)) = true.
Proof.
  intros H.
  assert (Step : forall s i txn s' e,
             types_ok s = true ->
             batch_item today entropy validateOnly s i txn = Ok (s', e) ->
             types_ok s' = true).
  { intros s i txn s' e P E. destruct validateOnly.
    - rewrite batch_item_dry_run in E.
      destruct (rejection s txn); inversion E; subst; exact P.
    - apply batch_item_created in E. destruct E as (_ & -> & R & _).
      apply rejection_none_valid in R. destruct R as (V & _).
      apply validateTransaction_passed in V. destruct V as (T & _).
      unfold types_ok in *. cbn [transactions]. rewrite forallb_app, P.
      unfold new_row. cbn [forallb t_type andb]. rewrite T. reflexivity. }
  pose proof (batch_loop_invariant today entropy validateOnly
                (fun s => types_ok s = true) Step txns 0%nat st [] [] H) as I.
  unfold batchCreateTransactions.
  destruct (batch_loop today entropy validateOnly 0 txns st [] []) as [[st' rs] es].
  exact I.
Qed.

(** X7.  batchCreateTransactions, in either mode, keeps the invariants of
    the store: amounts positive, categories and ledgers of every transaction
    present, types among income and expense, ids distinct. *)
Theorem batch_preserves_invariants (today : Date) (entropy : nat -> string)
    (validateOnly : bool) (st : Store) (txns : list TransactionInput) :
  amounts_positive st = true ->
  references_ok st = true ->
  types_ok st = true ->
  List.NoDup (map t_id (transactions st)) ->
  let st' := fst (batchCreateTransactions today entropy validateOnly st txns) in
  amounts_positive st' = true
  /\ references_ok st' = true
  /\ types_ok st' = true
  /\ List.NoDup (map t_id (transactions st')).
Proof.
  intros Ha Hr Ht Hd. cbv zeta. repeat split.
  - apply batch_keeps_amounts_positive. exact Ha.
  - apply batch_keeps_references. exact Hr.
  - apply batch_keeps_types. exact Ht.
  - apply batch_keeps_ids_distinct. exact Hd.
Qed.

(** The seeded store after a batch of two. *)
Lemma batch_preserves_invariants_seed :
  amounts_positive
    (fst (batchCreateTransactions (mkDate 2024 3 9) (fun _ => "e") false
            (seedData (mkDate 2024 3 9)) [lunch; refund])) = true.
Proof.
  destruct (seedData_invariants (mkDate 2024 3 9)) as (Ha & Hr & Hd).
  destruct (batch_preserves_invariants (mkDate 2024 3 9) (fun _ => "e") false
              (seedData (mkDate 2024 3 9)) [lunch; refund] Ha Hr eq_refl Hd) as (H & _).
  exact H.
Defined.

(** X8.  validateTransaction returns no error exactly when the type is
    income or expense, the amount is present and positive and the category
    is a non-empty text; and each of its three messages is reported exactly
    when its own condition fails. *)
Theorem validateTransaction_accepts (txn : TransactionInput) :
  (validateTransaction txn = []
   <-> (type txn = Some "income" \/ type txn = Some "expense")
       /\ (exists a, amount txn = Some a /\ (0 < a)%Q)
       /\ (exists c, category txn = Some c /\ c <> ""))
  /\ (In "Invalid transaction type" (validateTransaction txn)
      <-> ~ (type txn = Some "income" \/ type txn = Some "expense"))
  /\ (In "Invalid amount" (validateTransaction txn)
      <-> ~ (exists a, amount txn = Some a /\ (0 < a)%Q))
  /\ (In "Category is required" (validateTransaction txn)
      <-> ~ (exists c, category txn = Some c /\ c <> "")).
Proof.
  assert (T : (negb (truthy_str (type txn))
               || negb (in_list (or_default (type txn) "") ["income"; "expense"])) = false
              <-> (type txn = Some "income" \/ type txn = Some "expense")).
  { destruct (type txn) as [s |]; cbn.
    - destruct (String.eqb_spec s "") as [-> | Hs]; cbn.
      + split; [discriminate | intros [H | H]; discriminate H].
      + destruct (String.eqb_spec s "income") as [-> | Hi]; cbn.
        * split; [left; reflexivity | reflexivity].
        * destruct (String.eqb_spec s "expense") as [-> | He]; cbn.
          -- split; [right; reflexivity | reflexivity].
          -- split; [discriminate | intros [H | H]; congruence].
    - split; [discriminate | intros [H | H]; discriminate H]. }
  assert (A : match amount txn with
              | Some a => negb (truthy (VNum a)) || Qle_bool a 0
              | None => true
              end = false
              <-> exists a, amount txn = Some a /\ (0 < a)%Q).
  { destruct (amount txn) as [a |].
    - split.
      + intros H. apply orb_false_iff in H. destruct H as [_ H].
        exists a. split; [reflexivity |]. apply Qlt_bool_iff. unfold Qlt_bool. rewrite H.
        reflexivity.
      + intros [b [E H]]. inversion E. subst b. apply orb_false_iff. split.
        * cbn. rewrite negb_involutive. apply not_true_iff_false. intros Z.
          apply Qeq_bool_iff in Z. lra.
        * apply not_true_iff_false. intros Z. apply Qle_bool_iff in Z. lra.
    - split; [discriminate | intros [a [E _]]; discriminate E]. }
  assert (C : negb (truthy_str (category txn)) = false
              <-> exists c, category txn = Some c /\ c <> "").
  { destruct (category txn) as [c |]; cbn.
    - destruct (String.eqb_spec c "") as [-> | Hc]; cbn.
      + split; [discriminate | intros [c [E H]]; inversion E; congruence].
      + split; [intros _; exists c; split; [reflexivity | exact Hc] | reflexivity].
    - split; [discriminate | intros [c [E _]]; discriminate E]. }
  unfold validateTransaction.
  destruct (negb (truthy_str (type txn)) || _) eqn:Et;
    destruct (match amount txn with Some a => _ | None => true end) eqn:Ea;
    destruct (negb (truthy_str (category txn))) eqn:Ec;
    cbn; rewrite <- T, <- A, <- C;
    (split; [| split; [| split]]); split; intros H;
    repeat match goal with
           | H : _ /\ _ |- _ => destruct H
           | H : _ \/ _ |- _ => destruct H
           | H : False |- _ => destruct H
           end;
    try discriminate; try congruence; try tauto; auto.
Qed.

(** ** Groups partition the rows *)

Section Partition.

Context {A : Type} (key : A -> string).

Lemma filter_split (f : A -> bool) (rows : list A) :
  Permutation (List.filter f rows ++ List.filter (fun r => negb (f r)) rows) rows.
Proof.
  induction rows as [| r rows IH]; [constructor |].
  cbn. destruct (f r); cbn.
  - constructor. exact IH.
  - apply Permutation_sym, Permutation_cons_app, Permutation_sym. exact IH.
Qed.

Lemma filter_other_key (k k' : string) (rows : list A) :
  k' <> k ->
  List.filter (fun r => String.eqb (key r) k')
    (List.filter (fun r => negb (String.eqb (key r) k)) rows)
  = List.filter (fun r => String.eqb (key r) k') rows.
Proof.
  intros Hne. induction rows as [| r rows IH]; [reflexivity |].
  cbn. destruct (String.eqb_spec (key r) k) as [E | E]; cbn.
  - destruct (String.eqb_spec (key r) k') as [E' | _]; [congruence | exact IH].
  - destruct (String.eqb (key r) k'); [f_equal |]; exact IH.
Qed.

Lemma partition_by_keys (ks : list string) :
  List.NoDup ks ->
  forall rows : list A,
    (forall r, In r rows -> In (key r) ks) ->
    Permutation (flat_map (fun k => List.filter (fun r => String.eqb (key r) k) rows) ks)
      rows.
Proof.
  induction 1 as [| k ks Hk Hnd IH]; intros rows Hin.
  - destruct rows as [| r rows]; [constructor |]. destruct (Hin r (or_introl eq_refl)).
  - cbn [flat_map].
    etransitivity; [| apply (filter_split (fun r => String.eqb (key r) k) rows)].
    apply Permutation_app_head.
    etransitivity;
      [| apply (IH (List.filter (fun r => negb (String.eqb (key r) k)) rows))].
    + assert (E : flat_map (fun k0 => List.filter (fun r => String.eqb (key r) k0) rows) ks
                  = flat_map (fun k0 => List.filter (fun r => String.eqb (key r) k0)
                                (List.filter (fun r => negb (String.eqb (key r) k)) rows))
                      ks).
      { rewrite !flat_map_concat_map. f_equal. apply map_ext_in. intros k' Hk'.
        symmetry. apply filter_other_key. intros ->. contradiction. }
      rewrite E. reflexivity.
    + intros r Hr. apply filter_In in Hr. destruct Hr as [Hr Hne].
      destruct (Hin r Hr) as [E | E]; [| exact E].
      subst k. rewrite String.eqb_refl in Hne. discriminate Hne.
Qed.

Lemma group_by_partition (rows : list A) :
  Permutation (flat_map snd (group_by key rows)) rows.
Proof.
  unfold group_by. rewrite flat_map_concat_map, map_map. cbn [snd].
  rewrite <- flat_map_concat_map.
  apply partition_by_keys; [apply group_keys_NoDup |].
  intros r Hr. apply group_keys_In. apply in_map. exact Hr.
Qed.

End Partition.

Lemma Zsum_app (l1 l2 : list Z) : Zsum (l1 ++ l2) = (Zsum l1 + Zsum l2)%Z.
Proof.
  unfold Zsum. induction l1 as [| x l1 IH]; cbn; [reflexivity |]. rewrite IH. lia.
Qed.

Lemma Zsum_perm (l1 l2 : list Z) : Permutation l1 l2 -> Zsum l1 = Zsum l2.
Proof.
  unfold Zsum.
  induction 1 as [| x l1 l2 _ IH | x y l | l1 l2 l3 _ IH1 _ IH2]; cbn; lia.
Qed.

Lemma Zsum_lengths {A : Type} (ls : list (list A)) :
  Zsum (map (fun l => Z.of_nat (length l)) ls) = Z.of_nat (length (concat ls)).
Proof.
  induction ls as [| l ls IH]; [reflexivity |].
  cbn [map concat]. rewrite length_app, Nat2Z.inj_add, <- IH. reflexivity.
Qed.

(** One group per key of the rows. *)
Lemma breakdown_groups_of_keys (rows : list (Transaction * Category)) (ks : list string) :
  (forall k, In k ks -> In k (map (fun r => c_id (snd r)) rows)) ->
  map (fun g => (g_category_id g, transaction_count g))
    (flat_map breakdown_group
       (map (fun k => (k, List.filter (fun r => String.eqb (c_id (snd r)) k) rows)) ks))
  = map (fun k => (k, Z.of_nat (length (List.filter
                                          (fun r => String.eqb (c_id (snd r)) k) rows)))) ks.
Proof.
  induction ks as [| k ks IH]; intros Hks; [reflexivity |].
  cbn [map flat_map]. rewrite map_app, IH by (intros x Hx; apply Hks; right; exact Hx).
  unfold breakdown_group at 1. cbn [snd].
  destruct (List.filter (fun r => String.eqb (c_id (snd r)) k) rows) as [| [t c] rest] eqn:E.
  - exfalso. specialize (Hks k (or_introl eq_refl)).
    apply in_map_iff in Hks. destruct Hks as [r [Hr Hin]].
    assert (H : In r (List.filter (fun r => String.eqb (c_id (snd r)) k) rows)).
    { apply filter_In. split; [exact Hin | apply String.eqb_eq; exact Hr]. }
    rewrite E in H. exact H.
  - assert (H : In (t, c) (List.filter (fun r => String.eqb (c_id (snd r)) k) rows))
      by (rewrite E; left; reflexivity).
    apply filter_In in H. destruct H as [_ H]. apply String.eqb_eq in H. cbn in H.
    cbn. rewrite length_map, H. reflexivity.
Qed.


Lemma Qsum_map_plus {A : Type} (f g h : A -> Q) (l : list A) :
  (forall x, In x l -> (f x + g x == h x)%Q) ->
  (Qsum (map f l) + Qsum (map g l) == Qsum (map h l))%Q.
Proof.
  induction l as [| x l IH]; intros H.
  - cbn. unfold Qsum. cbn. ring.
  - cbn [map]. rewrite !Qsum_cons.
    rewrite <- (H x (or_introl eq_refl)), <- IH by (intros y Hy; apply H; right; exact Hy).
    ring.
Qed.


(** ** budget_variance: one item per active budget *)

Lemma variance_query_ids (st : Store) (period : Period) :
  map budget_id (variance_query st period)
  = group_keys (fun r : Budget * Category * option Transaction => b_id (fst (fst r)))
      (variance_rows st period).
Proof.
  unfold variance_query.
  rewrite <- (group_by_keys (fun r : Budget * Category * option Transaction =>
                               b_id (fst (fst r))) (variance_rows st period)).
  assert (H : forall g, In g (group_by (fun r : Budget * Category * option Transaction =>
                                          b_id (fst (fst r))) (variance_rows st period)) ->
              map budget_id (variance_group g) = [fst g]).
  { intros g Hg. pose proof (group_by_nonempty _ _ _ Hg) as Hne.
    unfold variance_group. destruct (snd g) as [| [[b c] t] rest] eqn:E; [contradiction |].
    assert (Hin : In (b, c, t) (snd g)) by (rewrite E; left; reflexivity).
    destruct (group_by_rows _ _ _ _ Hg Hin) as [_ Hk]. cbn in Hk. cbn. rewrite Hk.
    reflexivity. }
  induction (group_by (fun r : Budget * Category * option Transaction =>
                         b_id (fst (fst r))) (variance_rows st period)) as [| g gs IH].
  - reflexivity.
  - cbn [flat_map map]. rewrite map_app, (H g (or_introl eq_refl)).
    cbn. f_equal. apply IH. intros g' Hg'. apply H. right. exact Hg'.
Qed.

(** X11.  With distinct budget ids, budget_variance holds exactly one item
    per active budget whose category exists and no other item; the actual
    amount of an item is the sum of the expenses of the window posted to the
    category of the budget itself (0 when there is none). *)
Theorem budget_variance_rows (st : Store) (period : Period) :
  List.NoDup (map b_id (budgets st)) ->
  Permutation (map v_row (fst (budget_variance st period)))
    (flat_map (variance_row_of st period) (budgets st))
  /\ List.NoDup (map (fun v => budget_id (v_row v)) (fst (budget_variance st period))).
Proof.
  intros Hnd.
  assert (Hrows : map v_row (fst (budget_variance st period)) = variance_query st period).
  { unfold budget_variance. cbn [fst]. rewrite map_map. cbn. apply map_id. }
  assert (Hids : List.NoDup (map budget_id (variance_query st period))).
  { rewrite variance_query_ids. apply group_keys_NoDup. }
  split.
  - rewrite Hrows. apply Permutation.NoDup_Permutation.
    + apply (NoDup_map_inv budget_id). exact Hids.
    + clear Hids Hrows. induction (budgets st) as [| b bs IH]; [constructor |].
      cbn in Hnd. inversion Hnd as [| k ks Hb Hnd']. subst.
      cbn [flat_map]. unfold variance_row_of at 1.
      destruct (b_active b); [| apply IH; exact Hnd'].
      destruct (get_category st (b_category_id b)) as [c |]; [| apply IH; exact Hnd'].
      cbn. constructor; [| apply IH; exact Hnd'].
      intros Hin. apply in_flat_map in Hin. destruct Hin as [b' [Hb' Hin]].
      unfold variance_row_of in Hin.
      destruct (b_active b'); [| destruct Hin].
      destruct (get_category st (b_category_id b')) as [c' |]; [| destruct Hin].
      destruct Hin as [E | []]. inversion E as [[Eid]].
      apply Hb. rewrite <- Eid. apply in_map. exact Hb'.
    + intros row. split.
      * intros Hrow.
        destruct (variance_query_active st period row Hrow)
          as (b & c & Hb & Hact & Hc & Hid & _).
        pose proof (variance_query_actual st period b c Hnd Hb Hact Hc) as Hrow'.
        assert (E : row = mkVarianceRow (b_id b) (b_amount b) (b_period b) (c_name c) (c_id c)
                            (Qsum (map t_amount (budget_expenses st period c)))).
        { apply (NoDup_map_inj budget_id (variance_query st period)).
          - apply NoDup_ListNoDup. exact Hids.
          - exact Hrow.
          - exact Hrow'.
          - exact Hid. }
        rewrite E. apply in_flat_map. exists b. split; [exact Hb |].
        unfold variance_row_of. rewrite Hact, Hc. left. reflexivity.
      * intros Hrow. apply in_flat_map in Hrow. destruct Hrow as [b [Hb Hrow]].
        unfold variance_row_of in Hrow.
        destruct (b_active b) eqn:Hact; [| destruct Hrow].
        destruct (get_category st (b_category_id b)) as [c |] eqn:Hc; [| destruct Hrow].
        destruct Hrow as [<- | []].
        apply variance_query_actual; assumption.
  - rewrite <- (map_map v_row budget_id), Hrows. exact Hids.
Qed.

(** ** getRecordDetails: the related rows *)

Lemma StronglySorted_split {A : Type} (R : A -> A -> Prop) (n : nat) (l : list A) :
  StronglySorted R l ->
  forall x y, In x (firstn n l) -> In y (skipn n l) -> R x y.
Proof.
  revert l. induction n as [| n IH]; intros l H x y Hx Hy; [destruct Hx |].
  destruct l as [| z l]; [destruct Hx |].
  inversion H as [| ? ? Hs Hall]. subst. cbn in Hx, Hy.
  destruct Hx as [-> | Hx].
  - rewrite List.Forall_forall in Hall. apply Hall. apply (In_skipn_list n). exact Hy.
  - apply (IH l Hs); assumption.
Qed.

Lemma In_firstn_or_skipn {A : Type} (n : nat) (l : list A) (x : A) :
  In x l -> In x (firstn n l) \/ In x (skipn n l).
Proof.
  intros H. rewrite <- (firstn_skipn n l) in H. apply in_app_iff in H. exact H.
Qed.

(** The rows selected by [recent_with_category]: at most [n], each a stored
    transaction that passes [keep], joined with its category; latest first;
    and no selected row that was left out is later than one that was kept. *)
Lemma recent_with_category_spec (st : Store) (keep : Transaction -> bool) (n : nat) :
  let rows := recent_with_category st keep n in
  (length rows <= n)%nat
  /\ Forall (fun r => In (rt_txn r) (transactions st) /\ keep (rt_txn r) = true
                      /\ exists c, get_category st (t_category_id (rt_txn r)) = Some c
                                   /\ rt_category_name r = c_name c) rows
  /\ StronglySorted (fun x y => not_later y x) rows
  /\ (forall t c, In t (transactions st) -> keep t = true ->
                  get_category st (t_category_id t) = Some c ->
                  In (mkRelatedTransaction t (c_name c)) rows
                  \/ (length rows = n
                      /\ Forall (fun r => not_later (mkRelatedTransaction t (c_name c)) r)
                           rows)).
Proof.
  cbv zeta. unfold recent_with_category.
  set (le := fun x y : RelatedTransaction =>
               str_le (date_text (t_date (rt_txn y))) (date_text (t_date (rt_txn x)))).
  set (sel := flat_map (fun t => if keep t then
                                   match get_category st (t_category_id t) with
                                   | Some c => [mkRelatedTransaction t (c_name c)]
                                   | None => []
                                   end
                                 else []) (transactions st)).
  assert (Hsel : forall r, In r sel <->
                  In (rt_txn r) (transactions st) /\ keep (rt_txn r) = true
                  /\ exists c, get_category st (t_category_id (rt_txn r)) = Some c
                               /\ r = mkRelatedTransaction (rt_txn r) (c_name c)).
  { intros r. unfold sel. rewrite in_flat_map. split.
    - intros [t [Ht Hr]]. destruct (keep t) eqn:K; [| destruct Hr].
      destruct (get_category st (t_category_id t)) as [c |] eqn:C; [| destruct Hr].
      destruct Hr as [<- | []]. cbn. repeat split; try assumption.
      exists c. split; [exact C | reflexivity].
    - intros (Ht & K & c & C & E). exists (rt_txn r). split; [exact Ht |].
      rewrite K, C. left. symmetry. exact E. }
  assert (S : StronglySorted (fun x y => le x y = true) (order_by le sel)).
  { apply order_by_sorted.
    - intros a b. unfold le. apply str_le_total.
    - intros a b c H1 H2. unfold le in *. exact (str_le_trans _ _ _ H2 H1). }
  split; [| split; [| split]].
  - rewrite length_firstn. lia.
  - apply List.Forall_forall. intros r Hr. apply In_firstn_list in Hr.
    apply order_by_In, Hsel in Hr. destruct Hr as (Ht & K & c & C & E).
    repeat split; try assumption. exists c. split; [exact C |]. rewrite E. reflexivity.
  - apply StronglySorted_firstn. exact S.
  - intros t c Ht K C.
    assert (Hin : In (mkRelatedTransaction t (c_name c)) (order_by le sel)).
    { apply order_by_In, Hsel. cbn. repeat split; try assumption.
      exists c. split; [exact C | reflexivity]. }
    destruct (In_firstn_or_skipn n _ _ Hin) as [H | H]; [left; exact H | right].
    split.
    + rewrite length_firstn. apply Nat.min_l.
      destruct (Nat.le_gt_cases n (length (order_by le sel))) as [L | L]; [exact L |].
      rewrite skipn_all2 in H by lia. destruct H.
    + apply List.Forall_forall. intros r Hr.
      exact (StronglySorted_split _ n _ S r _ Hr H).
Qed.

(** X12.  With include_related, a transaction record comes with at most 5
    related transactions, all of its category, never the record itself,
    latest first; a ledger record comes with at most 10 transactions of that
    ledger, latest first, and a transaction of the ledger that is left out
    is no later than any that is listed. *)
Theorem record_details_related (st : Store) (today : Date) (recordId : string) :
  match getRecordDetails st today "transaction" recordId true with
  | Ok (TransactionRecord d (Some related)) =>
      (length related <= 5)%nat
      /\ Forall (fun r => In (rt_txn r) (transactions st)
                          /\ t_category_id (rt_txn r) = t_category_id (d_txn d)
                          /\ t_id (rt_txn r) <> recordId) related
      /\ StronglySorted (fun x y => not_later y x) related
  | Ok _ => False
  | Err message => message = ("Transaction not found: " ++ recordId)%string
  end
  /\ match getRecordDetails st today "ledger_record" recordId true with
     | Ok (LedgerRecord l (Some recent)) =>
         l_id l = recordId
         /\ (length recent <= 10)%nat
         /\ Forall (fun r => In (rt_txn r) (transactions st)
                             /\ t_ledger_id (rt_txn r) = recordId) recent
         /\ StronglySorted (fun x y => not_later y x) recent
         /\ (forall t c, In t (transactions st) -> t_ledger_id t = recordId ->
                         get_category st (t_category_id t) = Some c ->
                         In (mkRelatedTransaction t (c_name c)) recent
                         \/ (length recent = 10%nat
                             /\ Forall (fun r => not_later
                                                   (mkRelatedTransaction t (c_name c)) r)
                                  recent))
     | Ok _ => False
     | Err message => message = ("Ledger not found: " ++ recordId)%string
     end.
Proof.
  split.
  - unfold getRecordDetails. cbn [String.eqb Ascii.eqb Bool.eqb].
    destruct (transaction_detail st recordId) as [d |]; [| reflexivity].
    destruct (recent_with_category_spec st
                (fun t => String.eqb (t_category_id t) (t_category_id (d_txn d))
                          && negb (String.eqb (t_id t) recordId)) 5)
      as (H1 & H2 & H3 & _).
    split; [exact H1 |]. split; [| exact H3].
    eapply List.Forall_impl; [| exact H2].
    cbv beta. intros r (Ht & K & _). apply andb_true_iff in K. destruct K as [K1 K2].
    apply String.eqb_eq in K1. apply negb_true_iff, String.eqb_neq in K2.
    repeat split; assumption.
  - unfold getRecordDetails. cbn [String.eqb Ascii.eqb Bool.eqb].
    destruct (get_ledger st recordId) as [l |] eqn:L; [| reflexivity].
    destruct (recent_with_category_spec st
                (fun t => String.eqb (t_ledger_id t) recordId) 10)
      as (H1 & H2 & H3 & H4).
    split.
    { unfold get_ledger in L. apply find_some in L. destruct L as [_ L].
      apply String.eqb_eq in L. exact L. }
    split; [exact H1 |]. split; [| split; [exact H3 |]].
    + eapply List.Forall_impl; [| exact H2].
      cbv beta. intros r (Ht & K & _). apply String.eqb_eq in K. split; assumption.
    + intros t c Ht K C. apply (H4 t c Ht); [| exact C]. apply String.eqb_eq. exact K.
Qed.

Lemma StronglySorted_rev {A : Type} (R : A -> A -> Prop) (l : list A) :
  StronglySorted R l -> StronglySorted (fun x y => R y x) (rev l).
Proof.
  induction 1 as [| x l Hs IH Hall]; [constructor |].
  cbn. revert IH. generalize (rev_involutive l). 
  assert (Hall' : Forall (fun y => R x y) (rev l)).
  { apply List.Forall_forall. intros y Hy. rewrite List.Forall_forall in Hall.
    apply Hall. apply in_rev. exact Hy. }
  clear Hall Hs. intros _. induction (rev l) as [| z zs IHz]; intros S.
  - constructor; constructor.
  - cbn. inversion S as [| ? ? Sz Hz]. subst. inversion Hall' as [| ? ? Hxz Hxzs]. subst.
    constructor; [apply IHz; assumption |].
    apply List.Forall_forall. intros y Hy. apply in_app_iff in Hy.
    destruct Hy as [Hy | [<- | []]].
    + rewrite List.Forall_forall in Hz. apply Hz. exact Hy.
    + exact Hxz.
Qed.


(** ** categoryTreeToMarkdown: the outline *)

Lemma CategoryTree_induction (P : CategoryTree -> Prop) :
  (forall cat ts, Forall P ts -> P (Branch cat ts)) -> forall t, P t.
Proof.
  intros H. fix IH 1. intros [cat ts]. apply H.
  induction ts as [| t ts IHts]; constructor; [apply IH | exact IHts].
Qed.

Lemma append_empty (x : string) : (x ++ "")%string = x.
Proof.
  induction x as [| c x IH]; [reflexivity |].
  change (String c x ++ "")%string with (String c (x ++ "")%string). rewrite IH. reflexivity.
Qed.

Lemma append_step (c : ascii) (x y : string) :
  (String c x ++ y)%string = String c (x ++ y)%string.
Proof. reflexivity. Qed.

Lemma append_associative (x y z : string) :
  ((x ++ y) ++ z)%string = (x ++ y ++ z)%string.
Proof.
  induction x as [| c x IH]; [reflexivity |].
  rewrite !append_step, IH. reflexivity.
Qed.

Lemma length_append (x y : string) :
  String.length (x ++ y)%string = (String.length x + String.length y)%nat.
Proof.
  induction x as [| c x IH]; [reflexivity |].
  rewrite append_step. cbn [String.length]. rewrite IH. reflexivity.
Qed.

Lemma concat_empty_cons (x : string) (l : list string) :
  String.concat "" (x :: l) = (x ++ String.concat "" l)%string.
Proof.
  destruct l as [| y l]; [cbn; symmetry; apply append_empty | reflexivity].
Qed.

Lemma concat_empty_app (l1 l2 : list string) :
  String.concat "" (l1 ++ l2) = (String.concat "" l1 ++ String.concat "" l2)%string.
Proof.
  induction l1 as [| x l1 IH]; [reflexivity |].
  rewrite <- app_comm_cons, !concat_empty_cons, IH.
  symmetry. apply append_associative.
Qed.

Lemma length_repeat_string (n : nat) (s : string) :
  String.length (repeat_string n s) = (n * String.length s)%nat.
Proof.
  induction n as [| n IH]; [reflexivity |].
  cbn [repeat_string]. rewrite length_append, IH. lia.
Qed.

(** X14.  categoryTreeToMarkdown writes one line per category of the tree,
    parents before children in the order of the tree: the line of a
    category at depth d is 2 d spaces, a dash, its name and its id in
    parentheses; the first line is the root at the starting depth and no
    line is less indented. *)
Theorem markdown_outline (t : CategoryTree) :
  forall level : nat,
    categoryTreeToMarkdown level t = String.concat "" (map bullet (outline level t))
    /\ map snd (outline level t) = tree_categories t
    /\ Forall (fun e => (level <= fst e)%nat
                        /\ String.length (repeat_string (fst e) "  ") = (2 * fst e)%nat)
         (outline level t)
    /\ (exists rest, outline level t = (level, root_category t) :: rest).
Proof.
  induction t as [cat ts IH] using CategoryTree_induction. intros level.
  cbn [categoryTreeToMarkdown outline tree_categories root_category].
  assert (M : String.concat "" (map (categoryTreeToMarkdown (S level)) ts)
              = String.concat "" (map bullet (flat_map (outline (S level)) ts))).
  { induction IH as [| t ts Ht _ IHts]; [reflexivity |].
    cbn [flat_map map]. rewrite map_app, concat_empty_app, <- IHts.
    destruct (Ht (S level)) as [<- _].
    change (categoryTreeToMarkdown (S level) t :: map (categoryTreeToMarkdown (S level)) ts)
      with ([categoryTreeToMarkdown (S level) t]
            ++ map (categoryTreeToMarkdown (S level)) ts).
    rewrite concat_empty_app. reflexivity. }
  split; [| split; [| split]].
  - change (map bullet ((level, cat) :: flat_map (outline (S level)) ts))
      with ([bullet (level, cat)] ++ map bullet (flat_map (outline (S level)) ts)).
    rewrite concat_empty_app, <- M. cbn [String.concat]. unfold bullet. cbn [fst snd].
    rewrite !append_associative. reflexivity.
  - cbn [map snd]. f_equal. clear M.
    induction IH as [| t ts Ht _ IHts]; [reflexivity |].
    cbn [flat_map]. rewrite map_app, IHts. destruct (Ht (S level)) as (_ & -> & _).
    reflexivity.
  - constructor.
    + cbn [fst]. split; [lia |]. rewrite length_repeat_string. cbn. lia.
    + apply List.Forall_forall. intros e He. apply in_flat_map in He.
      destruct He as [t [Ht He]]. rewrite List.Forall_forall in IH.
      destruct (IH t Ht (S level)) as (_ & _ & F & _).
      rewrite List.Forall_forall in F. destruct (F e He) as [L Hlen].
      split; [lia | exact Hlen].
  - eexists. reflexivity.
Qed.

(** ** The account lists *)

Lemma str_lt_le (a b : string) : str_lt a b = true -> str_le a b = true.
Proof.
  unfold str_lt, str_le, String.ltb, String.leb.
  destruct (String.compare a b); congruence.
Qed.

Lemma str_lt_compare (a b : string) : str_lt a b = true <-> String.compare a b = Lt.
Proof.
  unfold str_lt, String.ltb. destruct (String.compare a b); split; congruence.
Qed.

Lemma by_two_total (x1 x2 y1 y2 : string) :
  by_two x1 x2 y1 y2 = false -> by_two y1 y2 x1 x2 = true.
Proof.
  unfold by_two. intros H. apply orb_false_iff in H. destruct H as [H1 H2].
  unfold str_lt, String.ltb in *.
  rewrite (String.compare_antisym y1 x1).
  destruct (String.compare x1 y1) eqn:E; cbn; try discriminate; [| reflexivity].
  apply String.compare_eq_iff in E. subst y1.
  rewrite String.eqb_refl in *. cbn in *. apply str_le_total. exact H2.
Qed.

Lemma by_two_trans (x1 x2 y1 y2 z1 z2 : string) :
  by_two x1 x2 y1 y2 = true -> by_two y1 y2 z1 z2 = true -> by_two x1 x2 z1 z2 = true.
Proof.
  unfold by_two. intros H1 H2.
  apply orb_true_iff in H1. apply orb_true_iff in H2. apply orb_true_iff.
  destruct H1 as [H1 | H1]; destruct H2 as [H2 | H2].
  - left. apply str_lt_compare. apply str_lt_compare in H1. apply str_lt_compare in H2.
    exact (key_lt_trans _ _ _ H1 H2).
  - apply andb_true_iff in H2. destruct H2 as [E _]. apply String.eqb_eq in E. subst z1.
    left. exact H1.
  - apply andb_true_iff in H1. destruct H1 as [E _]. apply String.eqb_eq in E. subst y1.
    left. exact H2.
  - apply andb_true_iff in H1. destruct H1 as [E1 L1]. apply String.eqb_eq in E1.
    apply andb_true_iff in H2. destruct H2 as [E2 L2]. apply String.eqb_eq in E2.
    subst. right. rewrite String.eqb_refl. cbn. exact (str_le_trans _ _ _ L1 L2).
Qed.

(** X15.  getCategories, getLedgers and getBudgets return each selected row
    exactly once and nothing else: the categories (the active ones under
    active_only) by type and name, the ledgers (active, within ledger_ids)
    by name, and the budgets whose category exists, with the name and type
    of that category, by period and category name. *)
Theorem account_lists_sorted (st : Store) (filters : AccountFilters) :
  (Permutation (getCategories st filters)
     (List.filter (fun c => if active_only filters then c_active c else true)
        (categories st))
   /\ StronglySorted (fun x y => by_two (c_type x) (c_name x) (c_type y) (c_name y) = true)
        (getCategories st filters))
  /\ (Permutation (getLedgers st filters)
        (List.filter (fun l => (if active_only filters then l_active l else true)
                               && match nonempty (ledger_ids filters) with
                                  | Some ids => in_list (l_id l) ids
                                  | None => true
                                  end) (ledgers st))
      /\ StronglySorted (fun x y => str_le (l_name x) (l_name y) = true)
           (getLedgers st filters))
  /\ (Permutation (map d_budget (getBudgets st filters))
        (List.filter (fun b => (if active_only filters then b_active b else true)
                               && match get_category st (b_category_id b) with
                                  | Some _ => true
                                  | None => false
                                  end) (budgets st))
      /\ Forall (fun r => exists c,
                   get_category st (b_category_id (d_budget r)) = Some c
                   /\ bd_category_name r = c_name c /\ bd_category_type r = c_type c)
           (getBudgets st filters)
      /\ StronglySorted
           (fun x y => by_two (b_period (d_budget x)) (bd_category_name x)
                         (b_period (d_budget y)) (bd_category_name y) = true)
           (getBudgets st filters)).
Proof.
  split; [| split].
  - split; [apply order_by_perm |].
    apply order_by_sorted.
    + intros a b. apply by_two_total.
    + intros a b c. apply by_two_trans.
  - split; [apply order_by_perm |].
    apply order_by_sorted.
    + intros a b. apply str_le_total.
    + intros a b c. apply str_le_trans.
  - split; [| split].
    + unfold getBudgets.
      rewrite (Permutation_map d_budget (order_by_perm _ _)).
      induction (budgets st) as [| b bs IH]; [constructor |].
      cbn [flat_map List.filter]. rewrite map_app.
      destruct (if active_only filters then b_active b else true); cbn [andb]; [| exact IH].
      destruct (get_category st (b_category_id b)); cbn; [constructor |]; exact IH.
    + apply List.Forall_forall. intros r Hr. unfold getBudgets in Hr.
      apply order_by_In, in_flat_map in Hr. destruct Hr as [b [_ Hr]].
      destruct (if active_only filters then b_active b else true); [| destruct Hr].
      destruct (get_category st (b_category_id b)) as [c |] eqn:C; [| destruct Hr].
      destruct Hr as [<- | []]. exists c. cbn. repeat split; try reflexivity. exact C.
    + apply order_by_sorted.
      * intros a b. apply by_two_total.
      * intros a b c. apply by_two_trans.
Qed.


(** ** exportData *)

Lemma export_le_total (options : ExportOptions) (a b : TransactionDetail) :
  export_le options a b = false -> export_le options b a = true.
Proof.
  unfold export_le. destruct (truthy_str (group_by_option options)).
  - destruct (String.eqb _ "category"); [apply str_le_total |].
    destruct (String.eqb _ "ledger"); apply str_le_total.
  - apply str_le_total.
Qed.

Lemma export_le_trans (options : ExportOptions) (a b c : TransactionDetail) :
  export_le options a b = true -> export_le options b c = true ->
  export_le options a c = true.
Proof.
  unfold export_le. destruct (truthy_str (group_by_option options)).
  - destruct (String.eqb _ "category"); [apply str_le_trans |].
    destruct (String.eqb _ "ledger"); apply str_le_trans.
  - intros H1 H2. exact (str_le_trans _ _ _ H2 H1).
Qed.

(** With the references of the schema in place the join loses no row. *)
Lemma joined_details_all (st : Store) :
  references_ok st = true -> map d_txn (joined_details st) = transactions st.
Proof.
  unfold references_ok, joined_details. intros H. apply andb_true_iff in H.
  destruct H as [H _]. rewrite forallb_forall in H.
  induction (transactions st) as [| t ts IH]; [reflexivity |].
  cbn [flat_map]. rewrite map_app, IH by (intros x Hx; apply H; right; exact Hx).
  specialize (H t (or_introl eq_refl)).
  destruct (get_category st (t_category_id t)); [| discriminate H].
  destruct (get_ledger st (t_ledger_id t)); [| discriminate H].
  reflexivity.
Qed.

Lemma filter_map_commute {A B : Type} (f : A -> B) (p : B -> bool) (l : list A) :
  List.filter p (map f l) = map f (List.filter (fun x => p (f x)) l).
Proof.
  induction l as [| x l IH]; [reflexivity |].
  cbn. destruct (p (f x)); cbn; rewrite IH; reflexivity.
Qed.

Section ExportFacts.

Context (today : Date) (now : string)
        (created_at updated_at : Transaction -> value)
        (select_all : Store -> string -> list record).

(** X17.  The transactions export holds exactly the joined rows that pass
    the date, category and ledger filters, in the order of group_by (by date
    descending without it); with the references of the schema in place every
    stored transaction that passes the filters is exported once, and without
    filters the export holds every stored transaction once. *)
Theorem export_transactions_rows (st : Store) (filters : QueryFilters)
    (options : ExportOptions) :
  let rows := export_transactions st filters options in
  exportData today now created_at updated_at select_all st "transactions" filters options
  = Ok (Rows (map (export_row created_at updated_at) rows))
  /\ (forall r, In r rows <-> In r (joined_details st) /\ export_keeps filters (d_txn r) = true)
  /\ StronglySorted (fun x y => export_le options x y = true) rows
  /\ (references_ok st = true ->
      Permutation (map d_txn rows) (List.filter (export_keeps filters) (transactions st)))
  /\ (references_ok st = true ->
      truthy_str (date_start filters) = false -> truthy_str (date_end filters) = false ->
      nonempty (f_categories filters) = None -> nonempty (f_ledgers filters) = None ->
      Permutation (map d_txn rows) (transactions st)).
Proof.
  cbv zeta.
  assert (P : references_ok st = true ->
              Permutation (map d_txn (export_transactions st filters options))
                (List.filter (export_keeps filters) (transactions st))).
  { intros Href. unfold export_transactions.
    rewrite (Permutation_map d_txn (order_by_perm _ _)).
    assert (E : List.filter (export_keeps filters) (transactions st)
                = map d_txn (List.filter (export_where filters) (joined_details st))).
    { pose proof (joined_details_all st Href) as J. rewrite <- J.
      exact (filter_map_commute d_txn (export_keeps filters) (joined_details st)). }
    rewrite E. reflexivity. }
  split; [reflexivity |]. split; [| split; [| split]].
  - intros r. unfold export_transactions. rewrite order_by_In, filter_In. reflexivity.
  - apply order_by_sorted; [apply export_le_total | apply export_le_trans].
  - exact P.
  - intros Href Hs He Hc Hl. rewrite (P Href).
    assert (E : forall t, export_keeps filters t = true).
    { intros t. unfold export_keeps. rewrite Hs, He, Hc, Hl. reflexivity. }
    rewrite forallb_filter_id; [reflexivity |].
    apply forallb_forall. intros t _. apply E.
Qed.

End ExportFacts.

(** The page query and the export join the same tables. *)
Lemma joined_of_details (st : Store) :
  joined st
  = map (fun r => mkTransactionRow (d_txn r) (d_category_name r) (d_category_type r)
                    (d_ledger_name r)) (joined_details st).
Proof.
  unfold joined, joined_details.
  induction (transactions st) as [| t ts IH]; [reflexivity |].
  cbn [flat_map]. rewrite map_app, IH.
  destruct (get_category st (t_category_id t)); [| reflexivity].
  destruct (get_ledger st (t_ledger_id t)); reflexivity.
Qed.

(** X18.  For the same date, category and ledger filters, the number of
    rows export_data exports is the total that query_transactions reports
    when it is asked for every type without text or amount conditions. *)
Theorem export_count_is_query_total (st : Store)
    (date_start date_end : option string) (categories ledgers : option (list string))
    (search : option string) (lowest highest : option Q)
    (pagination : Pagination) (sort : Sort) (options : ExportOptions) :
  total (qr_pagination
           (queryTransactions st
              (mkQueryOptions None
                 (mkQueryFilters date_start date_end categories ledgers None None None)
                 pagination sort)))
  = Z.of_nat (length (export_transactions st
                        (mkQueryFilters date_start date_end categories ledgers
                           search lowest highest) options)).
Proof.
  rewrite query_total. f_equal. unfold export_transactions.
  rewrite order_by_length, joined_of_details, filter_map_commute, length_map.
  f_equal. apply filter_ext. intros r.
  unfold query_where, export_where, export_keeps. cbn.
  rewrite !andb_true_r. reflexivity.
Qed.

(** ** handleExportData *)

Section HandlerFacts.

Context (today : Date) (now : string)
        (created_at updated_at : Transaction -> value)
        (select_all : Store -> string -> list record)
        (Number_toString : Q -> string)
        (JSON_stringify : ExportData -> string)
        (formatCurrency : value -> string).

(** X19.  export_data in CSV: a transactions export is the empty text when
    no row is selected and otherwise the fourteen column names followed by
    one line of fourteen quoted cells per row; a summary report and a backup
    fail with [CSV format requires array data]; an unknown export type fails
    with its own message whatever the format; and JSON never fails for a
    known export type. *)
Theorem export_csv (st : Store) (filters : QueryFilters) (options : ExportOptions) :
  handleExportData today now created_at updated_at select_all Number_toString
      JSON_stringify formatCurrency st "transactions" "csv" filters options
  = Ok (match export_transactions st filters options with
        | [] => ""
        | rows =>
            String.concat newline
              (String.concat "," export_columns
               :: map (fun r =>
                         String.concat ","
                           (map (csv_cell Number_toString
                                   (export_row created_at updated_at r))
                              export_columns)) rows)
        end)
  /\ handleExportData today now created_at updated_at select_all Number_toString
      JSON_stringify formatCurrency st "summary_report" "csv"
       filters options
     = Err "CSV format requires array data"
  /\ handleExportData today now created_at updated_at select_all Number_toString
      JSON_stringify formatCurrency st "full_backup" "csv"
       filters options
     = Err "CSV format requires array data"
  /\ (forall export_type format : string,
        ~ In export_type ["transactions"; "summary_report"; "full_backup"] ->
        handleExportData today now created_at updated_at select_all Number_toString
      JSON_stringify formatCurrency st export_type format filters options
        = Err ("Unknown export_type: " ++ export_type)%string)
  /\ (forall export_type : string,
        In export_type ["transactions"; "summary_report"; "full_backup"] ->
        exists text,
          handleExportData today now created_at updated_at select_all Number_toString
      JSON_stringify formatCurrency st export_type "json" filters options = Ok text).
Proof.
  split; [| split; [| split; [| split]]].
  - unfold handleExportData, exportData. cbn [String.eqb Ascii.eqb Bool.eqb].
    cbn [mbind result_bind]. unfold formatExportData.
    cbn [String.eqb Ascii.eqb Bool.eqb].
    destruct (export_transactions st filters options) as [| r rows]; [reflexivity |].
    cbn [map]. rewrite map_map. reflexivity.
  - reflexivity.
  - reflexivity.
  - intros export_type format Hnot. unfold handleExportData, exportData.
    destruct (String.eqb_spec export_type "transactions") as [-> | _];
      [exfalso; apply Hnot; cbn; tauto |].
    destruct (String.eqb_spec export_type "summary_report") as [-> | _];
      [exfalso; apply Hnot; cbn; tauto |].
    destruct (String.eqb_spec export_type "full_backup") as [-> | _];
      [exfalso; apply Hnot; cbn; tauto |].
    reflexivity.
  - intros export_type [<- | [<- | [<- | []]]]; eexists; reflexivity.
Qed.

End HandlerFacts.

(** ** The summary report *)

Lemma breakdown_groups_sum (rows : list (Transaction * Category)) :
  (Qsum (map total_amount
           (flat_map breakdown_group (group_by (fun r => c_id (snd r)) rows)))
   == Qsum (map (fun r => t_amount (fst r)) rows))%Q.
Proof.
  unfold group_by. rewrite breakdown_groups_totals.
  - apply sum_by_key; [apply group_keys_NoDup |].
    intros r Hr. apply group_keys_In.
    apply (in_map (fun r => c_id (snd r))). exact Hr.
  - intros k Hk. apply group_keys_In in Hk. exact Hk.
Qed.

Lemma breakdown_groups_count (rows : list (Transaction * Category)) :
  Zsum (map transaction_count
          (flat_map breakdown_group (group_by (fun r => c_id (snd r)) rows)))
  = Z.of_nat (length rows).
Proof.
  set (ks := group_keys (fun r : Transaction * Category => c_id (snd r)) rows).
  assert (Hks : forall k, In k ks -> In k (map (fun r => c_id (snd r)) rows)).
  { intros k Hk. apply group_keys_In in Hk. exact Hk. }
  pose proof (breakdown_groups_of_keys rows ks Hks) as G.
  unfold group_by. fold ks.
  transitivity (Zsum (map snd (map (fun g => (g_category_id g, transaction_count g))
                                 (flat_map breakdown_group
                                    (map (fun k => (k, List.filter
                                                         (fun r => String.eqb (c_id (snd r)) k)
                                                         rows)) ks))))).
  { rewrite map_map. reflexivity. }
  rewrite G, map_map. cbn [snd].
  rewrite <- (map_map (fun k => List.filter (fun r => String.eqb (c_id (snd r)) k) rows)
                (fun l => Z.of_nat (length l))).
  rewrite Zsum_lengths, <- flat_map_concat_map. f_equal. apply Permutation_length.
  apply partition_by_keys; [apply group_keys_NoDup |].
  intros r Hr. apply group_keys_In. apply (in_map (fun r => c_id (snd r))). exact Hr.
Qed.

(** Without filters, and with the references in place, the rows of the
    breakdown are the transactions of the window. *)
Lemma breakdown_rows_window (st : Store) (startDate endDate : string) :
  references_ok st = true ->
  map fst (breakdown_rows st (window startDate endDate) no_filters)
  = List.filter (in_window (window startDate endDate)) (transactions st).
Proof.
  unfold references_ok, breakdown_rows. intros H. apply andb_true_iff in H.
  destruct H as [H _]. rewrite forallb_forall in H.
  induction (transactions st) as [| t ts IH]; [reflexivity |].
  cbn [flat_map]. rewrite List.filter_app, map_app, IH
    by (intros x Hx; apply H; right; exact Hx).
  specialize (H t (or_introl eq_refl)).
  destruct (get_category st (t_category_id t)) as [c |]; [| discriminate H].
  cbn [List.filter]. unfold breakdown_where at 1. cbn [fst a_categories no_filters nonempty
                                                        type_filter transaction_type truthy_str].
  rewrite !andb_true_r.
  destruct (in_window (window startDate endDate) t); reflexivity.
Qed.

Lemma sum_of_kinds (st : Store) (startDate endDate : string) :
  types_ok st = true ->
  (total_number (sum_of_kind st startDate endDate "income")
   + total_number (sum_of_kind st startDate endDate "expense")
   == Qsum (map t_amount
              (List.filter (in_window (window startDate endDate)) (transactions st))))%Q.
Proof.
  intros Hty. unfold sum_of_kind.
  assert (Hrows : forall t, In t (List.filter (in_window (window startDate endDate))
                                    (transactions st)) ->
                  in_list (t_type t) ["income"; "expense"] = true).
  { intros t Ht. apply filter_In in Ht. destruct Ht as [Ht _].
    unfold types_ok in Hty. rewrite forallb_forall in Hty. exact (Hty t Ht). }
  destruct (List.filter (in_window (window startDate endDate)) (transactions st))
    as [| t0 rows] eqn:E.
  - cbn. unfold Qsum. cbn. ring.
  - unfold sql_sum. cbn [map total_number].
    change ((if String.eqb (t_type t0) "income" then t_amount t0 else 0%Q)
            :: map (fun t => if String.eqb (t_type t) "income" then t_amount t else 0%Q) rows)
      with (map (fun t => if String.eqb (t_type t) "income" then t_amount t else 0%Q)
              (t0 :: rows)).
    change ((if String.eqb (t_type t0) "expense" then t_amount t0 else 0%Q)
            :: map (fun t => if String.eqb (t_type t) "expense" then t_amount t else 0%Q) rows)
      with (map (fun t => if String.eqb (t_type t) "expense" then t_amount t else 0%Q)
              (t0 :: rows)).
    change (t_amount t0 :: map t_amount rows) with (map t_amount (t0 :: rows)).
    apply Qsum_map_plus. intros t Ht. specialize (Hrows t Ht).
    unfold in_list in Hrows. cbn [existsb] in Hrows.
    destruct (String.eqb (t_type t) "income") eqn:Ei.
    + apply String.eqb_eq in Ei. rewrite Ei. cbn. ring.
    + destruct (String.eqb (t_type t) "expense") eqn:Ee; [ring |].
      discriminate Hrows.
Qed.

Lemma report_breakdown_sums (st : Store) (startDate endDate : string) :
  references_ok st = true ->
  (Qsum (map (fun l => total_number (bl_amount l)) (report_breakdown st startDate endDate))
   == Qsum (map t_amount
              (List.filter (in_window (window startDate endDate)) (transactions st))))%Q
  /\ Zsum (map bl_transaction_count (report_breakdown st startDate endDate))
     = Z.of_nat (length (List.filter (in_window (window startDate endDate))
                           (transactions st))).
Proof.
  intros Href. unfold report_breakdown.
  set (groups := flat_map breakdown_group
                   (group_by (fun r => c_id (snd r))
                      (breakdown_rows st (window startDate endDate) no_filters))).
  pose proof (breakdown_rows_window st startDate endDate Href) as W.
  split.
  - rewrite (Qsum_perm _ _ (Permutation_map _ (order_by_perm _ _))).
    rewrite map_map. cbn [bl_amount total_number].
    unfold groups. rewrite breakdown_groups_sum.
    rewrite <- W, map_map. reflexivity.
  - rewrite (Zsum_perm _ _ (Permutation_map _ (order_by_perm _ _))).
    rewrite map_map. cbn [bl_transaction_count].
    unfold groups. rewrite breakdown_groups_count.
    rewrite <- W, length_map. reflexivity.
Qed.

Section ReportFacts.

Context (today : Date) (now : string)
        (created_at updated_at : Transaction -> value)
        (select_all : Store -> string -> list record).


End ReportFacts.

(** ** calculatePeriodDates and getSummary *)

(** X21.  calculatePeriodDates fails exactly on [custom] without a date
    range and on a period it does not know, with the message of the case;
    [custom] returns the range as given; every other period ends on the
    current UTC day, and [today] starts on it. *)
Theorem calculatePeriodDates_errors (now : Clock) (period : string)
    (dateRange : option DateRange) :
  (forall message : string,
     calculatePeriodDates now period dateRange = Err message <->
     (period = "custom" /\ dateRange = None
      /\ message = "date_range required for custom period")
     \/ (~ In period ["today"; "this_week"; "this_month"; "this_year"; "custom"]
         /\ message = ("Unknown period: " ++ period)%string))
  /\ (forall range : DateRange,
        calculatePeriodDates now "custom" (Some range)
        = Ok (range_start range, range_end range))
  /\ (In period ["today"; "this_week"; "this_month"; "this_year"] ->
      exists startDate,
        calculatePeriodDates now period dateRange = Ok (startDate, date_text (utc_day now)))
  /\ calculatePeriodDates now "today" dateRange
     = Ok (date_text (utc_day now), date_text (utc_day now)).
Proof.
  split; [| split; [| split]].
  - intros message. unfold calculatePeriodDates.
    destruct (String.eqb_spec period "today") as [-> | H1].
    { split; [discriminate |]. intros [(H & _) | (H & _)]; [discriminate H |].
      exfalso. apply H. cbn. tauto. }
    destruct (String.eqb_spec period "this_week") as [-> | H2].
    { split; [discriminate |]. intros [(H & _) | (H & _)]; [discriminate H |].
      exfalso. apply H. cbn. tauto. }
    destruct (String.eqb_spec period "this_month") as [-> | H3].
    { split; [discriminate |]. intros [(H & _) | (H & _)]; [discriminate H |].
      exfalso. apply H. cbn. tauto. }
    destruct (String.eqb_spec period "this_year") as [-> | H4].
    { split; [discriminate |]. intros [(H & _) | (H & _)]; [discriminate H |].
      exfalso. apply H. cbn. tauto. }
    destruct (String.eqb_spec period "custom") as [-> | H5].
    { destruct dateRange as [range |].
      - split; [discriminate |]. intros [(_ & H & _) | (H & _)]; [discriminate H |].
        exfalso. apply H. cbn. tauto.
      - split.
        + intros H. inversion H. left. repeat split; reflexivity.
        + intros [(_ & _ & ->) | (H & _)]; [reflexivity |].
          exfalso. apply H. cbn. tauto. }
    split.
    + intros H. inversion H. right. split; [| reflexivity].
      cbn. intros [E | [E | [E | [E | [E | []]]]]]; congruence.
    + intros [(H & _) | (_ & ->)]; [contradiction | reflexivity].
  - intros range. reflexivity.
  - intros [<- | [<- | [<- | [<- | []]]]]; eexists; reflexivity.
  - reflexivity.
Qed.

Lemma count_kinds (rows : list Transaction) (keep : Transaction -> bool) :
  (forall t, In t rows -> in_list (t_type t) ["income"; "expense"] = true) ->
  (length (List.filter (fun t => keep t && String.eqb (t_type t) "income") rows)
   + length (List.filter (fun t => keep t && String.eqb (t_type t) "expense") rows)
   = length (List.filter keep rows))%nat.
Proof.
  induction rows as [| t rows IH]; intros H; [reflexivity |].
  cbn [List.filter].
  specialize (IH (fun x Hx => H x (or_intror Hx))).
  specialize (H t (or_introl eq_refl)). unfold in_list in H. cbn [existsb] in H.
  destruct (keep t); cbn [andb]; [| exact IH].
  destruct (String.eqb (t_type t) "income") eqn:Ei.
  - apply String.eqb_eq in Ei. rewrite Ei. cbn. lia.
  - destruct (String.eqb (t_type t) "expense") eqn:Ee; [cbn; lia | discriminate H].
Qed.

Section SummaryFacts.

Context (now : Clock) (Date_parse : string -> option Z).


(** The rows of the two budget reports come from the same groups. *)
Lemma status_rows_match (gs : list (string * list (Budget * Category * option Transaction))) :
  Forall2 (fun (s : BudgetStatusRow) (v : VarianceRow) =>
             b_id (bs_budget s) = budget_id v
             /\ b_amount (bs_budget s) = budgeted_amount v
             /\ b_period (bs_budget s) = v_period v
             /\ bs_category_name s = category_name v
             /\ spent_amount s = actual_amount v)
    (flat_map status_group gs) (flat_map variance_group gs).
Proof.
  induction gs as [| g gs IH]; [constructor |].
  cbn [flat_map]. unfold status_group at 1, variance_group at 1.
  destruct (snd g) as [| [[b c] t] rest]; [exact IH |].
  cbn [app]. constructor; [| exact IH]. cbn. repeat split; reflexivity.
Qed.

(** X23.  The budget_status summary and the budget_variance analysis of the
    same window agree budget by budget: same budgets in the same order, same
    amounts spent, same status, and [remaining] is the negated variance;
    the status is [over] exactly when nothing remains (remaining < 0). *)
Theorem budget_status_matches_variance (st : Store) (period : string)
    (dateRange : option DateRange) (includeDetails : bool) (startDate endDate : string) :
  calculatePeriodDates now period dateRange = Ok (startDate, endDate) ->
  exists items : list BudgetStatusItem,
    getSummary now Date_parse st "budget_status" period dateRange includeDetails
    = Ok (BudgetStatus items (mkPeriodInfo startDate endDate period))
    /\ Forall2 (fun (i : BudgetStatusItem) (v : VarianceItem) =>
                  b_id (bs_budget (bs_row i)) = budget_id (v_row v)
                  /\ b_amount (bs_budget (bs_row i)) = budgeted_amount (v_row v)
                  /\ spent_amount (bs_row i) = actual_amount (v_row v)
                  /\ (remaining i == - variance v)%Q
                  /\ bs_status i = v_status v
                  /\ (bs_status i = "over" <-> (remaining i < 0)%Q))
         items (fst (budget_variance st (window startDate endDate))).
Proof.
  intros Hdates. exists (map status_item (status_query st startDate endDate)). split.
  - unfold getSummary. rewrite Hdates. reflexivity.
  - unfold budget_variance, status_query, variance_query. cbn [fst].
    generalize (status_rows_match
                  (group_by (fun r => b_id (fst (fst r)))
                     (variance_rows st (window startDate endDate)))).
    generalize (flat_map status_group
                  (group_by (fun r => b_id (fst (fst r)))
                     (variance_rows st (window startDate endDate)))).
    generalize (flat_map variance_group
                  (group_by (fun r => b_id (fst (fst r)))
                     (variance_rows st (window startDate endDate)))).
    intros vs ss M.
    induction M as [| s v ss vs (Hid & Ha & _ & _ & Hs) _ IH]; [constructor |].
    cbn [map]. constructor; [| exact IH].
    unfold status_item, variance_item. cbn. rewrite Ha, Hs.
    repeat split; try reflexivity; try assumption.
    + ring.
    + destruct (Qlt_bool (budgeted_amount v) (actual_amount v)) eqn:E.
      * intros _. apply Qlt_bool_iff in E. lra.
      * discriminate.
    + intros H. destruct (Qlt_bool (budgeted_amount v) (actual_amount v)) eqn:E;
        [reflexivity |].
      apply Qlt_bool_false_iff in E. lra.
Qed.

Lemma Qmax_fold (l : list Q) (x : Q) :
  In (fold_left Qmax l x) (x :: l)
  /\ (x <= fold_left Qmax l x)%Q
  /\ Forall (fun y => (y <= fold_left Qmax l x)%Q) l.
Proof.
  revert x. induction l as [| y l IH]; intros x.
  - cbn. split; [left; reflexivity |]. split; [apply Qle_refl | constructor].
  - cbn [fold_left]. destruct (IH (Qmax x y)) as (Hin & Hle & Hall).
    assert (Hx : (x <= Qmax x y)%Q /\ (y <= Qmax x y)%Q /\ (Qmax x y = x \/ Qmax x y = y)).
    { unfold Qmax. destruct (Qle_bool x y) eqn:E.
      - apply Qle_bool_iff in E. split; [exact E |]. split; [apply Qle_refl | right; reflexivity].
      - split; [apply Qle_refl |]. split; [| left; reflexivity].
        apply Qle_bool_iff. apply Qle_bool_total. exact E. }
    destruct Hx as (Hx1 & Hx2 & Hx3).
    split; [| split].
    + destruct Hin as [Hin | Hin].
      * destruct Hx3 as [E | E]; [left | right; left]; congruence.
      * right. right. exact Hin.
    + eapply Qle_trans; [exact Hx1 | exact Hle].
    + constructor; [eapply Qle_trans; [exact Hx2 | exact Hle] | exact Hall].
Qed.

Lemma Qsum_bounded (l : list Q) (m : Q) :
  Forall (fun y => (y <= m)%Q) l -> (Qsum l <= inject_Z (Z.of_nat (length l)) * m)%Q.
Proof.
  induction 1 as [| y l Hy _ IH].
  - unfold Qsum. cbn [fold_left length]. change (inject_Z (Z.of_nat 0)) with 0%Q. lra.
  - rewrite Qsum_cons. cbn [length]. rewrite Nat2Z.inj_succ, <- Z.add_1_r, inject_Z_plus.
    change (inject_Z 1) with 1%Q. lra.
Qed.


End SummaryFacts.

(** ** Dates as text *)

Lemma digit_compare (a b : Z) :
  Ascii.compare (digit a) (digit b) = (a mod 10 ?= b mod 10)%Z.
Proof.
  unfold Ascii.compare, digit.
  pose proof (Z.mod_pos_bound a 10 ltac:(lia)) as Ha.
  pose proof (Z.mod_pos_bound b 10 ltac:(lia)) as Hb.
  rewrite !N_ascii_embedding by lia.
  rewrite <- N2Z.inj_compare, !N2Z.inj_add, !Z2N.id by lia.
  apply Z.add_compare_mono_l.
Qed.

Lemma compare_step (c1 c2 : ascii) (s1 s2 : string) :
  String.compare (String c1 s1) (String c2 s2)
  = match Ascii.compare c1 c2 with
    | Eq => String.compare s1 s2
    | c => c
    end.
Proof. reflexivity. Qed.

Lemma pad2_compare (a b : Z) (r1 r2 : string) :
  (0 <= a <= 99)%Z -> (0 <= b <= 99)%Z ->
  String.compare (pad2 a ++ r1) (pad2 b ++ r2)
  = match (a ?= b)%Z with
    | Eq => String.compare r1 r2
    | c => c
    end.
Proof.
  intros Ha Hb. unfold pad2.
  change (String.compare (String (digit (a / 10)) (String (digit a) r1))
            (String (digit (b / 10)) (String (digit b) r2))
          = match (a ?= b)%Z with Eq => String.compare r1 r2 | c => c end).
  rewrite !compare_step, !digit_compare.
  destruct (Z.compare_spec ((a / 10) mod 10) ((b / 10) mod 10));
    destruct (Z.compare_spec (a mod 10) (b mod 10));
    destruct (Z.compare_spec a b); try reflexivity;
    exfalso; Z.div_mod_to_equations; lia.
Qed.

Lemma pad4_pad2 (n : Z) (r : string) :
  (pad4 n ++ r)%string = (pad2 (n / 100) ++ pad2 (n mod 100) ++ r)%string.
Proof.
  unfold pad4, pad2.
  change (String (digit (n / 1000)) (String (digit (n / 100))
            (String (digit (n / 10)) (String (digit n) r)))
          = String (digit (n / 100 / 10)) (String (digit (n / 100))
              (String (digit (n mod 100 / 10)) (String (digit (n mod 100)) r)))).
  assert (D : forall x y, (x mod 10 = y mod 10)%Z -> digit x = digit y).
  { intros x y E. unfold digit. rewrite E. reflexivity. }
  rewrite (D (n / 1000) (n / 100 / 10))%Z, (D (n / 10) (n mod 100 / 10))%Z,
    (D n (n mod 100))%Z; try reflexivity; Z.div_mod_to_equations; lia.
Qed.

Lemma date_text_compare (a b : Date) :
  four_two_two a -> four_two_two b ->
  String.compare (date_text a) (date_text b) = date_compare a b.
Proof.
  intros (Hy & Hm & Hd) (Hy' & Hm' & Hd'). unfold date_text, date_compare.
  rewrite !pad4_pad2.
  rewrite pad2_compare by (Z.div_mod_to_equations; lia).
  rewrite pad2_compare by (Z.div_mod_to_equations; lia).
  change ("-" ++ pad2 (month a) ++ "-" ++ pad2 (day a))%string
    with (String "-" (pad2 (month a) ++ String "-" (pad2 (day a) ++ ""))%string).
  change ("-" ++ pad2 (month b) ++ "-" ++ pad2 (day b))%string
    with (String "-" (pad2 (month b) ++ String "-" (pad2 (day b) ++ ""))%string).
  rewrite compare_step. change (Ascii.compare "-" "-") with Eq. cbv iota.
  rewrite pad2_compare by lia.
  rewrite compare_step. change (Ascii.compare "-" "-") with Eq. cbv iota.
  rewrite pad2_compare by lia.
  change (String.compare "" "") with Eq.
  destruct (Z.compare_spec (year a / 100) (year b / 100));
    destruct (Z.compare_spec (year a mod 100) (year b mod 100));
    destruct (Z.compare_spec (year a) (year b)); try reflexivity;
    try (destruct (month a ?= month b)%Z; destruct (day a ?= day b)%Z; reflexivity);
    exfalso; Z.div_mod_to_equations; lia.
Qed.

Ltac months m :=
  let C := fresh "C" in
  assert (C : (m = 1 \/ m = 2 \/ m = 3 \/ m = 4 \/ m = 5 \/ m = 6 \/ m = 7 \/ m = 8
               \/ m = 9 \/ m = 10 \/ m = 11 \/ m = 12)%Z) by lia;
  repeat (destruct C as [C | C]).

Lemma days_from_civil_closed (y m d : Z) :
  (1 <= m <= 12)%Z ->
  days_from_civil y m d
  = (year_days (if m <=? 2 then y - 1 else y) + month_offset m + d - 719469)%Z.
Proof.
  intros Hm. unfold days_from_civil, year_days.
  months m; subst m; cbn -[Z.div Z.modulo Z.mul Z.add Z.sub];
    Z.div_mod_to_equations; lia.
Qed.

Lemma year_days_next (y : Z) :
  year_days (y + 1) = (year_days y + 365 + (if leap (y + 1) then 1 else 0))%Z.
Proof.
  unfold year_days, leap.
  destruct (Z.eqb_spec ((y + 1) mod 4) 0); destruct (Z.eqb_spec ((y + 1) mod 100) 0);
    destruct (Z.eqb_spec ((y + 1) mod 400) 0); cbn [andb orb negb];
    Z.div_mod_to_equations; lia.
Qed.

Lemma year_days_mono (y y' : Z) :
  (y < y')%Z -> (year_days y + 365 * (y' - y) <= year_days y')%Z.
Proof.
  intros H. unfold year_days. Z.div_mod_to_equations. lia.
Qed.

Lemma day_number_closed (d : Date) :
  real_day d ->
  day_number d
  = (year_days (if month d <=? 2 then year d - 1 else year d)
     + month_offset (month d) + day d - 719469)%Z.
Proof.
  intros [Hm _]. unfold day_number. apply days_from_civil_closed. exact Hm.
Qed.

Lemma day_number_bounds (d : Date) :
  real_day d ->
  (year_days (year d - 1) + 307 - 719469 <= day_number d
   <= year_days (year d) + 306 - 719469)%Z.
Proof.
  intros H. rewrite (day_number_closed d H). destruct H as [Hm Hd].
  pose proof (year_days_next (year d - 1)) as N.
  replace (year d - 1 + 1)%Z with (year d) in N by lia.
  unfold days_in_month in Hd.
  destruct (leap (year d));
    months (month d); rewrite C in *; cbn in Hd |- *; lia.
Qed.

Lemma day_number_mono (a b : Date) :
  real_day a -> real_day b -> date_lt a b -> (day_number a < day_number b)%Z.
Proof.
  intros Ha Hb [Hy | [Hy [Hm | [Hm Hd]]]].
  - pose proof (day_number_bounds a Ha) as Ba.
    pose proof (day_number_bounds b Hb) as Bb.
    destruct (Z.eq_dec (year a) (year b - 1)%Z) as [E | E].
    + rewrite <- E in Bb. lia.
    + pose proof (year_days_mono (year a) (year b - 1)%Z ltac:(lia)). lia.
  - rewrite (day_number_closed a Ha), (day_number_closed b Hb).
    destruct Ha as [Hma Hda], Hb as [Hmb Hdb]. rewrite <- Hy in *.
    pose proof (year_days_next (year a - 1)) as N.
    replace (year a - 1 + 1)%Z with (year a) in N by lia.
    unfold days_in_month in Hda, Hdb.
    destruct (leap (year a));
      months (month a); rewrite C in *; clear C;
      months (month b); rewrite C in *; clear C;
      cbn in Hda, Hdb |- *; lia.
  - rewrite (day_number_closed a Ha), (day_number_closed b Hb).
    rewrite Hy, Hm. lia.
Qed.

Lemma date_compare_spec (a b : Date) :
  match date_compare a b with
  | Eq => a = b
  | Lt => date_lt a b
  | Gt => date_lt b a
  end.
Proof.
  unfold date_compare, date_lt. destruct a as [y m d], b as [y' m' d']. cbn.
  destruct (Z.compare_spec y y'); [| left; assumption | left; assumption].
  destruct (Z.compare_spec m m');
    [| right; split; [assumption | left; assumption]
     | right; split; [symmetry; assumption | left; assumption]].
  destruct (Z.compare_spec d d').
  - congruence.
  - right. split; [assumption |]. right. split; assumption.
  - right. split; [symmetry; assumption |]. right. split; [symmetry |]; assumption.
Qed.

Lemma date_lt_irrefl (a b : Date) : date_lt a b -> date_lt b a -> False.
Proof. unfold date_lt. lia. Qed.

(** X25.  On days written with a four-digit year and two-digit month and
    day, the text comparison that the statements apply to [date] is the
    order of the calendar: earlier text means an earlier (year, month, day),
    equal text the same day, and for real days of the calendar the text
    order is the order of the day numbers. *)
Theorem date_text_order (a b : Date) :
  four_two_two a -> four_two_two b ->
  (str_le (date_text a) (date_text b) = true <-> date_lt a b \/ a = b)
  /\ (date_text a = date_text b <-> a = b)
  /\ (real_day a -> real_day b ->
      (str_le (date_text a) (date_text b) = true <-> (day_number a <= day_number b)%Z)).
Proof.
  intros Ha Hb.
  pose proof (date_text_compare a b Ha Hb) as C.
  pose proof (date_compare_spec a b) as S.
  assert (L : str_le (date_text a) (date_text b) = true <-> date_lt a b \/ a = b).
  { unfold str_le, String.leb. rewrite C.
    destruct (date_compare a b); split; intros H; try reflexivity; try discriminate.
    - right. exact S.
    - left. exact S.
    - destruct H as [H | ->].
      + exfalso. exact (date_lt_irrefl _ _ H S).
      + exfalso. unfold date_lt in S. lia. }
  split; [exact L |]. split.
  - split; [| intros ->; reflexivity].
    intros E. rewrite E in C.
    assert (R : String.compare (date_text b) (date_text b) = Eq).
    { pose proof (String.compare_antisym (date_text b) (date_text b)) as A.
      destruct (String.compare (date_text b) (date_text b)); [reflexivity | |];
        discriminate A. }
    rewrite R in C. rewrite <- C in S. exact S.
  - intros Ra Rb. rewrite L. split.
    + intros [H | ->]; [| lia]. pose proof (day_number_mono a b Ra Rb H). lia.
    + intros H. destruct (date_compare a b).
      * right. exact S.
      * left. exact S.
      * pose proof (day_number_mono b a Rb Ra S). lia.
Qed.

(** The leap day of 2024 and the day after it. *)
Lemma date_text_order_march :
  str_le (date_text (mkDate 2024 2 29)) (date_text (mkDate 2024 3 1)) = true
  /\ (day_number (mkDate 2024 2 29) <= day_number (mkDate 2024 3 1))%Z.
Proof.
  assert (Ha : four_two_two (mkDate 2024 2 29)) by (unfold four_two_two; cbn; lia).
  assert (Hb : four_two_two (mkDate 2024 3 1)) by (unfold four_two_two; cbn; lia).
  assert (Ra : real_day (mkDate 2024 2 29))
    by (vm_compute; repeat split; intros H; discriminate H).
  assert (Rb : real_day (mkDate 2024 3 1))
    by (vm_compute; repeat split; intros H; discriminate H).
  destruct (date_text_order (mkDate 2024 2 29) (mkDate 2024 3 1) Ha Hb) as (_ & _ & H).
  split; [reflexivity |]. apply (H Ra Rb). reflexivity.
Defined.

(** ** formatExportData: when it fails *)

Section FormatFailures.

Context (Number_toString : Q -> string)
        (JSON_stringify : ExportData -> string)
        (formatCurrency : value -> string).

(** X26.  formatExportData fails in exactly two cases: CSV asked of data that
    is not an array of rows, and a format other than json, csv and markdown;
    JSON always succeeds, markdown of anything but a summary report falls
    back to JSON, and CSV of no rows is the empty text. *)
Theorem formatExportData_failures (data : ExportData) (format : string) :
  (forall message : string,
     formatExportData Number_toString JSON_stringify formatCurrency data format
     = Err message <->
     (format = "csv" /\ (forall rows, data <> Rows rows)
      /\ message = "CSV format requires array data")
     \/ (~ In format ["json"; "csv"; "markdown"]
         /\ message = ("Unknown format: " ++ format)%string))
  /\ formatExportData Number_toString JSON_stringify formatCurrency data "json"
     = Ok (JSON_stringify data)
  /\ (forall rows : list record,
        formatExportData Number_toString JSON_stringify formatCurrency (Rows rows)
          "markdown"
        = Ok (JSON_stringify (Rows rows)))
  /\ (forall tables exported_at version,
        formatExportData Number_toString JSON_stringify formatCurrency
          (Backup tables exported_at version) "markdown"
        = Ok (JSON_stringify (Backup tables exported_at version)))
  /\ formatExportData Number_toString JSON_stringify formatCurrency (Rows []) "csv"
     = Ok "".
Proof.
  split; [| repeat split].
  intros message. unfold formatExportData.
  destruct (String.eqb_spec format "json") as [-> | Hj].
  { split; [discriminate |]. intros [(H & _) | (H & _)]; [discriminate H |].
    exfalso. apply H. cbn. tauto. }
  destruct (String.eqb_spec format "csv") as [-> | Hc].
  { destruct data as [rows | ? ? ? ? ? ? | ? ? ?].
    - destruct rows as [| first rest].
      + split; [discriminate |]. intros [(_ & H & _) | (H & _)].
        * exfalso. exact (H [] eq_refl).
        * exfalso. apply H. cbn. tauto.
      + split; [discriminate |]. intros [(_ & H & _) | (H & _)].
        * exfalso. exact (H (first :: rest) eq_refl).
        * exfalso. apply H. cbn. tauto.
    - split.
      + intros H. inversion H. left. repeat split. intros rows. discriminate.
      + intros [(_ & _ & ->) | (H & _)]; [reflexivity |]. exfalso. apply H. cbn. tauto.
    - split.
      + intros H. inversion H. left. repeat split. intros rows. discriminate.
      + intros [(_ & _ & ->) | (H & _)]; [reflexivity |]. exfalso. apply H. cbn. tauto. }
  destruct (String.eqb_spec format "markdown") as [-> | Hm].
  { split.
    - destruct data; discriminate.
    - intros [(H & _) | (H & _)]; [discriminate H |]. exfalso. apply H. cbn. tauto. }
  split.
  - intros H. inversion H. right. split; [| reflexivity].
    cbn. intros [E | [E | [E | []]]]; congruence.
  - intros [(H & _) | (_ & ->)]; [contradiction | reflexivity].
Qed.

End FormatFailures.

(** ** Instances *)

(** A batch of three on the seeded store, with numbered ids. *)
Lemma batch_dry_run_predicts_seed :
  errors (snd (batchCreateTransactions (mkDate 2024 3 9) numbered false
                 (seedData (mkDate 2024 3 9)) [lunch; refund; unknown_category]))
  = errors (snd (batchCreateTransactions (mkDate 2024 3 9) numbered true
                   (seedData (mkDate 2024 3 9)) [lunch; refund; unknown_category])).
Proof.
  destruct (batch_dry_run_predicts (mkDate 2024 3 9) numbered (seedData (mkDate 2024 3 9))
              [lunch; refund; unknown_category]) as (H & _).
  - intros text [H | [H | [H | []]]]; discriminate H.
  - repeat constructor; cbn; intuition discriminate.
  - intros j Hj. cbn in Hj.
    assert (C : j = 0%nat \/ j = 1%nat \/ j = 2%nat) by lia.
    destruct C as [-> | [-> | ->]]; vm_compute; intuition discriminate.
  - exact H.
Defined.

(** The one budget of the food store. *)
Lemma budget_variance_rows_food :
  Permutation (map v_row (fst (budget_variance food_store march_2024)))
    (flat_map (variance_row_of food_store march_2024) (budgets food_store)).
Proof.
  destruct (budget_variance_rows food_store march_2024) as (H & _).
  - repeat constructor. cbn. tauto.
  - exact H.
Defined.



(** The month to date on 9 March 2024. *)
Lemma budget_status_food :
  exists items, getSummary march_9 parse_march food_store "budget_status" "this_month"
                  None false
                = Ok (BudgetStatus items (mkPeriodInfo "2024-03-01" "2024-03-09" "this_month")).
Proof.
  destruct (budget_status_matches_variance march_9 parse_march food_store "this_month"
              None false "2024-03-01" "2024-03-09" eq_refl) as (items & H & _).
  exists items. exact H.
Defined.


(** ** DatabaseFactory.validateConfig *)

(** X27.  DatabaseFactory.validateConfig accepts a configuration exactly when
    its type is [sqlite]; every other configuration is refused for a
    missing or an unsupported type, so the PostgreSQL, MongoDB and MySQL
    checks of the function are never reached. *)
Theorem validateConfig_accepts_sqlite (config : DatabaseConfig) :
  (validateConfig config = Ok tt <-> db_type config = Some "sqlite")
  /\ (forall message : string,
        validateConfig config = Err message ->
        (message = "Database type is required"
         /\ (db_type config = None \/ db_type config = Some ""))
        \/ (exists type, db_type config = Some type /\ type <> "" /\ type <> "sqlite"
                         /\ message = ("Unsupported database type: " ++ type
                                       ++ ". Supported types: sqlite")%string)).
Proof.
  unfold validateConfig.
  destruct (db_type config) as [type |]; cbn [truthy_str negb or_default].
  - destruct (String.eqb_spec type "") as [-> | Hne]; cbn [negb].
    + split.
      * split; [discriminate | intros H; discriminate H].
      * intros message H. inversion H. left. split; [reflexivity | right; reflexivity].
    + unfold getSupportedTypes, in_list. cbn [existsb String.concat].
      destruct (String.eqb_spec type "sqlite") as [-> | Hs]; cbn [orb negb].
      * split; [split; reflexivity | discriminate].
      * split.
        -- split; [discriminate | intros H; inversion H; contradiction].
        -- intros message H. inversion H. right. exists type. repeat split; assumption.
  - split.
    + split; [discriminate | intros H; discriminate H].
    + intros message H. inversion H. left. split; [reflexivity | left; reflexivity].
Qed.
